(** * hyper-reader: upload/deduplication handler, reading-page bootstrap and
      assistant pane, embedded in Rocq.

    Sources embedded here:
    - [src/app/api/books/upload/route.ts]   (the [POST] handler)
    - [src/app/read/[id]/page.tsx]          ([ReadBookPage])
    - [src/components/ai-agent-pane.tsx]    ([formatSelectionPositionLabel],
                                             [handleStreamingResponse])

    JavaScript strings are modelled by [string] (sequences of code units
    below 256); array buffers by [list byte]; JavaScript numbers that hold
    non-negative integers by [N] and signed integers by [Z]. *)

From Stdlib Require Import List String Ascii NArith ZArith Bool Arith Lia.
From Stdlib.Strings Require Import Byte.
From Stdlib Require Import Decimal DecimalString DecimalPos DecimalZ.
Import ListNotations.
Local Open Scope list_scope.
Local Open Scope string_scope.
Local Open Scope nat_scope.

(* ================================================================== *)
(** * Part I: definitions *)
(* ================================================================== *)

(** ** JavaScript string primitives used by the sources *)

(** [String.prototype.toLowerCase] on one code unit: A-Z, and the Latin-1
    capitals (U+00C0..U+00DE except the multiplication sign). *)
Definition lower_ascii (c : ascii) : ascii :=
  let n := nat_of_ascii c in
  if ((65 <=? n) && (n <=? 90)) || ((192 <=? n) && (n <=? 222) && negb (n =? 215))
  then ascii_of_nat (n + 32) else c.

Fixpoint toLowerCase (s : string) : string :=
  match s with
  | EmptyString => EmptyString
  | String c s' => String (lower_ascii c) (toLowerCase s')
  end.

(** [s.endsWith(suffix)] *)
Definition endsWith (s suffix : string) : bool :=
  (String.length suffix <=? String.length s) &&
  String.eqb (substring (String.length s - String.length suffix)
                        (String.length suffix) s) suffix.

(** [s.startsWith(p)] *)
Definition startsWith (s p : string) : bool := prefix p s.

(** [s.slice(n)] for a non-negative [n] *)
Definition slice (n : nat) (s : string) : string :=
  substring n (String.length s - n) s.

(** [s.split(sep)] where the separator is a single code unit chosen by the
    predicate [sep] (the one-character string ["\n"], or the character class
    [/[/:]/]).  The result always has at least one element. *)
Fixpoint split_on (sep : ascii -> bool) (s : string) : list string :=
  match s with
  | EmptyString => [EmptyString]
  | String c s' =>
      if sep c then EmptyString :: split_on sep s'
      else match split_on sep s' with
           | [] => [String c EmptyString]
           | first :: others => String c first :: others
           end
  end.

(** [s.replaceAll(a, b)] for one-character [a] and [b] *)
Fixpoint replaceAll (a b : ascii) (s : string) : string :=
  match s with
  | EmptyString => EmptyString
  | String c s' => String (if Ascii.eqb c a then b else c) (replaceAll a b s')
  end.

(** [s.padStart(n, fill)] for a one-character [fill] *)
Fixpoint repeat_char (c : ascii) (n : nat) : string :=
  match n with
  | O => EmptyString
  | S n' => String c (repeat_char c n')
  end.

Definition padStart (n : nat) (fill : ascii) (s : string) : string :=
  repeat_char fill (n - String.length s) ++ s.

(** [n.toString(16)] for a non-negative integer [n] *)
Definition hex_digit (d : N) : ascii :=
  nth (N.to_nat d) (list_ascii_of_string "0123456789abcdef") "0"%char.

Fixpoint toString16_aux (fuel : nat) (n : N) (acc : string) : string :=
  match fuel with
  | O => acc
  | S fuel' =>
      let acc' := String (hex_digit (n mod 16)) acc in
      if (n / 16 =? 0)%N then acc' else toString16_aux fuel' (n / 16) acc'
  end.

Definition toString16 (n : N) : string :=
  toString16_aux (S (N.to_nat (N.log2 n))) n EmptyString.

(** [arr.join("")] *)
Definition join (l : list string) : string := fold_right append EmptyString l.

(** ** SHA-256 (FIPS 180-4), the algorithm behind
       [crypto.subtle.digest("SHA-256", buffer)] *)

Local Open Scope N_scope.

Definition w32 (x : N) : N := x mod 2 ^ 32.
Definition add32 (x y : N) : N := (x + y) mod 2 ^ 32.
Definition rotr (n x : N) : N := N.lor (N.shiftr x n) (w32 (N.shiftl x (32 - n))).
Definition not32 (x : N) : N := N.lxor x 0xFFFFFFFF.

Definition Ch (x y z : N) : N := N.lxor (N.land x y) (N.land (not32 x) z).
Definition Maj (x y z : N) : N :=
  N.lxor (N.lxor (N.land x y) (N.land x z)) (N.land y z).
Definition bigSigma0 (x : N) : N := N.lxor (N.lxor (rotr 2 x) (rotr 13 x)) (rotr 22 x).
Definition bigSigma1 (x : N) : N := N.lxor (N.lxor (rotr 6 x) (rotr 11 x)) (rotr 25 x).
Definition smallSigma0 (x : N) : N := N.lxor (N.lxor (rotr 7 x) (rotr 18 x)) (N.shiftr x 3).
Definition smallSigma1 (x : N) : N := N.lxor (N.lxor (rotr 17 x) (rotr 19 x)) (N.shiftr x 10).

(** FIPS 180-4, sections 4.2.2 and 5.3.3: the round constants are the first
    thirty-two bits of the fractional parts of the cube roots of the first
    sixty-four primes, the initial hash value those of the square roots of
    the first eight. *)
Definition is_prime (n : N) : bool :=
  (2 <=? n) && forallb (fun d => negb (n mod d =? 0)) (map N.of_nat (seq 2 (N.to_nat n - 2))).

Definition first_primes (count : nat) : list N :=
  firstn count (filter is_prime (map N.of_nat (seq 2 310))).

(** The largest [r] below [2 ^ bits] with [r ^ k <= n], found bit by bit. *)
Fixpoint integer_root (k : N) (bits : nat) (n r : N) : N :=
  match bits with
  | O => r
  | S bits' =>
      let r' := r + 2 ^ N.of_nat bits' in
      if r' ^ k <=? n then integer_root k bits' n r' else integer_root k bits' n r
  end.

Definition fractional_root_bits (k p : N) : N :=
  integer_root k 36 (p * 2 ^ (32 * k)) 0 mod 2 ^ 32.

Definition sha256_K : list N :=
  Eval vm_compute in map (fractional_root_bits 3) (first_primes 64).

Definition sha256_H0 : list N :=
  Eval vm_compute in map (fractional_root_bits 2) (first_primes 8).

(** Big-endian bytes of a number, [n] bytes wide. *)
Fixpoint be_bytes (n : nat) (x : N) : list N :=
  match n with
  | O => []
  | S n' => (N.shiftr x (8 * N.of_nat n')) mod 256 :: be_bytes n' x
  end.

Definition be_word (bs : list N) : N :=
  fold_left (fun acc b => acc * 256 + b) bs 0.

(** Padding: a one bit, zeros up to 56 mod 64, then the bit length on 64 bits. *)
Definition sha256_pad (msg : list N) : list N :=
  let len := N.of_nat (List.length msg) in
  let zeros := N.to_nat ((119 - len mod 64) mod 64) in
  (msg ++ [0x80] ++ repeat 0 zeros ++ be_bytes 8 (8 * len))%list.

Fixpoint chunks_of (fuel size : nat) (l : list N) : list (list N) :=
  match fuel, l with
  | O, _ => []
  | _, [] => []
  | S fuel', _ => firstn size l :: chunks_of fuel' size (skipn size l)
  end.

Definition block_words (block : list N) : list N :=
  map be_word (chunks_of 16 4 block).

(** Message schedule: sixteen block words extended to sixty-four. *)
Fixpoint schedule (n : nat) (w : list N) : list N :=
  match n with
  | O => w
  | S n' =>
      let t := List.length w in
      let nw := add32 (add32 (smallSigma1 (nth (t - 2) w 0)) (nth (t - 7) w 0))
                      (add32 (smallSigma0 (nth (t - 15) w 0)) (nth (t - 16) w 0)) in
      schedule n' (w ++ [nw])%list
  end.

Record sha_state : Set := ShaState
  { sa : N; sb : N; sc : N; sd : N; se : N; sf : N; sg : N; sh : N }.

Definition sha_round (s : sha_state) (kw : N * N) : sha_state :=
  let '(k, w) := kw in
  let t1 := add32 (add32 (add32 (add32 (sh s) (bigSigma1 (se s)))
                                 (Ch (se s) (sf s) (sg s))) k) w in
  let t2 := add32 (bigSigma0 (sa s)) (Maj (sa s) (sb s) (sc s)) in
  ShaState (add32 t1 t2) (sa s) (sb s) (sc s) (add32 (sd s) t1) (se s) (sf s) (sg s).

Definition sha_add (x y : sha_state) : sha_state :=
  ShaState (add32 (sa x) (sa y)) (add32 (sb x) (sb y)) (add32 (sc x) (sc y))
           (add32 (sd x) (sd y)) (add32 (se x) (se y)) (add32 (sf x) (sf y))
           (add32 (sg x) (sg y)) (add32 (sh x) (sh y)).

Definition sha_compress (h : sha_state) (block : list N) : sha_state :=
  let w := schedule 48 (block_words block) in
  sha_add h (fold_left sha_round (combine sha256_K w) h).

Definition sha_init : sha_state :=
  ShaState (nth 0 sha256_H0 0) (nth 1 sha256_H0 0) (nth 2 sha256_H0 0) (nth 3 sha256_H0 0)
           (nth 4 sha256_H0 0) (nth 5 sha256_H0 0) (nth 6 sha256_H0 0) (nth 7 sha256_H0 0).

Definition sha_words (s : sha_state) : list N :=
  [sa s; sb s; sc s; sd s; se s; sf s; sg s; sh s].

Definition byte_of_N (n : N) : byte :=
  match Byte.of_N n with Some b => b | None => x00 end.

(** The digest, as the bytes of the resulting [ArrayBuffer]. *)
Definition sha256 (buffer : list byte) : list byte :=
  let padded := sha256_pad (map Byte.to_N buffer) in
  let blocks := chunks_of (List.length padded) 64 padded in
  let final := fold_left sha_compress blocks sha_init in
  map byte_of_N (flat_map (be_bytes 4) (sha_words final)).

Local Close Scope N_scope.

(** route.ts lines 39-40:
    [Array.from(new Uint8Array(hashBuffer))] and
    [hashArray.map(b => b.toString(16).padStart(2, "0")).join("")] *)
Definition hashArray (hashBuffer : list byte) : list N := map Byte.to_N hashBuffer.

Definition hex_of_hashArray (arr : list N) : string :=
  join (map (fun b => padStart 2 "0"%char (toString16 b)) arr).

Definition bytes_of_string (s : string) : list byte := list_byte_of_string s.

(** route.ts lines 37-40: the fingerprint of an uploaded buffer. *)
Definition hashHex (arrayBuffer : list byte) : string :=
  hex_of_hashArray (hashArray (sha256 arrayBuffer)).

(** The two lower-case hexadecimal digits of a byte, high nibble first. *)
Definition two_hex_digits (b : byte) : string :=
  String (hex_digit (Byte.to_N b / 16))
         (String (hex_digit (Byte.to_N b mod 16)) EmptyString).

Definition is_lower_hex (c : ascii) : bool :=
  existsb (Ascii.eqb c) (list_ascii_of_string "0123456789abcdef").

(** ** Values exchanged with the hosted backend *)

Record User : Type := { user_id : string }.
Record AuthError : Type := { auth_message : string }.

(** [{ data: { user }, error }] of [supabase.auth.getUser()] *)
Record UserResponse : Type :=
  { data_user : option User; auth_error : option AuthError }.

(** The session names a user and carries no error. *)
Definition authenticated (auth : UserResponse) (user : User) : Prop :=
  auth_error auth = None /\ data_user auth = Some user.

(** The uploaded [File]: [name], [type], and the bytes that
    [arrayBuffer()] resolves to; [size] is their number. *)
Record File : Type :=
  { file_name : string; file_type : string; file_buffer : list byte }.

Definition file_size (f : File) : N := N.of_nat (List.length (file_buffer f)).

(** The multipart form: only its ["file"] entry is read. *)
Record FormData : Type := { formData_get_file : option File }.

Record PostgrestError : Type :=
  { pg_message : string; pg_code : string; pg_details : string; pg_hint : string }.

Record StorageError : Type := { storage_message : string }.

(** [{ data, error }] of a query that ends in [.single()] *)
Record SingleResponse (A : Type) : Type :=
  { data : option A; error : option PostgrestError }.
Arguments data {A} _.
Arguments error {A} _.

(** Row shapes of the three [select]s. *)
Record BookIdTitle : Type := { sel_id : string; sel_title : string }.
Record LinkId : Type := { link_id : string }.
Record BookManifest : Type :=
  { bm_id : string; bm_title : string; readium_manifest_path : option string }.

(** [bookData], route.ts lines 101-109 *)
Record BookData : Type :=
  { bd_id : string;
    bd_title : string;
    bd_file_size : N;
    bd_file_checksum : string;
    bd_uploaded_by : string;
    bd_storage_path : string;
    bd_file_name : string }.

(** What a rejected promise carries into [catch (error)]. *)
Inductive JsThrown : Type :=
| ErrorInstance (message : string)
| OtherValue.

(** ** The awaited calls, and programs over them *)

Inductive Call : Type -> Type :=
| auth_getUser : Call UserResponse
| request_formData : Call (JsThrown + FormData)
| books_select_by_checksum (checksum : string) : Call (SingleResponse BookIdTitle)
| books_select_by_id (id : string) : Call (SingleResponse BookManifest)
| user_books_select (user book : string) : Call (SingleResponse LinkId)
| user_books_insert (user book : string) : Call (option PostgrestError)
| crypto_randomUUID : Call string
| books_insert (row : BookData) : Call (option PostgrestError)
| storage_upload (path : string) (body : list byte) : Call (option StorageError)
| books_delete_by_id (id : string) : Call (option PostgrestError)
| storage_remove (paths : list string) : Call (option StorageError).

Inductive Prog (A : Type) : Type :=
| Ret (a : A)
| Throw (e : JsThrown)
| Vis {R : Type} (c : Call R) (k : R -> Prog A).
Arguments Ret {A} a.
Arguments Throw {A} e.
Arguments Vis {A R} c k.

Declare Scope prog_scope.
Delimit Scope prog_scope with prog.
Notation "x <- 'await' c ;; k" := (Vis c (fun x => k))
  (at level 100, c at next level, right associativity) : prog_scope.
Notation "'await' c ;; k" := (Vis c (fun _ => k))
  (at level 100, c at next level, right associativity) : prog_scope.

(** [try { p } catch (error) { h error }] *)
Fixpoint try_catch {A : Type} (p : Prog A) (h : JsThrown -> Prog A) : Prog A :=
  match p with
  | Ret a => Ret a
  | Throw e => h e
  | Vis c k => Vis c (fun r => try_catch (k r) h)
  end.

(** ** Responses of the upload route *)

Inductive JsonValue : Type :=
| JString (s : string)
| JBool (b : bool).

Record NextResponse : Type :=
  { status : nat; body : list (string * JsonValue) }.

(** [NextResponse.json(body, { status })]; the status defaults to 200. *)
Definition json (b : list (string * JsonValue)) (st : nat) : NextResponse :=
  {| status := st; body := b |}.

Definition json_ok (b : list (string * JsonValue)) : NextResponse := json b 200.

(** route.ts line 103: [file.name.replace(/\.epub$/i, "")].  The [i] flag
    compares canonicalised (upper-cased) code units. *)
Definition regexp_canonicalize (c : ascii) : ascii :=
  let n := nat_of_ascii c in
  if ((97 <=? n) && (n <=? 122)) || ((224 <=? n) && (n <=? 254) && negb (n =? 247))
  then ascii_of_nat (n - 32) else c.

Fixpoint map_string (f : ascii -> ascii) (s : string) : string :=
  match s with
  | EmptyString => EmptyString
  | String c s' => String (f c) (map_string f s')
  end.

Definition strip_epub_extension (name : string) : string :=
  let n := String.length name in
  if (5 <=? n) && String.eqb (map_string regexp_canonicalize (substring (n - 5) 5 name)) ".EPUB"
  then substring 0 (n - 5) name
  else name.

(** route.ts line 98 *)
Definition storagePath_of (user : User) (bookId : string) : string :=
  "books/" ++ user_id user ++ "/" ++ bookId ++ ".epub".

(** route.ts line 30 *)
Definition invalid_file_type (file : File) : bool :=
  negb (String.eqb (file_type file) "application/epub+zip")
  && negb (endsWith (toLowerCase (file_name file)) ".epub").

(** The filename ends in [.epub], whatever the case of its letters. *)
Definition has_epub_extension (name : string) : Prop :=
  exists stem e p u b,
    name = stem ++ String "."%char (String e (String p (String u (String b EmptyString))))
    /\ (e = "e" \/ e = "E")%char /\ (p = "p" \/ p = "P")%char
    /\ (u = "u" \/ u = "U")%char /\ (b = "b" \/ b = "B")%char.

(** route.ts line 51: a lookup error other than [PGRST116] (no rows returned) *)
Definition fatal_check_error (checkError : option PostgrestError) : option PostgrestError :=
  match checkError with
  | Some e => if negb (String.eqb (pg_code e) "PGRST116") then Some e else None
  | None => None
  end.

Definition lookup_failed_response (checkError : PostgrestError) : NextResponse :=
  json [ ("error", JString "Database error");
         ("details", JString (pg_message checkError)) ] 500.

Definition duplicate_response (book_id : string) : NextResponse :=
  json_ok [ ("book_id", JString book_id);
            ("duplicate", JBool true);
            ("message", JString "Book already exists and has been added to your library") ].

Definition link_failed_response (linkError : PostgrestError) : NextResponse :=
  json [ ("error", JString "Failed to link book to user");
         ("details", JString (pg_message linkError)) ] 500.

Definition insert_failed_response (bookError : PostgrestError) : NextResponse :=
  json [ ("error", JString "Failed to create book record");
         ("details", JString (pg_message bookError));
         ("code", JString (pg_code bookError));
         ("hint", JString (pg_hint bookError)) ] 500.

Local Open Scope prog_scope.

(** ** The upload handler *)

(** Each [await] of the source is one call of the program; the logging calls
    ([console.log], [console.error]) are left out. *)

(** route.ts lines 60-93: a Content Record with this checksum exists. *)
Definition link_duplicate (user : User) (existingBook : BookIdTitle) : Prog NextResponse :=
  existingLink <- await user_books_select (user_id user) (sel_id existingBook) ;;
  match data existingLink with
  | Some _ => Ret (duplicate_response (sel_id existingBook))
  | None =>
      linkError <- await user_books_insert (user_id user) (sel_id existingBook) ;;
      match linkError with
      | Some e => Ret (link_failed_response e)
      | None => Ret (duplicate_response (sel_id existingBook))
      end
  end.

(** route.ts lines 125-175: the insert of the book record returned an error. *)
Definition book_insert_failed (user : User) (hashHex : string) (bookError : PostgrestError)
  : Prog NextResponse :=
  if String.eqb (pg_code bookError) "23505" then
    raceConditionBook <- await books_select_by_checksum hashHex ;;
    match data raceConditionBook with
    | Some book =>
        existingLink <- await user_books_select (user_id user) (sel_id book) ;;
        match data existingLink with
        | Some _ => Ret (duplicate_response (sel_id book))
        | None =>
            await user_books_insert (user_id user) (sel_id book) ;;
            Ret (duplicate_response (sel_id book))
        end
    | None => Ret (insert_failed_response bookError)
    end
  else Ret (insert_failed_response bookError).

(** route.ts lines 101-109 *)
Definition bookData_of (user : User) (file : File) (hashHex bookId : string) : BookData :=
  {| bd_id := bookId;
     bd_title := strip_epub_extension (file_name file);
     bd_file_size := file_size file;
     bd_file_checksum := hashHex;
     bd_uploaded_by := user_id user;
     bd_storage_path := storagePath_of user bookId;
     bd_file_name := file_name file |}.

Definition upload_failed_response (uploadError : StorageError) : NextResponse :=
  json [ ("error", JString "Failed to upload file to storage");
         ("details", JString (storage_message uploadError)) ] 500.

Definition uploaded_response (bookId : string) : NextResponse :=
  json_ok [ ("book_id", JString bookId);
            ("message", JString "Book uploaded successfully") ].

(** route.ts lines 95-225: no Content Record with this checksum was found. *)
Definition create_book (user : User) (file : File) (arrayBuffer : list byte) (hashHex : string)
  : Prog NextResponse :=
  bookId <- await crypto_randomUUID ;;
  let storagePath := storagePath_of user bookId in
  let bookData := bookData_of user file hashHex bookId in
  bookError <- await books_insert bookData ;;
  match bookError with
  | Some e => book_insert_failed user hashHex e
  | None =>
      uploadError <- await storage_upload storagePath arrayBuffer ;;
      match uploadError with
      | Some e =>
          await books_delete_by_id bookId ;;
          Ret (upload_failed_response e)
      | None =>
          linkError <- await user_books_insert (user_id user) bookId ;;
          match linkError with
          | Some e =>
              await books_delete_by_id bookId ;;
              await storage_remove [storagePath] ;;
              Ret (link_failed_response e)
          | None =>
              Ret (uploaded_response bookId)
          end
      end
  end.

(** route.ts lines 8-225: the body of the [try] block. *)
Definition POST_try : Prog NextResponse :=
  auth <- await auth_getUser ;;
  match auth_error auth, data_user auth with
  | None, Some user =>
      fd <- await request_formData ;;
      match fd with
      | inl thrown => Throw thrown
      | inr formData =>
          match formData_get_file formData with
          | None => Ret (json [ ("error", JString "No file provided") ] 400)
          | Some file =>
              if invalid_file_type file
              then Ret (json [ ("error", JString "Invalid file type. Expected EPUB file.") ] 400)
              else
                let arrayBuffer := file_buffer file in
                let hashHex := hashHex arrayBuffer in
                chk <- await books_select_by_checksum hashHex ;;
                match fatal_check_error (error chk) with
                | Some checkError =>
                    Ret (lookup_failed_response checkError)
                | None =>
                    match data chk with
                    | Some existingBook => link_duplicate user existingBook
                    | None => create_book user file arrayBuffer hashHex
                    end
                end
          end
      end
  | _, _ => Ret (json [ ("error", JString "Unauthorized") ] 401)
  end.

(** route.ts lines 227-236: the [catch] block. *)
Definition POST_catch (thrown : JsThrown) : Prog NextResponse :=
  Ret (json [ ("error", JString "Internal server error");
              ("details", JString match thrown with
                                  | ErrorInstance message => message
                                  | OtherValue => "Unknown error"
                                  end) ] 500).

Definition POST : Prog NextResponse := try_catch POST_try POST_catch.

(** ** The reading page, page.tsx *)

(** What the server component evaluates to: [redirect(url)] never returns,
    so it ends the evaluation. *)
Inductive PageResult : Type :=
| Redirect (url : string)
| ManifestNotFound
| BookReader (bookId manifestPath title : string).

(** [!book.readium_manifest_path]: the column is null or the empty string. *)
Definition manifest_path_of (book : BookManifest) : option string :=
  match readium_manifest_path book with
  | Some EmptyString => None
  | other => other
  end.

(** page.tsx lines 5-58 *)
Definition ReadBookPage (id : string) : Prog PageResult :=
  auth <- await auth_getUser ;;
  match auth_error auth, data_user auth with
  | None, Some user =>
      bookRes <- await books_select_by_id id ;;
      match error bookRes, data bookRes with
      | None, Some book =>
          userBook <- await user_books_select (user_id user) id ;;
          match data userBook with
          | None => Ret (Redirect "/")
          | Some _ =>
              match manifest_path_of book with
              | None => Ret ManifestNotFound
              | Some manifestPath => Ret (BookReader id manifestPath (bm_title book))
              end
          end
      | _, _ => Ret (Redirect "/")
      end
  | _, _ => Ret (Redirect "/auth/login")
  end.

Local Close Scope prog_scope.

(** ** Running a program against a backend *)

(** A backend answers every call from its own state: the session provider,
    the request, the datastore and the object store together. *)
Record Backend : Type :=
  { St : Type;
    reply : forall R : Type, Call R -> St -> R * St }.

(** One call together with the answer it got. *)
Inductive Event : Type :=
| E_getUser (r : UserResponse)
| E_formData (r : JsThrown + FormData)
| E_books_select_by_checksum (checksum : string) (r : SingleResponse BookIdTitle)
| E_books_select_by_id (id : string) (r : SingleResponse BookManifest)
| E_user_books_select (user book : string) (r : SingleResponse LinkId)
| E_user_books_insert (user book : string) (r : option PostgrestError)
| E_randomUUID (r : string)
| E_books_insert (row : BookData) (r : option PostgrestError)
| E_storage_upload (path : string) (body : list byte) (r : option StorageError)
| E_books_delete_by_id (id : string) (r : option PostgrestError)
| E_storage_remove (paths : list string) (r : option StorageError).

Definition event_of {R : Type} (c : Call R) : R -> Event :=
  match c in Call R return R -> Event with
  | auth_getUser => E_getUser
  | request_formData => E_formData
  | books_select_by_checksum h => E_books_select_by_checksum h
  | books_select_by_id i => E_books_select_by_id i
  | user_books_select u b => E_user_books_select u b
  | user_books_insert u b => E_user_books_insert u b
  | crypto_randomUUID => E_randomUUID
  | books_insert row => E_books_insert row
  | storage_upload p b => E_storage_upload p b
  | books_delete_by_id i => E_books_delete_by_id i
  | storage_remove ps => E_storage_remove ps
  end.

Inductive Outcome (A : Type) : Type :=
| Returned (a : A)
| Thrown (e : JsThrown).
Arguments Returned {A} a.
Arguments Thrown {A} e.

Fixpoint run {A : Type} (B : Backend) (p : Prog A) (s : St B)
  : list Event * Outcome A * St B :=
  match p with
  | Ret a => ([], Returned a, s)
  | Throw e => ([], Thrown e, s)
  | Vis c k =>
      let (r, s1) := reply B _ c s in
      let '(tr, o, s2) := run B (k r) s1 in
      (event_of c r :: tr, o, s2)
  end.

Definition trace_of {A : Type} {S : Type} (x : list Event * Outcome A * S) : list Event :=
  fst (fst x).
Definition outcome_of {A : Type} {S : Type} (x : list Event * Outcome A * S) : Outcome A :=
  snd (fst x).
Definition final_of {A : Type} {S : Type} (x : list Event * Outcome A * S) : S :=
  snd x.

(** *** Reading a trace *)

(** Calls that ask the datastore or the object store to change something. *)
Definition is_write (e : Event) : bool :=
  match e with
  | E_user_books_insert _ _ _ | E_books_insert _ _ | E_storage_upload _ _ _
  | E_books_delete_by_id _ _ | E_storage_remove _ _ => true
  | _ => false
  end.

(** Calls that did create a row or an object: an insert or an upload that
    came back without an error. *)
Definition created (e : Event) : bool :=
  match e with
  | E_user_books_insert _ _ None | E_books_insert _ None | E_storage_upload _ _ None => true
  | _ => false
  end.

Definition is_books_insert (e : Event) : bool :=
  match e with E_books_insert _ _ => true | _ => false end.
Definition is_storage_upload (e : Event) : bool :=
  match e with E_storage_upload _ _ _ => true | _ => false end.
Definition is_books_lookup (e : Event) : bool :=
  match e with E_books_select_by_checksum _ _ => true | _ => false end.

Definition is_link_insert (e : Event) : bool :=
  match e with E_user_books_insert _ _ _ => true | _ => false end.

(** The events that follow the first event satisfying [p]. *)
Fixpoint after (p : Event -> bool) (tr : list Event) : list Event :=
  match tr with
  | [] => []
  | e :: tr' => if p e then tr' else after p tr'
  end.

(** The events up to, and without, the first event satisfying [p]. *)
Fixpoint before (p : Event -> bool) (tr : list Event) : list Event :=
  match tr with
  | [] => []
  | e :: tr' => if p e then [] else e :: before p tr'
  end.

(** ** The hosted backend *)

(** Modelled from the spec: the tables and the bucket of the hosted backend
    (section 3 and section 6 of the specification; their schema is not part
    of the sources).  The Content Record table [books] carries a unique
    fingerprint [file_checksum] and a primary key [id]; the Ownership Link
    table [user_books] has no constraint of its own; the bucket [epubs] maps
    paths to objects. *)
Record BookRow : Type := { row_data : BookData; row_manifest : option string }.
Record LinkRow : Type := { ub_id : nat; ub_user : string; ub_book : string }.
Record Db : Type :=
  { books : list BookRow;
    user_books : list LinkRow;
    epubs : list (string * list byte) }.

(** What one request brings with it: its session and its form. *)
Record Request : Type :=
  { req_session : UserResponse; req_form : JsThrown + FormData }.

(** A datastore or storage call either goes through or is answered by an
    error without any effect. *)
Inductive Weather : Type :=
| Fine
| Outage (e : PostgrestError).

Record World : Type :=
  { w_db : Db;
    w_uuids : list string;        (* what [crypto.randomUUID()] will return *)
    w_weather : list Weather }.   (* one entry per datastore or storage call *)

Definition set_db (w : World) (d : Db) : World :=
  {| w_db := d; w_uuids := w_uuids w; w_weather := w_weather w |}.

Definition next_weather (w : World) : Weather * World :=
  match w_weather w with
  | [] => (Fine, w)
  | x :: rest => (x, {| w_db := w_db w; w_uuids := w_uuids w; w_weather := rest |})
  end.

Definition next_uuid (w : World) : string * World :=
  match w_uuids w with
  | [] => (EmptyString, w)
  | u :: rest => (u, {| w_db := w_db w; w_uuids := rest; w_weather := w_weather w |})
  end.

Definition no_rows : PostgrestError :=
  {| pg_message := "JSON object requested, multiple (or no) rows returned";
     pg_code := "PGRST116";
     pg_details := "The result contains 0 rows";
     pg_hint := EmptyString |}.

Definition unique_violation (constraint key : string) : PostgrestError :=
  {| pg_message := "duplicate key value violates unique constraint " ++ constraint;
     pg_code := "23505";
     pg_details := "Key (" ++ key ++ ") already exists.";
     pg_hint := EmptyString |}.

(** [.single()]: exactly one row, or the [PGRST116] error. *)
Definition single {A : Type} (rows : list A) : SingleResponse A :=
  match rows with
  | [r] => {| data := Some r; error := None |}
  | _ => {| data := None; error := Some no_rows |}
  end.

Definition failed {A : Type} (e : PostgrestError) : SingleResponse A :=
  {| data := None; error := Some e |}.

Definition db_books_by_checksum (d : Db) (h : string) : list BookIdTitle :=
  map (fun b => {| sel_id := bd_id (row_data b); sel_title := bd_title (row_data b) |})
      (filter (fun b => String.eqb (bd_file_checksum (row_data b)) h) (books d)).

Definition db_books_by_id (d : Db) (i : string) : list BookManifest :=
  map (fun b => {| bm_id := bd_id (row_data b); bm_title := bd_title (row_data b);
                   readium_manifest_path := row_manifest b |})
      (filter (fun b => String.eqb (bd_id (row_data b)) i) (books d)).

Definition db_links (d : Db) (u b : string) : list LinkId :=
  map (fun l => {| link_id := NilZero.string_of_uint (Nat.to_uint (ub_id l)) |})
      (filter (fun l => String.eqb (ub_user l) u && String.eqb (ub_book l) b) (user_books d)).

Definition db_insert_link (d : Db) (u b : string) : Db :=
  {| books := books d;
     user_books := (user_books d ++ [{| ub_id := List.length (user_books d); ub_user := u; ub_book := b |}])%list;
     epubs := epubs d |}.

(** Modelled from the spec: the insert of a Content Record is refused with
    the unique-violation code 23505 when the fingerprint (section 3: unique
    across all Content Records) or the identifier is already present. *)
Definition db_insert_book (d : Db) (row : BookData) : option PostgrestError * Db :=
  if existsb (fun b => String.eqb (bd_file_checksum (row_data b)) (bd_file_checksum row)) (books d)
  then (Some (unique_violation "books_file_checksum_key" "file_checksum"), d)
  else if existsb (fun b => String.eqb (bd_id (row_data b)) (bd_id row)) (books d)
  then (Some (unique_violation "books_pkey" "id"), d)
  else (None, {| books := (books d ++ [{| row_data := row; row_manifest := None |}])%list;
                 user_books := user_books d;
                 epubs := epubs d |}).

Definition db_delete_book (d : Db) (i : string) : Db :=
  {| books := filter (fun b => negb (String.eqb (bd_id (row_data b)) i)) (books d);
     user_books := user_books d;
     epubs := epubs d |}.

(** [upload(path, body, { upsert: false })] refuses an existing path. *)
Definition db_upload (d : Db) (path : string) (content : list byte) : option StorageError * Db :=
  if existsb (fun o => String.eqb (fst o) path) (epubs d)
  then (Some {| storage_message := "The resource already exists" |}, d)
  else (None, {| books := books d; user_books := user_books d;
                 epubs := (epubs d ++ [(path, content)])%list |}).

Definition db_remove (d : Db) (paths : list string) : Db :=
  {| books := books d; user_books := user_books d;
     epubs := filter (fun o => negb (existsb (String.eqb (fst o)) paths)) (epubs d) |}.

(** No object is stored at [path]. *)
Definition no_object_at (d : Db) (path : string) : Prop :=
  forall o, In o (epubs d) -> fst o <> path.

Definition storage_error_of (e : PostgrestError) : StorageError :=
  {| storage_message := pg_message e |}.

Definition supabase_reply (req : Request) (R : Type) (c : Call R) (w : World) : R * World :=
  match c in Call R return R * World with
  | auth_getUser => (req_session req, w)
  | request_formData => (req_form req, w)
  | crypto_randomUUID => next_uuid w
  | books_select_by_checksum h =>
      let (wt, w') := next_weather w in
      match wt with
      | Outage e => (failed e, w')
      | Fine => (single (db_books_by_checksum (w_db w') h), w')
      end
  | books_select_by_id i =>
      let (wt, w') := next_weather w in
      match wt with
      | Outage e => (failed e, w')
      | Fine => (single (db_books_by_id (w_db w') i), w')
      end
  | user_books_select u b =>
      let (wt, w') := next_weather w in
      match wt with
      | Outage e => (failed e, w')
      | Fine => (single (db_links (w_db w') u b), w')
      end
  | user_books_insert u b =>
      let (wt, w') := next_weather w in
      match wt with
      | Outage e => (Some e, w')
      | Fine => (None, set_db w' (db_insert_link (w_db w') u b))
      end
  | books_insert row =>
      let (wt, w') := next_weather w in
      match wt with
      | Outage e => (Some e, w')
      | Fine => let (r, d) := db_insert_book (w_db w') row in (r, set_db w' d)
      end
  | storage_upload p content =>
      let (wt, w') := next_weather w in
      match wt with
      | Outage e => (Some (storage_error_of e), w')
      | Fine => let (r, d) := db_upload (w_db w') p content in (r, set_db w' d)
      end
  | books_delete_by_id i =>
      let (wt, w') := next_weather w in
      match wt with
      | Outage e => (Some e, w')
      | Fine => (None, set_db w' (db_delete_book (w_db w') i))
      end
  | storage_remove ps =>
      let (wt, w') := next_weather w in
      match wt with
      | Outage e => (Some (storage_error_of e), w')
      | Fine => (None, set_db w' (db_remove (w_db w') ps))
      end
  end.

Definition Supabase (req : Request) : Backend :=
  {| St := World; reply := supabase_reply req |}.

(** Two requests in flight at once.  The backend seen by the request under
    study also serves a rival request: before each call of the former, the
    rival gets as many of its own calls served as the head of [turns] says. *)
Definition step_one {A : Type} (B : Backend) (p : Prog A) (s : St B) : Prog A * St B :=
  match p with
  | Vis c k => let (r, s1) := reply B _ c s in (k r, s1)
  | _ => (p, s)
  end.

Fixpoint serve {A : Type} (B : Backend) (n : nat) (p : Prog A) (s : St B) : Prog A * St B :=
  match n with
  | O => (p, s)
  | S n' => let (p', s') := step_one B p s in serve B n' p' s'
  end.

Record Race : Type :=
  { race_world : World; rival : Prog NextResponse; turns : list nat }.

Definition racing_reply (req rival_req : Request) (R : Type) (c : Call R) (st : Race)
  : R * Race :=
  let (p', w') := serve (Supabase rival_req) (hd 0 (turns st)) (rival st) (race_world st) in
  let (r, w'') := supabase_reply req R c w' in
  (r, {| race_world := w''; rival := p'; turns := tl (turns st) |}).

Definition Racing (req rival_req : Request) : Backend :=
  {| St := Race; reply := racing_reply req rival_req |}.

(** *** Sample data *)

Definition empty_db : Db := {| books := []; user_books := []; epubs := [] |}.

Definition signed_in (uid : string) : UserResponse :=
  {| data_user := Some {| user_id := uid |}; auth_error := None |}.

Definition signed_out : UserResponse :=
  {| data_user := None; auth_error := Some {| auth_message := "Auth session missing!" |} |}.

Definition upload_request (uid : string) (f : File) : Request :=
  {| req_session := signed_in uid;
     req_form := inr {| formData_get_file := Some f |} |}.

Definition moby_epub : File :=
  {| file_name := "Moby-Dick.EPUB";
     file_type := "application/epub+zip";
     file_buffer := bytes_of_string "PK moby" |}.


Definition calm (d : Db) (ids : list string) : World :=
  {| w_db := d; w_uuids := ids; w_weather := [] |}.

(** An error of the transport, as an outage answers a call. *)
Definition storage_down : PostgrestError :=
  {| pg_message := "fetch failed"; pg_code := "503"; pg_details := EmptyString;
     pg_hint := EmptyString |}.

(** Two first uploads of the same bytes race: alice's insert lands between
    bob's lookup and bob's insert; alice's storage upload then fails and her
    compensation deletes the record before bob looks the fingerprint up
    again. *)
Definition lost_race : Race :=
  {| race_world := {| w_db := empty_db;
                      w_uuids := ["id-bob"; "id-alice"];
                      w_weather := [Fine; Fine; Fine; Fine; Outage storage_down] |};
     rival := POST;
     turns := [0; 0; 0; 0; 5; 2] |}.

(** The same race, but the winner completes before the loser's insert. *)
Definition recovered_race (weather : list Weather) : Race :=
  {| race_world := {| w_db := empty_db;
                      w_uuids := ["id-bob"; "id-alice"];
                      w_weather := weather |};
     rival := POST;
     turns := [0; 0; 0; 0; 7] |}.

Definition bob_uploads_moby : Backend :=
  Racing (upload_request "bob" moby_epub) (upload_request "alice" moby_epub).

(** The datastore after alice's upload of [moby_epub]. *)
Definition after_alice : Db :=
  Eval vm_compute in
    w_db (final_of (run (Supabase (upload_request "alice" moby_epub)) POST
                        (calm empty_db ["id-alice"]))).

(** The datastore right after [user]'s first upload of [file] under [id]. *)
Definition library_of (user : User) (file : File) (id : string) : Db :=
  {| books := [ {| row_data := bookData_of user file (hashHex (file_buffer file)) id;
                   row_manifest := None |} ];
     user_books := [ {| ub_id := 0; ub_user := user_id user; ub_book := id |} ];
     epubs := [ (storagePath_of user id, file_buffer file) ] |}.

(** The datastore [d] once the manifest pipeline has set every record's
    manifest path to [path]. *)
Definition published (d : Db) (path : string) : Db :=
  {| books := map (fun b => {| row_data := row_data b; row_manifest := Some path |}) (books d);
     user_books := user_books d;
     epubs := epubs d |}.

Definition page_request (session : UserResponse) : Request :=
  {| req_session := session; req_form := inl OtherValue |}.

(** ** The position label of the assistant pane, ai-agent-pane.tsx *)

(** [parseInt(s, 10)]: leading white space, an optional sign, then the longest
    run of decimal digits; [None] is [NaN].  The integer is kept exact (a
    JavaScript number is exact up to 2^53). *)
Definition is_js_whitespace (c : ascii) : bool :=
  let n := nat_of_ascii c in
  ((9 <=? n) && (n <=? 13)) || (n =? 32) || (n =? 160).

Fixpoint trimStart_ws (s : string) : string :=
  match s with
  | EmptyString => EmptyString
  | String c r => if is_js_whitespace c then trimStart_ws r else s
  end.

Definition digit_of (c : ascii) : option (Decimal.uint -> Decimal.uint) :=
  match c with
  | "0" => Some Decimal.D0 | "1" => Some Decimal.D1 | "2" => Some Decimal.D2
  | "3" => Some Decimal.D3 | "4" => Some Decimal.D4 | "5" => Some Decimal.D5
  | "6" => Some Decimal.D6 | "7" => Some Decimal.D7 | "8" => Some Decimal.D8
  | "9" => Some Decimal.D9
  | _ => None
  end%char.

Fixpoint leading_digits (s : string) : Decimal.uint :=
  match s with
  | EmptyString => Decimal.Nil
  | String c r =>
      match digit_of c with
      | Some d => d (leading_digits r)
      | None => Decimal.Nil
      end
  end.

Definition parseInt10 (s : string) : option Z :=
  let s1 := trimStart_ws s in
  let '(negative, s2) :=
    match s1 with
    | String "-" r => (true, r)
    | String "+" r => (false, r)
    | _ => (false, s1)
    end in
  match leading_digits s2 with
  | Decimal.Nil => None
  | u => Some (Z.of_int (if negative then Decimal.Neg u else Decimal.Pos u))
  end.

(** [`${n}`] for an integer [n] (below 10^21 in magnitude, where JavaScript
    prints all the digits) *)
Definition Number_toString (n : Z) : string := NilZero.string_of_int (Z.to_int n).

(** The character class [/[/:]/] *)
Definition slash_or_colon (c : ascii) : bool :=
  Ascii.eqb c "/" || Ascii.eqb c ":".

Definition is_NaN (v : option Z) : bool :=
  match v with None => true | Some _ => false end.

(** ai-agent-pane.tsx lines 66-70 *)
Definition parseThreePart (pos : string) : option (Z * Z * Z) :=
  let parts := map parseInt10 (split_on slash_or_colon pos) in
  if (List.length parts <? 3) || existsb is_NaN parts then None
  else match parts with
       | Some a :: Some b :: Some c :: _ => Some (a, b, c)
       | _ => None
       end.

Record PositionLabel : Type := { label : string; title : string }.

(** ai-agent-pane.tsx line 82 *)
Definition compact (pos : string) : string := replaceAll "/" ":" pos.

(** ai-agent-pane.tsx lines 65-86 *)
Definition formatSelectionPositionLabel (start end_ : string) : PositionLabel :=
  match parseThreePart start, parseThreePart end_ with
  | Some (a, b, _), Some (a', b', _) =>
      {| label := "(" ++ Number_toString a ++ ":" ++ Number_toString b ++ "-"
                      ++ Number_toString a' ++ ":" ++ Number_toString b' ++ ")";
         title := "start=" ++ start ++ " end=" ++ end_ |}
  | _, _ =>
      {| label := "(" ++ compact start ++ "-" ++ compact end_ ++ ")";
         title := "start=" ++ start ++ " end=" ++ end_ |}
  end.

(** ai-agent-pane.tsx lines 249-284: what [handleExplainSelection] does with
    the position of the selection: it formats it for display and queries the
    summaries for it. *)
Record SelectionPosition : Type := { pos_start : string; pos_end : string }.

Inductive SummaryQuery : Type :=
| queryPdfSummariesForPosition (bookId start end_ : string)
| querySummariesForPosition (bookId start end_ : string).

Record ExplainPosition : Type :=
  { selectionPositionLabel : string;
    selectionPositionTitle : string;
    summaries_query : SummaryQuery }.

Definition explain_position (isPdf : bool) (bookId : string) (position : SelectionPosition)
  : ExplainPosition :=
  let formatted := formatSelectionPositionLabel (pos_start position) (pos_end position) in
  {| selectionPositionLabel := label formatted;
     selectionPositionTitle := title formatted;
     summaries_query :=
       if isPdf
       then queryPdfSummariesForPosition bookId (pos_start position) (pos_end position)
       else querySummariesForPosition bookId (pos_start position) (pos_end position) |}.

(** A string without separators, and a locator of three such components. *)
Fixpoint free_of (sep : ascii -> bool) (s : string) : Prop :=
  match s with
  | EmptyString => True
  | String c r => sep c = false /\ free_of sep r
  end.


(** ** The streaming handler of the assistant pane, ai-agent-pane.tsx *)

(** [new TextDecoder()] used with [{ stream: true }]: each call turns the
    bytes of one chunk into text and keeps, in the decoder, the bytes of a
    character that the chunk leaves unfinished. *)
Class TextDecoder : Type :=
  { decoder_state : Type;
    decoder_start : decoder_state;
    decode_chunk : decoder_state -> list byte -> string * decoder_state }.

(** What streaming means for a decoder: cutting the bytes in two changes
    neither the text that comes out in all nor the state that is left. *)
Class TextDecoderLaws (D : TextDecoder) : Prop :=
  { decode_nil : forall st, decode_chunk st [] = (EmptyString, st);
    decode_app : forall st b1 b2,
        decode_chunk st (b1 ++ b2)%list =
        let (t1, st1) := decode_chunk st b1 in
        let (t2, st2) := decode_chunk st1 b2 in
        (t1 ++ t2, st2) }.

(** A decoder for bodies of one-byte characters. *)
Definition one_byte_decoder : TextDecoder :=
  {| decoder_state := unit;
     decoder_start := tt;
     decode_chunk := fun st bs => (string_of_list_byte bs, st) |}.

(** Modelled from the spec: the payload of one event of the assistant prompt
    endpoint (section 6 of the specification; the endpoint [/api/chat] is not
    part of the sources): a JSON object that may carry a [content] string. *)
Record Payload : Type := { content : option string }.

Inductive Role : Type := user_role | assistant_role.

(** [AIMessage], ai-agent-pane.tsx lines 18-25 *)
Record AIMessage : Type :=
  { msg_id : string;
    msg_role : Role;
    msg_content : string;
    msg_timestamp : N;
    msg_selectionPositionLabel : option string;
    msg_selectionPositionTitle : option string }.

(** The two pieces of component state the handler sets. *)
Record PaneState : Type := { messages : list AIMessage; isLoading : bool }.

(** One call of a state setter: [setIsLoading(b)], or the [setMessages]
    update of lines 124-130 that appends [fragment] to the message [id]. *)
Inductive Update : Type :=
| SetIsLoading (b : bool)
| AppendContent (id : string) (fragment : string).

Definition append_content (id fragment : string) (msg : AIMessage) : AIMessage :=
  if String.eqb (msg_id msg) id
  then {| msg_id := msg_id msg;
          msg_role := msg_role msg;
          msg_content := msg_content msg ++ fragment;
          msg_timestamp := msg_timestamp msg;
          msg_selectionPositionLabel := msg_selectionPositionLabel msg;
          msg_selectionPositionTitle := msg_selectionPositionTitle msg |}
  else msg.

Definition apply_update (st : PaneState) (u : Update) : PaneState :=
  match u with
  | SetIsLoading b => {| messages := messages st; isLoading := b |}
  | AppendContent id fragment =>
      {| messages := map (append_content id fragment) (messages st);
         isLoading := isLoading st |}
  end.

Definition apply_updates (st : PaneState) (us : list Update) : PaneState :=
  fold_left apply_update us st.

Definition is_loading_end (u : Update) : bool :=
  match u with SetIsLoading false => true | _ => false end.

(** What [fetch] resolved to: [ok], [statusText], and the chunks that the
    reader of [body] delivers before it reports [done].  A read that rejects
    is handled by the caller's [catch] and is not part of this model. *)
Record FetchResponse : Type :=
  { ok : bool; statusText : string; response_body : option (list (list byte)) }.

Definition is_newline (c : ascii) : bool := Ascii.eqb c "010".

Definition DONE_line : string := "data: [DONE]".

Definition is_done_line (line : string) : bool := String.eqb line DONE_line.

Section AssistantStream.

Context {D : TextDecoder}.

(** [JSON.parse]; [None] when it throws, or when reading [content] off the
    parsed value does. *)
Variable JSON_parse : string -> option Payload.

(** Lines 113-136: the [for] loop over the complete lines of one read.  The
    flag says that [data: [DONE]] was met and the handler returned. *)
Fixpoint process_lines (assistantMessageId : string) (lines : list string)
  : list Update * bool :=
  match lines with
  | [] => ([], false)
  | line :: rest =>
      if startsWith line "data: " then
        let data := slice 6 line in
        if String.eqb data "[DONE]" then ([SetIsLoading false], true)
        else
          let appended :=
            match JSON_parse data with
            | Some parsed =>
                match content parsed with
                | Some EmptyString | None => []
                | Some fragment => [AppendContent assistantMessageId fragment]
                end
            | None => []
            end in
          let (us, returned) := process_lines assistantMessageId rest in
          (appended ++ us, returned)%list
      else process_lines assistantMessageId rest
  end.

(** Lines 105-139: the [while (true)] loop over the reads, then
    [setIsLoading(false)]. *)
Fixpoint read_loop (assistantMessageId : string) (reads : list (list byte))
  (decoder : decoder_state) (buffer : string) : list Update :=
  match reads with
  | [] => [SetIsLoading false]
  | value :: later =>
      let (text, decoder') := decode_chunk decoder value in
      let buffer := buffer ++ text in
      let lines := split_on is_newline buffer in
      let buffer := last lines EmptyString in
      let lines := removelast lines in
      let (us, returned) := process_lines assistantMessageId lines in
      if returned then us
      else (us ++ read_loop assistantMessageId later decoder' buffer)%list
  end.

(** Lines 89-140 *)
Definition handleStreamingResponse (response : FetchResponse) (assistantMessageId : string)
  : JsThrown + list Update :=
  if negb (ok response) then inl (ErrorInstance ("API error: " ++ statusText response))
  else match response_body response with
       | None => inl (ErrorInstance "No response body")
       | Some reads => inr (read_loop assistantMessageId reads decoder_start EmptyString)
       end.

(** The text of a body, decoded in one piece. *)
Definition body_text (bytes : list byte) : string :=
  fst (decode_chunk decoder_start bytes).

(** The message the specification expects: the [content] of every
    newline-terminated line that starts with [data: ] and parses, in order,
    up to the first [data: [DONE]] line. *)
Definition complete_lines (text : string) : list string :=
  removelast (split_on is_newline text).

Fixpoint until_done (lines : list string) : list string :=
  match lines with
  | [] => []
  | line :: rest => if String.eqb line DONE_line then [] else line :: until_done rest
  end.

Definition content_of_line (line : string) : string :=
  if startsWith line "data: " then
    match JSON_parse (slice 6 line) with
    | Some parsed => match content parsed with Some fragment => fragment | None => EmptyString end
    | None => EmptyString
    end
  else EmptyString.

Definition reconstructed (text : string) : string :=
  join (map content_of_line (until_done (complete_lines text))).

(** The fragments the handler appends, one per update. *)
Definition nonempty (s : string) : bool :=
  match s with EmptyString => false | _ => true end.

Definition fragments_of (lines : list string) : list string :=
  filter nonempty (map content_of_line (until_done lines)).

(** The text that the rest of the body decodes to. *)
Definition text_from (decoder : decoder_state) (reads : list (list byte)) : string :=
  fst (decode_chunk decoder (List.concat reads)).

End AssistantStream.

(** The complete lines of a text and the partial line after them. *)
Fixpoint cut (s : string) : list string * string :=
  match s with
  | EmptyString => ([], EmptyString)
  | String c r =>
      let (ls, rem) := cut r in
      if is_newline c then (EmptyString :: ls, rem)
      else match ls with
           | [] => ([], String c rem)
           | l :: ls' => (String c l :: ls', rem)
           end
  end.

(** A parser for payloads written as [{"content":"..."}], the fragment free
    of quotes and backslashes; everything else is refused. *)
Definition dquote : string := String (ascii_of_nat 34) EmptyString.

Definition payload_open : string := "{" ++ dquote ++ "content" ++ dquote ++ ":" ++ dquote.
Definition payload_close : string := dquote ++ "}".

Definition plain_char (c : ascii) : bool :=
  negb (Ascii.eqb c (ascii_of_nat 34)) && negb (Ascii.eqb c (ascii_of_nat 92)).

Definition simple_parse (s : string) : option Payload :=
  if startsWith s payload_open && endsWith s payload_close
     && (String.length payload_open + String.length payload_close <=? String.length s)
  then
    let fragment := substring (String.length payload_open)
                              (String.length s - String.length payload_open
                               - String.length payload_close) s in
    if forallb plain_char (list_ascii_of_string fragment)
    then Some {| content := Some fragment |}
    else None
  else None.

Definition sse_line (fragment : string) : string :=
  "data: " ++ payload_open ++ fragment ++ payload_close ++ String "010" EmptyString.

Definition sample_body : string :=
  sse_line "Call me " ++ "data: {oops" ++ String "010" EmptyString
  ++ ": keep-alive" ++ String "010" EmptyString
  ++ sse_line "Ishmael." ++ DONE_line ++ String "010" EmptyString
  ++ sse_line " (never shown)".

Definition placeholder (id : string) : AIMessage :=
  {| msg_id := id; msg_role := assistant_role; msg_content := EmptyString;
     msg_timestamp := 0; msg_selectionPositionLabel := None;
     msg_selectionPositionTitle := None |}.

(* ================================================================== *)
(** * Part I, continued: further definitions *)
(* ================================================================== *)

(** ** More ways to read a trace *)

Definition is_books_delete (e : Event) : bool :=
  match e with E_books_delete_by_id _ _ => true | _ => false end.

Definition is_storage_remove (e : Event) : bool :=
  match e with E_storage_remove _ _ => true | _ => false end.

(** route.ts lines 232-235: the answer of the [catch] block. *)
Definition caught_response (thrown : JsThrown) : NextResponse :=
  json [ ("error", JString "Internal server error");
         ("details", JString match thrown with
                             | ErrorInstance message => message
                             | OtherValue => "Unknown error"
                             end) ] 500.

(** The separator of storage paths and manifest paths. *)
Definition is_slash (c : ascii) : bool := Ascii.eqb c "/".

(** ** A trace and the datastore *)

(** What the events of a trace do to the tables and the bucket of the hosted
    backend: a write that came back without an error is applied, every other
    event leaves them alone.  [None] says that the trace cannot have come
    from the datastore [d]: an insert or an upload is reported as done where
    the datastore refuses it. *)
Definition replay_event (e : Event) (d : Db) : option Db :=
  match e with
  | E_user_books_insert u b None => Some (db_insert_link d u b)
  | E_books_insert row None =>
      match db_insert_book d row with
      | (None, d') => Some d'
      | (Some _, _) => None
      end
  | E_storage_upload path content None =>
      match db_upload d path content with
      | (None, d') => Some d'
      | (Some _, _) => None
      end
  | E_books_delete_by_id i None => Some (db_delete_book d i)
  | E_storage_remove paths None => Some (db_remove d paths)
  | _ => Some d
  end.

Fixpoint replay (tr : list Event) (d : Db) : option Db :=
  match tr with
  | [] => Some d
  | e :: tr' =>
      match replay_event e d with
      | Some d1 => replay tr' d1
      | None => None
      end
  end.

(** [d'] holds everything [d] holds, in the same order, and at most one more
    record, link and object. *)
Definition grows (d d' : Db) : Prop :=
  (exists new, books d' = (books d ++ new)%list /\ List.length new <= 1)
  /\ (exists new, user_books d' = (user_books d ++ new)%list /\ List.length new <= 1)
  /\ (exists new, epubs d' = (epubs d ++ new)%list /\ List.length new <= 1).


(** ** The library page, page.tsx lines 63-82 *)

(** What the library page evaluates to: the redirect, or the page with the
    upload form. *)
Inductive LibraryResult : Type :=
| LibraryRedirect (url : string)
| UploadBookForm.

Local Open Scope prog_scope.

(** [ProtectedPage], page.tsx lines 63-82 *)
Definition ProtectedPage : Prog LibraryResult :=
  auth <- await auth_getUser ;;
  match auth_error auth, data_user auth with
  | None, Some _ => Ret UploadBookForm
  | _, _ => Ret (LibraryRedirect "/auth/login")
  end.

Local Close Scope prog_scope.

(** ** The service client, ai-agent-pane.tsx lines 549-573 *)

(** The three variables of [process.env] that [createServiceClient] reads;
    [None] is [undefined]. *)
Record ProcessEnv : Type :=
  { SUPABASE_URL : option string;
    NEXT_PUBLIC_SUPABASE_URL : option string;
    SUPABASE_SERVICE_ROLE_KEY : option string }.

(** [a ?? b] *)
Definition nullish {A : Type} (a b : option A) : option A :=
  match a with
  | Some _ => a
  | None => b
  end.

(** A string that is neither [undefined] nor empty. *)
Definition truthy_string (s : option string) : option string :=
  match s with
  | Some EmptyString | None => None
  | Some _ => s
  end.

(** The arguments [createServerClient] is called with. *)
Record ServiceClient : Type := { client_url : string; client_key : string }.

Definition missing_service_key : JsThrown :=
  ErrorInstance ("Missing SUPABASE_SERVICE_ROLE_KEY or SUPABASE_URL. "
                 ++ "Add SUPABASE_SERVICE_ROLE_KEY to .env.local and restart the dev server.").

(** [createServiceClient], ai-agent-pane.tsx lines 549-573 *)
Definition createServiceClient (env : ProcessEnv) : JsThrown + ServiceClient :=
  let url := nullish (SUPABASE_URL env) (NEXT_PUBLIC_SUPABASE_URL env) in
  let serviceKey := SUPABASE_SERVICE_ROLE_KEY env in
  match truthy_string url, truthy_string serviceKey with
  | Some url, Some serviceKey => inr {| client_url := url; client_key := serviceKey |}
  | _, _ => inl missing_service_key
  end.

(** ** The reader component [BookReader], unnamed/part_000 *)

(** [s.lastIndexOf(c)] for a one-character [c]: the index of its last
    occurrence, or -1. *)
Fixpoint lastIndexOf (c : ascii) (s : string) : Z :=
  match s with
  | EmptyString => (-1)%Z
  | String d r =>
      let i := lastIndexOf c r in
      if (0 <=? i)%Z then (i + 1)%Z
      else if Ascii.eqb d c then 0%Z else (-1)%Z
  end.

(** Line 48: [manifestPath.substring(0, manifestPath.lastIndexOf('/') + 1)];
    [substring] takes a negative end for zero. *)
Definition manifestDir (manifestPath : string) : string :=
  substring 0 (Z.to_nat (lastIndexOf "/" manifestPath + 1)) manifestPath.

(** Line 49 *)
Definition baseUrl (supabaseUrl manifestPath : string) : string :=
  supabaseUrl ++ "/storage/v1/object/public/readium-manifests/" ++ manifestDir manifestPath.

(** A link of the reading order and a locator, with the fields the
    component reads or sets. *)
Record ReadiumLink : Type := { link_href : string; link_type : option string }.

Record Locator : Type :=
  { loc_href : string;
    loc_type : string;
    loc_fragments : list string;
    loc_progression : Z;
    loc_position : option nat }.

Section Positions.

(** [publication.manifest.locatorFromLink], of the Readium library; [None] is
    a missing locator. *)
Variable locatorFromLink : ReadiumLink -> option Locator.

(** Lines 111-119 *)
Definition manual_locator (link : ReadiumLink) (index : nat) : Locator :=
  {| loc_href := link_href link;
     loc_type := match truthy_string (link_type link) with
                 | Some t => t
                 | None => "text/html"
                 end;
     loc_fragments := [];
     loc_progression := 0;
     loc_position := Some (index + 1) |}.

(** Lines 104-120: [items.map((link, index) => ...)], from [index] on. *)
Fixpoint positions_from (index : nat) (items : list ReadiumLink) : list Locator :=
  match items with
  | [] => []
  | link :: rest =>
      match locatorFromLink link with
      | Some locator => locator
      | None => manual_locator link index
      end :: positions_from (S index) rest
  end.

(** Lines 92-125: the reading order of the publication ([None] when it has
    none) and the answer of [positionsFromManifest()] give the positions
    handed to the navigator, or the message of the error thrown. *)
Definition load_positions (readingOrder : option (list ReadiumLink))
  (positionsFromManifest : list Locator) : string + list Locator :=
  match readingOrder with
  | None | Some [] => inl "Publication has no reading order items"
  | Some items =>
      let positions :=
        match positionsFromManifest with
        | [] => positions_from 0 items
        | _ => positionsFromManifest
        end in
      match positions with
      | [] => inl "Failed to generate positions - reading order is empty"
      | _ => inr positions
      end
  end.

End Positions.

(** ** The tracked selection [useSelectedText], unnamed/part_002 *)

(** One [selectionchange] event as the handler sees it: what
    [isCurrentSelectionInAIPane()] and [captureSelection()] return. *)
Record SelectionChange : Type := { inAIPane : bool; captureSelection : string }.

(** [handleSelection], unnamed/part_002 lines 8-12 *)
Definition handleSelection (selectedText : string) (e : SelectionChange) : string :=
  if inAIPane e then selectedText else captureSelection e.

(** The value of the hook after the events delivered while it is mounted. *)
Definition useSelectedText (events : list SelectionChange) : string :=
  fold_left handleSelection events EmptyString.

(** The hook as unnamed/part_001 lines 39-54 have it, before the guard was
    added: every event sets the selection. *)
Definition useSelectedText_unguarded (events : list SelectionChange) : string :=
  fold_left (fun _ e => captureSelection e) events EmptyString.

Definition outside_pane (e : SelectionChange) : bool := negb (inAIPane e).

(** ** Bodies of the assistant endpoint, line by line *)

Definition newline : string := String "010" EmptyString.

(** A line of an event stream: a [data: ] line that carries a fragment, or
    any other line (a blank line, a comment, another field). *)
Inductive StreamLine : Type :=
| DataLine (fragment : string)
| OtherLine (text : string).

Section Framing.

(** How the sender writes the payload of a fragment. *)
Variable encode : string -> string.

Definition render (l : StreamLine) : string :=
  match l with
  | DataLine fragment => "data: " ++ encode fragment
  | OtherLine text => text
  end.

(** The lines, each ended by a newline, then the [data: [DONE]] line, then
    whatever the sender writes after it. *)
Definition framed (lines : list StreamLine) (rest : string) : string :=
  join (map (fun l => render l ++ newline) lines) ++ DONE_line ++ newline ++ rest.

(** [JSON.parse], as in the streaming handler. *)
Variable JSON_parse : string -> option Payload.

(** What the sender and the parser have to agree on for a line. *)
Definition well_framed (l : StreamLine) : Prop :=
  match l with
  | DataLine fragment =>
      JSON_parse (encode fragment) = Some {| content := Some fragment |}
      /\ free_of is_newline (encode fragment)
      /\ encode fragment <> "[DONE]"
  | OtherLine text => free_of is_newline text /\ startsWith text "data: " = false
  end.

End Framing.

Definition fragment_of (l : StreamLine) : string :=
  match l with
  | DataLine fragment => fragment
  | OtherLine _ => EmptyString
  end.

(** ** The prompt for an explanation, ai-agent-pane.tsx lines 286-343 *)

(** ["book" | "chapter" | "subchapter"] *)
Inductive SummaryType : Type := book_summary | chapter_summary | subchapter_summary.

(** [SummaryContext], lines 36-41; [None] is a missing [summary_type] and a
    [null] [summary_text]. *)
Record SummaryContext : Type :=
  { summary_type : option SummaryType;
    toc_title : string;
    chapter_path : string;
    summary_text : option string }.

(** What [getPdfLocalContextAroundCurrentSelection] returns. *)
Record LocalContext : Type :=
  { beforeText : string; selectedText : string; afterText : string }.

(** A string in a condition: the empty string counts as false. *)
Definition truthy (s : string) : bool :=
  match s with
  | EmptyString => false
  | String _ _ => true
  end.

(** [summary.summary_type === t] *)
Definition is_type (t : SummaryType) (summary : SummaryContext) : bool :=
  match summary_type summary, t with
  | Some book_summary, book_summary
  | Some chapter_summary, chapter_summary
  | Some subchapter_summary, subchapter_summary => true
  | _, _ => false
  end.

(** Lines 308-312: what one summary adds to the prompt. *)
Definition summary_item (summary : SummaryContext) : string :=
  match truthy_string (summary_text summary) with
  | Some text => "- " ++ text ++ newline
  | None => "- (No summary text available)" ++ newline
  end.

(** Lines 304-315: [appendSummaries], from the prompt so far to the prompt
    after it. *)
Definition appendSummaries (prompt label : string) (items : list SummaryContext) : string :=
  match items with
  | [] => prompt
  | _ =>
      let prompt := prompt ++ label ++ ":" ++ newline in
      let prompt := fold_left (fun prompt summary => prompt ++ summary_item summary)
                              items prompt in
      prompt ++ newline
  end.

(** Lines 286-343 *)
Definition build_prompt (bookTitle bookAuthor : string) (summaries : list SummaryContext)
  (isPdf : bool) (local : option LocalContext) (currentSelectedText : string) : string :=
  let prompt := EmptyString in
  let prompt := if truthy bookTitle then prompt ++ "Book: " ++ bookTitle ++ newline
                else prompt in
  let prompt := if truthy bookAuthor then prompt ++ "Author: " ++ bookAuthor ++ newline
                else prompt in
  let prompt := if truthy bookTitle || truthy bookAuthor then prompt ++ newline
                else prompt in
  let bookSummaries := filter (is_type book_summary) summaries in
  let broadSummaries := filter (is_type chapter_summary) summaries in
  let narrowSummaries := filter (is_type subchapter_summary) summaries in
  let prompt := appendSummaries prompt "Book-level summary (highest-level context)"
                                bookSummaries in
  let prompt := appendSummaries prompt "Broader summary (wide context)" broadSummaries in
  let prompt := appendSummaries prompt "More specific summary (narrow context)"
                                narrowSummaries in
  let prompt :=
    if isPdf then
      match local with
      | Some local =>
          if truthy (beforeText local) || truthy (afterText local) then
            let prompt :=
              prompt
              ++ "Local context around the selection (PDF text near where it appears on the page):"
              ++ newline ++ newline in
            let prompt :=
              if truthy (beforeText local)
              then prompt ++ "Before:" ++ newline ++ dquote ++ beforeText local ++ dquote
                          ++ newline ++ newline
              else prompt in
            let prompt :=
              prompt ++ "Selected:" ++ newline ++ dquote ++ selectedText local ++ dquote
                     ++ newline ++ newline in
            if truthy (afterText local)
            then prompt ++ "After:" ++ newline ++ dquote ++ afterText local ++ dquote
                        ++ newline ++ newline
            else prompt
          else prompt
      | None => prompt
      end
    else prompt in
  prompt ++ "Please explain the following selected text from the book:" ++ newline ++ newline
         ++ dquote ++ currentSelectedText ++ dquote ++ newline ++ newline
         ++ "Provide a clear and helpful explanation of this text in the context of the book.".

(** Lines 258-265 and 276-283: the rows of the summaries query as the
    prompt gets them; the rows of an EPUB all count as chapter summaries. *)
Definition summaries_of_rows (isPdf : bool) (rows : list SummaryContext)
  : list SummaryContext :=
  if isPdf
  then map (fun row => {| summary_type := summary_type row;
                          toc_title := toc_title row;
                          chapter_path := chapter_path row;
                          summary_text := summary_text row |}) rows
  else map (fun row => {| summary_type := Some chapter_summary;
                          toc_title := toc_title row;
                          chapter_path := chapter_path row;
                          summary_text := summary_text row |}) rows.

(** The parts of a prompt, for reading it. *)
Definition prompt_header (bookTitle bookAuthor : string) : string :=
  (if truthy bookTitle then "Book: " ++ bookTitle ++ newline else EmptyString)
  ++ (if truthy bookAuthor then "Author: " ++ bookAuthor ++ newline else EmptyString)
  ++ (if truthy bookTitle || truthy bookAuthor then newline else EmptyString).

Definition prompt_section (label : string) (items : list SummaryContext) : string :=
  match items with
  | [] => EmptyString
  | _ => label ++ ":" ++ newline ++ join (map summary_item items) ++ newline
  end.

Definition prompt_local (local : option LocalContext) : string :=
  match local with
  | Some local =>
      if truthy (beforeText local) || truthy (afterText local) then
        "Local context around the selection (PDF text near where it appears on the page):"
        ++ newline ++ newline
        ++ (if truthy (beforeText local)
            then "Before:" ++ newline ++ dquote ++ beforeText local ++ dquote
                 ++ newline ++ newline
            else EmptyString)
        ++ "Selected:" ++ newline ++ dquote ++ selectedText local ++ dquote
        ++ newline ++ newline
        ++ (if truthy (afterText local)
            then "After:" ++ newline ++ dquote ++ afterText local ++ dquote
                 ++ newline ++ newline
            else EmptyString)
      else EmptyString
  | None => EmptyString
  end.

Definition prompt_instruction (currentSelectedText : string) : string :=
  "Please explain the following selected text from the book:" ++ newline ++ newline
  ++ dquote ++ currentSelectedText ++ dquote ++ newline ++ newline
  ++ "Provide a clear and helpful explanation of this text in the context of the book.".

(** ** Sending a message, ai-agent-pane.tsx *)

(** The state and the props that the two handlers of the pane read. *)
Record Pane : Type :=
  { pane : PaneState;
    input : string;
    bookTitle : string;
    bookAuthor : string }.

Inductive BookType : Type := epub | pdf.

Record RawManifest : Type := { readingOrder : option (list string) }.

Record PaneProps : Type :=
  { bookId : option string;
    rawManifest : option RawManifest;
    bookType : BookType }.

(** One call of a state setter by a handler: [setMessages((prev) => [...prev,
    msg])], [setInput(text)], the updates that the streaming handler makes
    too, and the [setMessages] of the [catch] blocks, which replaces the
    content of the message [id]. *)
Inductive Action : Type :=
| PushMessage (msg : AIMessage)
| SetInput (text : string)
| Basic (u : Update)
| ReplaceContent (id text : string).

Definition replace_content (id text : string) (msg : AIMessage) : AIMessage :=
  if String.eqb (msg_id msg) id
  then {| msg_id := msg_id msg;
          msg_role := msg_role msg;
          msg_content := text;
          msg_timestamp := msg_timestamp msg;
          msg_selectionPositionLabel := msg_selectionPositionLabel msg;
          msg_selectionPositionTitle := msg_selectionPositionTitle msg |}
  else msg.

Definition set_pane (p : Pane) (st : PaneState) : Pane :=
  {| pane := st; input := input p; bookTitle := bookTitle p; bookAuthor := bookAuthor p |}.

Definition apply_action (p : Pane) (a : Action) : Pane :=
  match a with
  | PushMessage msg =>
      set_pane p {| messages := (messages (pane p) ++ [msg])%list;
                    isLoading := isLoading (pane p) |}
  | SetInput text =>
      {| pane := pane p; input := text; bookTitle := bookTitle p; bookAuthor := bookAuthor p |}
  | Basic u => set_pane p (apply_update (pane p) u)
  | ReplaceContent id text =>
      set_pane p {| messages := map (replace_content id text) (messages (pane p));
                    isLoading := isLoading (pane p) |}
  end.

Definition apply_actions (p : Pane) (actions : list Action) : Pane :=
  fold_left apply_action actions p.

(** One entry of [messagesForAPI]. *)
Record ApiMessage : Type := { api_role : Role; api_content : string }.

Definition api_of (msg : AIMessage) : ApiMessage :=
  {| api_role := msg_role msg; api_content := msg_content msg |}.

(** Lines 189-195 and 369-375 *)
Definition messagesForAPI (shown : list AIMessage) (content : string) : list ApiMessage :=
  (map api_of shown ++ [ {| api_role := user_role; api_content := content |} ])%list.

(** What one run of a handler did: the state setters it called, in order;
    the messages it sent to [/api/chat], if it got that far; and the error it
    rejected with, if it did. *)
Record Handled : Type :=
  { actions : list Action;
    request : option (list ApiMessage);
    rejected : option JsThrown }.

Definition idle : Handled := {| actions := []; request := None; rejected := None |}.

(** The readings of the clock during one run: [Date.now()] and [new Date()]
    for the user message, then for the assistant message. *)
Record Clock : Type :=
  { now_user : Z; date_user : N; now_assistant : Z; date_assistant : N }.

Definition fallback_content : string :=
  "Sorry, I encountered an error. Please make sure the OpenAI API key is configured correctly.".

(** [s.trim()] *)
Definition string_rev (s : string) : string :=
  string_of_list_ascii (List.rev (list_ascii_of_string s)).

Definition trim (s : string) : string :=
  string_rev (trimStart_ws (string_rev (trimStart_ws s))).

Section Handlers.

Context {D : TextDecoder}.
Variable JSON_parse : string -> option Payload.

(** Lines 177-220 and, in the same words, lines 357-400: the placeholder of
    the assistant message, then the request and the streaming of its
    response inside [try], with the [catch] block; [fetched] is what [fetch]
    resolved to or rejected with. *)
Definition converse (clock : Clock) (fetched : JsThrown + FetchResponse) : list Action :=
  let assistantMessageId := Number_toString (now_assistant clock + 1) in
  let assistantMessage :=
    {| msg_id := assistantMessageId;
       msg_role := assistant_role;
       msg_content := EmptyString;
       msg_timestamp := date_assistant clock;
       msg_selectionPositionLabel := None;
       msg_selectionPositionTitle := None |} in
  let streamed :=
    match fetched with
    | inl thrown => inl thrown
    | inr response => handleStreamingResponse JSON_parse response assistantMessageId
    end in
  PushMessage assistantMessage ::
  match streamed with
  | inr updates => map Basic updates
  | inl _ => [ReplaceContent assistantMessageId fallback_content; Basic (SetIsLoading false)]
  end.

(** [handleSend], lines 162-221 *)
Definition handleSend (p : Pane) (clock : Clock) (fetched : JsThrown + FetchResponse)
  : Handled :=
  if negb (truthy (trim (input p))) || isLoading (pane p) then idle
  else
    let userMessage :=
      {| msg_id := Number_toString (now_user clock);
         msg_role := user_role;
         msg_content := input p;
         msg_timestamp := date_user clock;
         msg_selectionPositionLabel := None;
         msg_selectionPositionTitle := None |} in
    let userInput := input p in
    {| actions := PushMessage userMessage :: SetInput EmptyString
                  :: Basic (SetIsLoading true) :: converse clock fetched;
       request := Some (messagesForAPI (messages (pane p)) userInput);
       rejected := None |}.

(** What the calls into the other modules return during one run of
    [handleExplainSelection]: [getSelectedText()], the position of the
    selection ([getCurrentPdfSelectionPosition()] or
    [getCurrentSelectionPosition(readingOrder, null)]), the rows that the
    awaited summaries query resolves to, or what it rejects with, and
    [getPdfLocalContextAroundCurrentSelection(...)]. *)
Record Selection : Type :=
  { getSelectedText : string;
    selection_position : option SelectionPosition;
    summaries_rows : JsThrown + list SummaryContext;
    local_context : option LocalContext }.

(** [handleExplainSelection], lines 230-401 *)
Definition handleExplainSelection (props : PaneProps) (p : Pane) (sel : Selection)
  (clock : Clock) (fetched : JsThrown + FetchResponse) : Handled :=
  match truthy_string (bookId props) with
  | None => idle
  | Some bookId =>
      if isLoading (pane p) then idle
      else
        let isPdf := match bookType props with pdf => true | epub => false end in
        match rawManifest props, isPdf with
        | None, false => idle
        | _, _ =>
            let currentSelectedText := getSelectedText sel in
            if negb (truthy currentSelectedText) then idle
            else
              match selection_position sel with
              | None =>
                  {| actions := [Basic (SetIsLoading true); Basic (SetIsLoading false)];
                     request := None;
                     rejected := None |}
              | Some position =>
                  let formatted := explain_position isPdf bookId position in
                  match summaries_rows sel with
                  | inl thrown =>
                      {| actions := [Basic (SetIsLoading true)];
                         request := None;
                         rejected := Some thrown |}
                  | inr rows =>
                      let summaries := summaries_of_rows isPdf rows in
                      let prompt := build_prompt (bookTitle p) (bookAuthor p) summaries isPdf
                                                 (local_context sel) currentSelectedText in
                      let userMessage :=
                        {| msg_id := Number_toString (now_user clock);
                           msg_role := user_role;
                           msg_content := "Explain text";
                           msg_timestamp := date_user clock;
                           msg_selectionPositionLabel :=
                             Some (selectionPositionLabel formatted);
                           msg_selectionPositionTitle :=
                             Some (selectionPositionTitle formatted) |} in
                      {| actions := Basic (SetIsLoading true) :: PushMessage userMessage
                                    :: converse clock fetched;
                         request := Some (messagesForAPI (messages (pane p)) prompt);
                         rejected := None |}
                  end
              end
        end
  end.

End Handlers.

(** The two messages of an exchange, for stating what a handler leaves
    behind. *)
Definition user_message (clock : Clock) (content : string) (label title : option string)
  : AIMessage :=
  {| msg_id := Number_toString (now_user clock);
     msg_role := user_role;
     msg_content := content;
     msg_timestamp := date_user clock;
     msg_selectionPositionLabel := label;
     msg_selectionPositionTitle := title |}.

Definition assistant_message (clock : Clock) (content : string) : AIMessage :=
  {| msg_id := Number_toString (now_assistant clock + 1);
     msg_role := assistant_role;
     msg_content := content;
     msg_timestamp := date_assistant clock;
     msg_selectionPositionLabel := None;
     msg_selectionPositionTitle := None |}.

(** The pane once the user has typed [text]. *)
Definition typed (p : Pane) (text : string) : Pane :=
  {| pane := pane p; input := text; bookTitle := bookTitle p; bookAuthor := bookAuthor p |}.

(** *** Sample data *)

Definition sample_pane : Pane :=
  {| pane := {| messages := [ {| msg_id := "1"; msg_role := assistant_role;
                                 msg_content := "Hello!"; msg_timestamp := 0;
                                 msg_selectionPositionLabel := None;
                                 msg_selectionPositionTitle := None |} ];
                isLoading := false |};
     input := "Who is speaking?";
     bookTitle := "Moby-Dick";
     bookAuthor := EmptyString |}.

Definition sample_clock : Clock :=
  {| now_user := 1700000000000; date_user := 1700000000000;
     now_assistant := 1700000000001; date_assistant := 1700000000001 |}.

Definition sample_selection : Selection :=
  {| getSelectedText := "Call me Ishmael.";
     selection_position := Some {| pos_start := "0/4/2/1:0"; pos_end := "0/4/2/1:16" |};
     summaries_rows := inr [ {| summary_type := None; toc_title := "Loomings";
                                chapter_path := "ch1";
                                summary_text := Some "Ishmael goes to sea." |} ];
     local_context := None |}.

Definition sample_props : PaneProps :=
  {| bookId := Some "id-1"; rawManifest := Some {| readingOrder := None |};
     bookType := epub |}.

Definition sample_response : FetchResponse :=
  {| ok := true; statusText := "OK";
     response_body := Some [ bytes_of_string (substring 0 13 sample_body);
                             bytes_of_string (substring 13 1000 sample_body) ] |}.

Definition failing_selection : Selection :=
  {| getSelectedText := "Call me Ishmael.";
     selection_position := Some {| pos_start := "0/4/2/1:0"; pos_end := "0/4/2/1:16" |};
     summaries_rows := inl (ErrorInstance "Failed to fetch");
     local_context := None |}.

(** ** Reading a fingerprint back *)

(** The value of a lower-case hexadecimal digit: its place among the
    digits that [hex_digit] draws from. *)
Fixpoint place_of (c : ascii) (digits : list ascii) : option N :=
  match digits with
  | [] => None
  | d :: rest => if Ascii.eqb c d then Some 0%N else option_map N.succ (place_of c rest)
  end.

Definition hex_value (c : ascii) : option N :=
  place_of c (list_ascii_of_string "0123456789abcdef").

(** The bytes that a string of hexadecimal digits stands for, two digits
    to the byte, high nibble first. *)
Fixpoint unhex (s : string) : option (list byte) :=
  match s with
  | EmptyString => Some []
  | String high (String low rest) =>
      match hex_value high, hex_value low, unhex rest with
      | Some h, Some l, Some bytes =>
          match Byte.of_N (16 * h + l) with
          | Some b => Some (b :: bytes)
          | None => None
          end
      | _, _, _ => None
      end
  | String _ EmptyString => None
  end.


(** ** The identifiers of the messages *)

(** ai-agent-pane.tsx lines 51-62: the state of the pane when it is first
    rendered, at the time [date]. *)
Definition initial_pane (date : N) : Pane :=
  {| pane :=
       {| messages :=
            [ {| msg_id := "1";
                 msg_role := assistant_role;
                 msg_content :=
                   "Hello! I'm your reading assistant. I can help you understand the book, "
                   ++ "answer questions, summarize sections, and more. "
                   ++ "What would you like to know?";
                 msg_timestamp := date;
                 msg_selectionPositionLabel := None;
                 msg_selectionPositionTitle := None |} ];
          isLoading := false |};
     input := EmptyString;
     bookTitle := EmptyString;
     bookAuthor := EmptyString |}.

(** The identifier of [msg] is a number below [t], as [Date.now()] gives
    them to messages made before the time [t]. *)
Definition made_before (t : Z) (msg : AIMessage) : Prop :=
  exists t', msg_id msg = Number_toString t' /\ (t' < t)%Z.

Definition ids_before (t : Z) (p : Pane) : Prop :=
  Forall (made_before t) (messages (pane p)).

Definition pushes_before (t : Z) (a : Action) : Prop :=
  match a with
  | PushMessage msg => made_before t msg
  | _ => True
  end.

(* ================================================================== *)
(** * Part II: theorems *)
(* ================================================================== *)

(** ** Strings *)

Lemma substring_split (s : string) :
  forall n, n <= String.length s ->
    s = substring 0 n s ++ substring n (String.length s - n) s.
Proof.
  induction s as [|c s IH]; intros [|n] Hn; simpl in *.
  - reflexivity.
  - lia.
  - f_equal. clear. induction s as [|d s IHs]; simpl; congruence.
  - f_equal. apply IH. lia.
Qed.

Lemma substring_app_right (a b : string) :
  substring (String.length a) (String.length b) (a ++ b) = b.
Proof.
  induction a as [|c a IH]; simpl.
  - induction b as [|d b IHb]; simpl; congruence.
  - exact IH.
Qed.

Lemma string_length_app (a b : string) :
  String.length (a ++ b) = String.length a + String.length b.
Proof. induction a; simpl; congruence. Qed.

Lemma endsWith_iff (s suffix : string) :
  endsWith s suffix = true <-> exists stem, s = stem ++ suffix.
Proof.
  unfold endsWith. rewrite andb_true_iff, Nat.leb_le, String.eqb_eq. split.
  - intros [Hle Hsub].
    exists (substring 0 (String.length s - String.length suffix) s).
    pose proof (substring_split s (String.length s - String.length suffix)) as H.
    replace (String.length s - (String.length s - String.length suffix))
      with (String.length suffix) in H by lia.
    rewrite Hsub in H. apply H. lia.
  - intros [stem ->]. rewrite string_length_app. split; [lia|].
    replace (String.length stem + String.length suffix - String.length suffix)
      with (String.length stem) by lia.
    apply substring_app_right.
Qed.

Lemma toLowerCase_length (s : string) :
  String.length (toLowerCase s) = String.length s.
Proof. induction s; simpl; congruence. Qed.

Lemma toLowerCase_substring (s : string) :
  forall n m, substring n m (toLowerCase s) = toLowerCase (substring n m s).
Proof.
  induction s as [|c s IH]; intros [|n] [|m]; simpl; try reflexivity.
  - f_equal. apply IH.
  - apply IH.
  - apply IH.
Qed.

Lemma toLowerCase_app (a b : string) :
  toLowerCase (a ++ b) = toLowerCase a ++ toLowerCase b.
Proof. induction a; simpl; congruence. Qed.

(** A letter and its capital are the only code units that lower-case to it. *)
Lemma lower_ascii_letter (c : ascii) (l : ascii) :
  In l ["."; "e"; "p"; "u"; "b"]%char ->
  lower_ascii c = l -> c = l \/ lower_ascii l = l /\ c = regexp_canonicalize l.
Proof.
  intros Hl H. simpl in Hl.
  destruct Hl as [<-|[<-|[<-|[<-|[<-|[]]]]]];
    destruct c as [[] [] [] [] [] [] [] []]; vm_compute in H;
    first [ discriminate H | left; reflexivity | right; split; reflexivity ].
Qed.


Lemma endsWith_lower_epub (name : string) :
  endsWith (toLowerCase name) ".epub" = true <-> has_epub_extension name.
Proof.
  split.
  - unfold endsWith. rewrite andb_true_iff, Nat.leb_le, String.eqb_eq.
    rewrite toLowerCase_length, toLowerCase_substring. simpl String.length.
    intros [Hle Hext].
    pose proof (substring_split name (String.length name - 5)) as Hsplit.
    replace (String.length name - (String.length name - 5)) with 5 in Hsplit by lia.
    destruct (substring (String.length name - 5) 5 name)
      as [|c0 [|c1 [|c2 [|c3 [|c4 [|c5 rest]]]]]]; simpl in Hext; try discriminate Hext.
    injection Hext as H0 H1 H2 H3 H4.
    exists (substring 0 (String.length name - 5) name), c1, c2, c3, c4.
    apply lower_ascii_letter in H0, H1, H2, H3, H4; simpl; auto 6.
    assert (c0 = "."%char) as -> by (destruct H0 as [?|[_ ?]]; assumption).
    split; [apply Hsplit; lia|].
    repeat split.
    + destruct H1 as [?|[_ ?]]; auto.
    + destruct H2 as [?|[_ ?]]; auto.
    + destruct H3 as [?|[_ ?]]; auto.
    + destruct H4 as [?|[_ ?]]; auto.
  - intros (stem & e & p & u & b & -> & He & Hp & Hu & Hb).
    apply endsWith_iff. exists (toLowerCase stem). rewrite toLowerCase_app. f_equal.
    destruct He as [-> | ->], Hp as [-> | ->], Hu as [-> | ->], Hb as [-> | ->];
      reflexivity.
Qed.

(** ** Running the handlers step by step *)

Arguments hashHex : simpl never.
Arguments invalid_file_type : simpl never.
Arguments strip_epub_extension : simpl never.
Arguments storagePath_of : simpl never.
Arguments fatal_check_error : simpl never.
Arguments bookData_of : simpl never.
Arguments String.eqb : simpl never.

Lemma run_Vis {A R : Type} (B : Backend) (c : Call R) (k : R -> Prog A) (s : St B) :
  run B (Vis c k) s =
  let (r, s1) := reply B _ c s in
  let '(tr, o, s2) := run B (k r) s1 in
  (event_of c r :: tr, o, s2).
Proof. reflexivity. Qed.

(** Ask the backend for its next answer and look at it. *)
Ltac answer :=
  match goal with
  | |- context [reply ?B ?R ?c ?s] =>
      let r := fresh "r" in let s' := fresh "s" in
      destruct (reply B R c s) as [r s'] eqn:?; simpl
  end.

Ltac look :=
  match goal with
  | |- context [match auth_error ?a with _ => _ end] => destruct a as [[?|] [?|]]; simpl
  | |- context [match data ?a with _ => _ end] => destruct a as [[?|] ?]; simpl
  | |- context [match error ?a with _ => _ end] => destruct a as [? [?|]]; simpl
  | |- context [match formData_get_file ?a with _ => _ end] => destruct a as [[?|]]; simpl
  | |- context [match fatal_check_error ?a with _ => _ end] =>
      destruct (fatal_check_error a) eqn:?; simpl
  | |- context [if invalid_file_type ?f then _ else _] =>
      destruct (invalid_file_type f) eqn:?; simpl
  | |- context [if String.eqb ?a ?b then _ else _] =>
      destruct (String.eqb a b) eqn:?; simpl
  | |- context [match ?x with inl _ => _ | inr _ => _ end] => destruct x; simpl
  | |- context [match ?x with Some _ => _ | None => _ end] => destruct x; simpl
  end.

Ltac crank := unfold POST, POST_try, create_book, book_insert_failed, link_duplicate; simpl;
  repeat first [answer | look].


(** Normalise a hypothesis with the virtual machine, and say so in the proof
    term. *)
Ltac vm_norm_in H :=
  let T := type of H in
  let T' := eval vm_compute in T in
  let H' := fresh in
  assert (H' : T') by (vm_cast_no_check H);
  clear H; rename H' into H.

(** Settle what a finished run says about the events it contains. *)
Ltac settle :=
  unfold trace_of, outcome_of, final_of in *;
  repeat (simpl in *;
          match goal with
          | H : ?a = ?a |- _ => clear H
          | H : Some _ = Some _ |- _ => inversion H; clear H; subst
          | H : _ :: _ = _ :: _ |- _ => inversion H; clear H; subst
          | H : inr _ = inr _ |- _ => inversion H; clear H; subst
          | H : _ /\ _ |- _ => destruct H
          end);
  simpl in *; try discriminate; try congruence;
  try solve [repeat split; reflexivity].

(** ** Validation of an upload request *)



(** ** Duplicate resolution *)

Lemma fatal_check_error_Some (x : option PostgrestError) (e : PostgrestError) :
  fatal_check_error x = Some e -> x = Some e /\ pg_code e <> "PGRST116".
Proof.
  unfold fatal_check_error. destruct x as [e'|]; [|discriminate].
  destruct (String.eqb (pg_code e') "PGRST116") eqn:E; simpl; [discriminate|].
  intros H. injection H as <-. split; [reflexivity|].
  intros Hc. apply String.eqb_eq in Hc. congruence.
Qed.

Lemma fatal_check_error_None (x : option PostgrestError) :
  fatal_check_error x = None ->
  forall e, x = Some e -> pg_code e = "PGRST116".
Proof.
  unfold fatal_check_error. intros H e ->.
  destruct (String.eqb (pg_code e) "PGRST116") eqn:E; simpl in H; [|discriminate].
  apply String.eqb_eq. exact E.
Qed.

(** C4.  For every validated upload and every backend there is one lookup
    before any record is inserted, and it selects by equality with the
    fingerprint of the uploaded bytes.  When its error carries the code
    [PGRST116] and no row, the handler goes on to create a new record (the
    next calls are the identifier and the insert of the book data); when its
    error carries any other code the request ends there with status 500 and
    the error's message as details. *)
Theorem duplicate_resolution (B : Backend) (s : St B) :
  let r := run B POST s in
  forall auth user form file,
    firstn 2 (trace_of r) = [E_getUser auth; E_formData (inr form)] ->
    authenticated auth user ->
    formData_get_file form = Some file ->
    invalid_file_type file = false ->
    exists chk,
      let lookup := E_books_select_by_checksum (hashHex (file_buffer file)) chk in
      nth_error (trace_of r) 2 = Some lookup
      /\ filter is_books_lookup (before is_books_insert (trace_of r)) = [lookup]
      /\ (forall e,
             error chk = Some e -> pg_code e = "PGRST116" -> data chk = None ->
             exists bookId ins,
               firstn 2 (skipn 3 (trace_of r)) =
                 [ E_randomUUID bookId;
                   E_books_insert
                     (bookData_of user file (hashHex (file_buffer file)) bookId) ins ])
      /\ (forall e,
             error chk = Some e -> pg_code e <> "PGRST116" ->
             trace_of r = [E_getUser auth; E_formData (inr form); lookup]
             /\ outcome_of r = Returned (lookup_failed_response e)
             /\ status (lookup_failed_response e) = 500
             /\ In ("details", JString (pg_message e)) (body (lookup_failed_response e))).
Proof.
  unfold authenticated. cbv zeta.
  crank; intros auth user form file Htr Hauth Hfile Hvalid; settle.
  all: eexists; split; [reflexivity|]; split; [reflexivity|]; split.
  all: intros e He Hcode; simpl in *; try intros Hdata; try discriminate.
  all: try (do 2 eexists; reflexivity).
  all: repeat match goal with
         | H : fatal_check_error _ = Some _ |- _ => apply fatal_check_error_Some in H; destruct H
         | H : fatal_check_error ?x = None, H' : ?x = Some _ |- _ =>
             apply (fatal_check_error_None _ H) in H'
         end; subst; try congruence.
  all: try (inversion He; subst; repeat split; auto).
Qed.

Lemma duplicate_resolution_witness :
  let down := {| w_db := empty_db; w_uuids := ["id-1"]; w_weather := [Outage storage_down] |} in
  outcome_of (run (Supabase (upload_request "alice" moby_epub)) POST down)
    = Returned (lookup_failed_response storage_down)
  /\ exists ins,
      firstn 2 (skipn 3 (trace_of (run (Supabase (upload_request "alice" moby_epub)) POST
                                       (calm empty_db ["id-1"])))) =
      [ E_randomUUID "id-1";
        E_books_insert (bookData_of {| user_id := "alice" |} moby_epub
                                    (hashHex (file_buffer moby_epub)) "id-1") ins ].
Proof.
  intros down. split.
  - pose proof (duplicate_resolution (Supabase (upload_request "alice" moby_epub)) down
                  (signed_in "alice") {| user_id := "alice" |}
                  {| formData_get_file := Some moby_epub |} moby_epub
                  ltac:(vm_compute; reflexivity) (conj eq_refl eq_refl) eq_refl
                  ltac:(vm_compute; reflexivity)) as H.
    vm_norm_in H. vm_compute.
    destruct H as (chk & Hnth & _ & _ & Hfatal).
    injection Hnth as <-.
    destruct (Hfatal _ eq_refl) as (_ & Hout & _); [discriminate | exact Hout].
  - pose proof (duplicate_resolution (Supabase (upload_request "alice" moby_epub))
                  (calm empty_db ["id-1"])
                  (signed_in "alice") {| user_id := "alice" |}
                  {| formData_get_file := Some moby_epub |} moby_epub
                  ltac:(vm_compute; reflexivity) (conj eq_refl eq_refl) eq_refl
                  ltac:(vm_compute; reflexivity)) as H.
    vm_norm_in H. vm_compute.
    destruct H as (chk & Hnth & _ & Hnone & _).
    injection Hnth as <-.
    destruct (Hnone no_rows) as (bookId & ins & Hnext); try reflexivity.
    exists ins. inversion Hnext. reflexivity.
Defined.

(** ** A failed insert of the Content Record *)

Ltac which_event :=
  simpl in *;
  repeat match goal with
         | H : In _ _ |- _ => simpl in H
         | H : _ \/ _ |- _ => destruct H
         | H : False |- _ => destruct H
         end;
  try discriminate.

Ltac codes :=
  repeat match goal with
         | H : String.eqb _ _ = true |- _ => apply String.eqb_eq in H
         | H : String.eqb _ _ = false |- _ => apply String.eqb_neq in H
         end.

(** C1, as the specification states it, fails: two first uploads of the same
    bytes race, the loser's insert is refused by the unique fingerprint, but
    the winner's storage upload fails and its compensation deletes the
    record; the loser's re-resolve then finds nothing and the answer is 500,
    not [duplicate=true]. *)
Lemma insert_failure_counterexample :
  let r := run bob_uploads_moby POST lost_race in
  let violation := unique_violation "books_file_checksum_key" "file_checksum" in
  nth_error (trace_of r) 4 =
    Some (E_books_insert (bookData_of {| user_id := "bob" |} moby_epub
                                      (hashHex (file_buffer moby_epub)) "id-bob")
                         (Some violation))
  /\ pg_code violation = "23505"
  /\ outcome_of r = Returned (insert_failed_response violation)
  /\ status (insert_failed_response violation) = 500
  /\ forall id, outcome_of r <> Returned (duplicate_response id).
Proof.
  cbv zeta. repeat apply conj; try (vm_compute; reflexivity).
  intros id. vm_compute. discriminate.
Qed.

(** C1, amended.  For every backend, when the insert of the Content Record
    fails: with a code other than 23505 the handler makes no further call and
    answers 500 with the insert error, nothing having been created; with the
    code 23505 (whatever the constraint) it looks the fingerprint up again
    and, if no record comes back, answers the same 500, nothing having been
    created; if a record comes back it looks for the Ownership Link, inserts
    one only when none is found, and answers success with [duplicate=true]
    and the resolved identifier. *)
Theorem insert_failure_paths (B : Backend) (s : St B) :
  let r := run B POST s in
  forall row e,
    In (E_books_insert row (Some e)) (trace_of r) ->
    let rest := after is_books_insert (trace_of r) in
    (pg_code e <> "23505" ->
       rest = []
       /\ outcome_of r = Returned (insert_failed_response e)
       /\ status (insert_failed_response e) = 500
       /\ filter created (trace_of r) = [])
    /\
    (pg_code e = "23505" ->
       exists re,
         let lookup := E_books_select_by_checksum (bd_file_checksum row) re in
         hd_error rest = Some lookup
         /\ (data re = None ->
               rest = [lookup]
               /\ outcome_of r = Returned (insert_failed_response e)
               /\ filter created (trace_of r) = [])
         /\ (forall book, data re = Some book ->
               exists l,
                 let select := E_user_books_select (bd_uploaded_by row) (sel_id book) l in
                 nth_error rest 1 = Some select
                 /\ (data l <> None -> rest = [lookup; select])
                 /\ (data l = None ->
                       exists ins,
                         rest = [lookup; select;
                                 E_user_books_insert (bd_uploaded_by row) (sel_id book) ins])
                 /\ outcome_of r = Returned (duplicate_response (sel_id book)))).
Proof.
  cbv zeta. crank; intros row e Hin; unfold trace_of, outcome_of in *; which_event.
  all: match goal with H : E_books_insert _ _ = E_books_insert _ _ |- _ =>
         inversion H; clear H; subst end.
  all: codes; simpl.
  all: split; intros Hcode; try congruence.
  all: try solve [repeat split; reflexivity].
  all: eexists; split; [reflexivity|]; split; simpl.
  all: try solve [intros Hd; discriminate Hd].
  all: try solve [intros _; repeat split; reflexivity].
  all: intros book Hb; inversion Hb; subst; clear Hb.
  all: eexists; split; [reflexivity|]; simpl; repeat split; try congruence.
  all: try solve [intros _; eexists; reflexivity].
Qed.

Lemma insert_failure_paths_witness :
  outcome_of (run bob_uploads_moby POST lost_race)
    = Returned (insert_failed_response
                  (unique_violation "books_file_checksum_key" "file_checksum"))
  /\ outcome_of (run bob_uploads_moby POST (recovered_race []))
    = Returned (duplicate_response "id-alice").
Proof.
  split.
  - pose proof (insert_failure_paths bob_uploads_moby lost_race
                  (bookData_of {| user_id := "bob" |} moby_epub
                               (hashHex (file_buffer moby_epub)) "id-bob")
                  (unique_violation "books_file_checksum_key" "file_checksum")
                  ltac:(vm_compute; do 4 right; left; reflexivity)) as H.
    vm_norm_in H. vm_compute.
    destruct H as [_ Hdup].
    destruct Hdup as (re & Hhd & Hnone & _); [reflexivity|].
    injection Hhd as <-.
    apply Hnone. reflexivity.
  - pose proof (insert_failure_paths bob_uploads_moby (recovered_race [])
                  (bookData_of {| user_id := "bob" |} moby_epub
                               (hashHex (file_buffer moby_epub)) "id-bob")
                  (unique_violation "books_file_checksum_key" "file_checksum")
                  ltac:(vm_compute; do 4 right; left; reflexivity)) as H.
    vm_norm_in H. vm_compute.
    destruct H as [_ Hdup].
    destruct Hdup as (re & Hhd & _ & Hsome); [reflexivity|].
    injection Hhd as <-.
    destruct (Hsome _ eq_refl) as (l & _ & _ & _ & Hout).
    exact Hout.
Defined.

(** ** The Ownership Link insert on the two duplicate paths *)

(** C10.  For every backend: once the insert of the Content Record has failed
    and the handler has reached the link insert (the failure was a 23505 and
    the re-resolve returned a record), the answer is 200 with
    [duplicate=true] whatever the link insert returned; on the ordinary
    duplicate path (no insert of a Content Record was attempted) a failed
    link insert is answered 500. *)
Theorem race_link_failure_ignored (B : Backend) (s : St B) :
  let r := run B POST s in
  (forall row e u b ins,
      In (E_books_insert row (Some e)) (trace_of r) ->
      In (E_user_books_insert u b ins) (trace_of r) ->
      pg_code e = "23505"
      /\ (exists re title,
             In (E_books_select_by_checksum (bd_file_checksum row) re)
                (after is_books_insert (trace_of r))
             /\ data re = Some {| sel_id := b; sel_title := title |})
      /\ outcome_of r = Returned (duplicate_response b)
      /\ status (duplicate_response b) = 200
      /\ In ("duplicate", JBool true) (body (duplicate_response b)))
  /\
  (forall u b e,
      filter is_books_insert (trace_of r) = [] ->
      In (E_user_books_insert u b (Some e)) (trace_of r) ->
      outcome_of r = Returned (link_failed_response e)
      /\ status (link_failed_response e) = 500).
Proof.
  cbv zeta. split.
  - crank; intros row e u' b' ins Hin Hins; unfold trace_of, outcome_of in *; which_event.
    all: repeat match goal with
           | H : E_books_insert _ _ = E_books_insert _ _ |- _ => inversion H; clear H; subst
           | H : E_user_books_insert _ _ _ = E_user_books_insert _ _ _ |- _ =>
               inversion H; clear H; subst
           end.
    all: codes; simpl.
    all: split; [assumption|]; split;
      [ match goal with
        | |- context [{| data := Some ?b; error := ?x |}] =>
            exists {| data := Some b; error := x |}, (sel_title b)
        end; split; [left; reflexivity | destruct b; reflexivity]
      | repeat split; auto ].
  - crank; intros u' b' e Hnone Hins; unfold trace_of, outcome_of in *; which_event.
    all: repeat match goal with
           | H : E_user_books_insert _ _ _ = E_user_books_insert _ _ _ |- _ =>
               inversion H; clear H; subst
           end.
    all: split; reflexivity.
Qed.

Lemma race_link_failure_ignored_witness :
  let stormy := recovered_race [Fine; Fine; Fine; Fine; Fine; Fine; Fine; Fine;
                                Outage storage_down] in
  let r := run bob_uploads_moby POST stormy in
  In (E_user_books_insert "bob" "id-alice" (Some storage_down)) (trace_of r)
  /\ outcome_of r = Returned (duplicate_response "id-alice")
  /\ outcome_of (run (Supabase (upload_request "bob" moby_epub)) POST
                     {| w_db := after_alice; w_uuids := [];
                        w_weather := [Fine; Fine; Outage storage_down] |})
     = Returned (link_failed_response storage_down).
Proof.
  cbv zeta.
  assert (In (E_user_books_insert "bob" "id-alice" (Some storage_down))
             (trace_of (run bob_uploads_moby POST
                            (recovered_race [Fine; Fine; Fine; Fine; Fine; Fine; Fine; Fine;
                                             Outage storage_down])))) as Hins
      by (vm_compute; do 7 right; left; reflexivity).
  split; [exact Hins|]. split.
  - refine (proj1 (proj2 (proj2 (proj1 (race_link_failure_ignored bob_uploads_moby _)
              (bookData_of {| user_id := "bob" |} moby_epub
                           (hashHex (file_buffer moby_epub)) "id-bob")
              (unique_violation "books_file_checksum_key" "file_checksum")
              "bob" "id-alice" (Some storage_down) _ Hins)))).
    vm_compute. do 4 right. left. reflexivity.
  - refine (proj1 (proj2 (race_link_failure_ignored
                            (Supabase (upload_request "bob" moby_epub)) _)
                         "bob" "id-alice" storage_down _ _)).
    + reflexivity.
    + vm_compute. do 4 right. left. reflexivity.
Defined.

(** ** An upload whose fingerprint is already known *)

Lemma fatal_check_error_no_rows : fatal_check_error (Some no_rows) = None.
Proof. reflexivity. Qed.

(** Run a handler on the datastore model, leaving the file's own data and
    string comparisons folded. *)
Ltac compute_run :=
  cbv - [hashHex invalid_file_type String.eqb strip_epub_extension storagePath_of
         append file_size].

Lemma first_upload (uid : string) (file : File) (id : string) (ids : list string) :
  invalid_file_type file = false ->
  let r := run (Supabase (upload_request uid file)) POST (calm empty_db (id :: ids)) in
  outcome_of r = Returned (uploaded_response id)
  /\ final_of r = calm (library_of {| user_id := uid |} file id) ids.
Proof.
  intros Hvalid r. unfold r. compute_run. rewrite Hvalid. compute_run.
  split; reflexivity.
Qed.

Lemma second_upload (uidA uidB : string) (file : File) (idA : string) (ids : list string) :
  uidA <> uidB ->
  invalid_file_type file = false ->
  let lib := library_of {| user_id := uidA |} file idA in
  let r := run (Supabase (upload_request uidB file)) POST (calm lib ids) in
  outcome_of r = Returned (duplicate_response idA)
  /\ w_db (final_of r) =
       {| books := books lib;
          user_books :=
            (user_books lib ++ [ {| ub_id := 1; ub_user := uidB; ub_book := idA |} ])%list;
          epubs := epubs lib |}.
Proof.
  intros Hne Hvalid lib r. apply String.eqb_neq in Hne.
  unfold r, lib. compute_run.
  rewrite Hvalid, String.eqb_refl, Hne. compute_run.
  split; reflexivity.
Qed.

(** C2, as the specification states it, fails: the fingerprint of bob's
    upload matches alice's Content Record, but the insert of bob's Ownership
    Link fails and the answer is 500, not success with [duplicate=true]. *)
Lemma duplicate_upload_counterexample :
  let w := {| w_db := after_alice; w_uuids := [];
              w_weather := [Fine; Fine; Outage storage_down] |} in
  let r := run (Supabase (upload_request "bob" moby_epub)) POST w in
  db_books_by_checksum (w_db w) (hashHex (file_buffer moby_epub))
    = [ {| sel_id := "id-alice"; sel_title := "Moby-Dick" |} ]
  /\ outcome_of r = Returned (link_failed_response storage_down)
  /\ status (link_failed_response storage_down) = 500
  /\ forall id, outcome_of r <> Returned (duplicate_response id).
Proof.
  cbv zeta. repeat apply conj; try (vm_compute; reflexivity).
  intros id. vm_compute. discriminate.
Qed.

(** C2, amended.  For every backend, when the duplicate lookup returns a
    Content Record the handler inserts no Content Record and uploads no
    object; it looks for the Ownership Link of (user, existing record) and
    inserts one only when that lookup finds none; it answers success with
    [duplicate=true] and the existing identifier, unless that link insert
    fails, in which case it answers 500 with the error's message.  On the
    datastore model, a second user who uploads the bytes of a first upload
    gets [duplicate=true]; afterwards there is one Content Record, one
    stored object and two Ownership Links. *)
Theorem duplicate_upload (B : Backend) (s : St B) :
  let r := run B POST s in
  (forall auth user form h chk book,
      firstn 3 (trace_of r) =
        [E_getUser auth; E_formData (inr form); E_books_select_by_checksum h chk] ->
      authenticated auth user ->
      error chk = None ->
      data chk = Some book ->
      let rest := skipn 3 (trace_of r) in
      let dup := duplicate_response (sel_id book) in
      filter is_books_insert (trace_of r) = []
      /\ filter is_storage_upload (trace_of r) = []
      /\ status dup = 200
      /\ In ("duplicate", JBool true) (body dup)
      /\ In ("book_id", JString (sel_id book)) (body dup)
      /\ exists l,
           let select := E_user_books_select (user_id user) (sel_id book) l in
           hd_error rest = Some select
           /\ (data l <> None -> rest = [select] /\ outcome_of r = Returned dup)
           /\ (data l = None ->
                 exists ins,
                   rest = [select; E_user_books_insert (user_id user) (sel_id book) ins]
                   /\ (ins = None -> outcome_of r = Returned dup)
                   /\ (forall e, ins = Some e ->
                                 outcome_of r = Returned (link_failed_response e))))
  /\
  (forall uidA uidB file idA ids,
      uidA <> uidB ->
      invalid_file_type file = false ->
      let r1 := run (Supabase (upload_request uidA file)) POST (calm empty_db (idA :: ids)) in
      let r2 := run (Supabase (upload_request uidB file)) POST (final_of r1) in
      outcome_of r1 = Returned (uploaded_response idA)
      /\ outcome_of r2 = Returned (duplicate_response idA)
      /\ List.length (books (w_db (final_of r2))) = 1
      /\ List.length (epubs (w_db (final_of r2))) = 1
      /\ user_books (w_db (final_of r2)) =
           [ {| ub_id := 0; ub_user := uidA; ub_book := idA |};
             {| ub_id := 1; ub_user := uidB; ub_book := idA |} ]).
Proof.
  cbv zeta. split.
  - unfold authenticated.
    crank; intros auth user form h chk book Htr Hauth Herr Hdata; settle.
    all: repeat split; auto.
    all: eexists; split; [reflexivity|]; split; simpl; intros Hl; try congruence.
    all: try solve [split; reflexivity].
    all: eexists; split; [reflexivity|]; split; [intros Hi | intros e' Hi];
      try discriminate Hi; try reflexivity.
    all: injection Hi as <-; reflexivity.
  - intros uidA uidB file idA ids Hne Hvalid.
    destruct (first_upload uidA file idA ids Hvalid) as [Hout1 Hfin1].
    rewrite Hfin1.
    destruct (second_upload uidA uidB file idA ids Hne Hvalid) as [Hout2 Hfin2].
    rewrite Hfin2. repeat split; assumption.
Qed.


Lemma duplicate_upload_witness :
  let w := {| w_db := after_alice; w_uuids := []; w_weather := [] |} in
  let r := run (Supabase (upload_request "bob" moby_epub)) POST w in
  outcome_of r = Returned (duplicate_response "id-alice")
  /\ filter is_books_insert (trace_of r) = []
  /\ filter is_storage_upload (trace_of r) = []
  /\ user_books (w_db (final_of
        (run (Supabase (upload_request "bob" moby_epub)) POST
             (final_of (run (Supabase (upload_request "alice" moby_epub)) POST
                            (calm empty_db ["id-alice"])))))) =
       [ {| ub_id := 0; ub_user := "alice"; ub_book := "id-alice" |};
         {| ub_id := 1; ub_user := "bob"; ub_book := "id-alice" |} ].
Proof.
  cbv zeta.
  pose proof (proj1 (duplicate_upload (Supabase (upload_request "bob" moby_epub))
                       {| w_db := after_alice; w_uuids := []; w_weather := [] |})
                (signed_in "bob") {| user_id := "bob" |}
                {| formData_get_file := Some moby_epub |}
                (hashHex (file_buffer moby_epub))
                {| data := Some {| sel_id := "id-alice"; sel_title := "Moby-Dick" |};
                   error := None |}
                {| sel_id := "id-alice"; sel_title := "Moby-Dick" |}
                ltac:(vm_compute; reflexivity) (conj eq_refl eq_refl) eq_refl eq_refl) as H.
  pose proof (proj2 (duplicate_upload (Supabase (upload_request "bob" moby_epub))
                       {| w_db := after_alice; w_uuids := []; w_weather := [] |})
                "alice" "bob" moby_epub "id-alice" []
                ltac:(discriminate) ltac:(vm_compute; reflexivity)) as H2.
  vm_norm_in H. vm_norm_in H2. vm_compute.
  destruct H as (Hins & Hup & _ & _ & _ & l & Hhd & _ & Hnone).
  destruct H2 as (_ & _ & _ & _ & Hlinks).
  injection Hhd as <-.
  destruct (Hnone eq_refl) as (ins & Hrest & Hok & _).
  injection Hrest as <-.
  repeat split; auto.
Defined.


(** ** Compensation after a failed upload or link *)

Lemma filter_map_nil {A B : Type} (g : A -> B) (f : A -> bool) (l : list A) :
  map g (filter f l) = [] -> forall x, In x l -> f x = false.
Proof.
  intros H x Hx. destruct (f x) eqn:E; [|reflexivity].
  assert (In x (filter f l)) as Hin by (apply filter_In; split; assumption).
  destruct (filter f l); [destruct Hin | discriminate H].
Qed.

Lemma existsb_false {A : Type} (f : A -> bool) (l : list A) :
  (forall x, In x l -> f x = false) -> existsb f l = false.
Proof.
  intros H. induction l as [|a l IH]; simpl; [reflexivity|].
  rewrite (H a (or_introl eq_refl)). apply IH. intros x Hx. apply H. right. exact Hx.
Qed.

Lemma filter_keeps_all {A : Type} (f : A -> bool) (l : list A) :
  (forall x, In x l -> f x = true) -> filter f l = l.
Proof.
  intros H. induction l as [|a l IH]; simpl; [reflexivity|].
  rewrite (H a (or_introl eq_refl)). f_equal. apply IH. intros x Hx. apply H. right. exact Hx.
Qed.

Lemma filter_app_last {A : Type} (f : A -> bool) (l : list A) (a : A) :
  (forall x, In x l -> f x = true) -> f a = false -> filter f (l ++ [a]) = l.
Proof.
  intros H Ha. rewrite filter_app. simpl. rewrite Ha, app_nil_r.
  apply filter_keeps_all. exact H.
Qed.

Lemma db_insert_book_fresh (d : Db) (row : BookData) :
  db_books_by_checksum d (bd_file_checksum row) = [] ->
  db_books_by_id d (bd_id row) = [] ->
  db_insert_book d row =
    (None, {| books := books d ++ [ {| row_data := row; row_manifest := None |} ];
              user_books := user_books d;
              epubs := epubs d |}).
Proof.
  intros Hsum Hid. unfold db_insert_book.
  rewrite (existsb_false _ _ (filter_map_nil _ _ _ Hsum)).
  rewrite (existsb_false _ _ (filter_map_nil _ _ _ Hid)).
  reflexivity.
Qed.

Lemma db_delete_inserted (d : Db) (row : BookData) (u : list LinkRow)
  (o : list (string * list byte)) :
  db_books_by_id d (bd_id row) = [] ->
  db_delete_book {| books := books d ++ [ {| row_data := row; row_manifest := None |} ];
                    user_books := u; epubs := o |} (bd_id row)
  = {| books := books d; user_books := u; epubs := o |}.
Proof.
  intros Hid. unfold db_delete_book. simpl. f_equal.
  apply filter_app_last.
  - intros x Hx. rewrite (filter_map_nil _ _ _ Hid x Hx). reflexivity.
  - simpl. rewrite String.eqb_refl. reflexivity.
Qed.

Lemma db_upload_fresh (b : list BookRow) (u : list LinkRow) (d : Db) (path : string)
  (content : list byte) :
  no_object_at d path ->
  db_upload {| books := b; user_books := u; epubs := epubs d |} path content =
    (None, {| books := b; user_books := u; epubs := epubs d ++ [(path, content)] |}).
Proof.
  intros Hfree. unfold db_upload. simpl.
  rewrite existsb_false; [reflexivity|].
  intros x Hx. apply String.eqb_neq. apply Hfree. exact Hx.
Qed.

Lemma db_remove_uploaded (b : list BookRow) (u : list LinkRow) (d : Db) (path : string)
  (content : list byte) :
  no_object_at d path ->
  db_remove {| books := b; user_books := u; epubs := epubs d ++ [(path, content)] |} [path]
  = {| books := b; user_books := u; epubs := epubs d |}.
Proof.
  intros Hfree. unfold db_remove. simpl. f_equal.
  apply filter_app_last.
  - intros x Hx. simpl. rewrite orb_false_r.
    apply negb_true_iff. apply String.eqb_neq. apply Hfree. exact Hx.
  - simpl. rewrite String.eqb_refl. reflexivity.
Qed.

Ltac compute_run_db :=
  cbv - [hashHex invalid_file_type String.eqb strip_epub_extension storagePath_of
         append file_size db_books_by_checksum db_books_by_id db_insert_book
         db_upload db_delete_book db_remove db_insert_link bookData_of
         file_buffer file_name file_type].

Lemma db_eta (d : Db) :
  {| books := books d; user_books := user_books d; epubs := epubs d |} = d.
Proof. destruct d; reflexivity. Qed.

Lemma failed_upload_compensated (uid : string) (file : File) (id : string)
  (ids : list string) (d : Db) (e : PostgrestError) :
  invalid_file_type file = false ->
  db_books_by_checksum d (hashHex (file_buffer file)) = [] ->
  db_books_by_id d id = [] ->
  let w := {| w_db := d; w_uuids := id :: ids; w_weather := [Fine; Fine; Outage e] |} in
  let r := run (Supabase (upload_request uid file)) POST w in
  outcome_of r = Returned (upload_failed_response (storage_error_of e))
  /\ w_db (final_of r) = d.
Proof.
  intros Hvalid Hsum Hid w r. unfold r, w.
  compute_run_db. rewrite Hvalid, Hsum. compute_run_db.
  rewrite String.eqb_refl. compute_run_db.
  rewrite (db_insert_book_fresh d (bookData_of {| user_id := uid |} file
                                             (hashHex (file_buffer file)) id) Hsum Hid).
  compute_run_db.
  rewrite (db_delete_inserted d (bookData_of {| user_id := uid |} file
                                            (hashHex (file_buffer file)) id) _ _ Hid).
  compute_run_db. split; [reflexivity | apply db_eta].
Qed.

Lemma failed_link_compensated (uid : string) (file : File) (id : string)
  (ids : list string) (d : Db) (e : PostgrestError) :
  invalid_file_type file = false ->
  db_books_by_checksum d (hashHex (file_buffer file)) = [] ->
  db_books_by_id d id = [] ->
  no_object_at d (storagePath_of {| user_id := uid |} id) ->
  let w := {| w_db := d; w_uuids := id :: ids;
              w_weather := [Fine; Fine; Fine; Outage e] |} in
  let r := run (Supabase (upload_request uid file)) POST w in
  outcome_of r = Returned (link_failed_response e)
  /\ w_db (final_of r) = d.
Proof.
  intros Hvalid Hsum Hid Hfree w r. unfold r, w.
  compute_run_db. rewrite Hvalid, Hsum. compute_run_db.
  rewrite String.eqb_refl. compute_run_db.
  rewrite (db_insert_book_fresh d (bookData_of {| user_id := uid |} file
                                             (hashHex (file_buffer file)) id) Hsum Hid).
  compute_run_db.
  rewrite (db_upload_fresh _ _ d _ _ Hfree).
  compute_run_db.
  rewrite (db_delete_inserted d (bookData_of {| user_id := uid |} file
                                            (hashHex (file_buffer file)) id) _ _ Hid).
  rewrite (db_remove_uploaded _ _ d _ _ Hfree).
  compute_run_db. split; [reflexivity | apply db_eta].
Qed.


(** C3.  For every backend: when the storage upload of a new book fails, the
    handler's remaining call is the delete of the Content Record it has just
    inserted, and the answer is 500; when the insert of the Ownership Link of
    a new book fails, its remaining calls are the delete of that Content
    Record and the removal of the object it has just uploaded, and the answer
    is 500.  On the datastore model, where these compensating calls go
    through, the datastore and the bucket are afterwards as they were before
    the request. *)
Theorem compensation (B : Backend) (s : St B) :
  let r := run B POST s in
  (forall path content e,
      In (E_storage_upload path content (Some e)) (trace_of r) ->
      exists row del,
        In (E_books_insert row None) (before is_storage_upload (trace_of r))
        /\ path = bd_storage_path row
        /\ after is_storage_upload (trace_of r) = [E_books_delete_by_id (bd_id row) del]
        /\ outcome_of r = Returned (upload_failed_response e)
        /\ status (upload_failed_response e) = 500)
  /\
  (forall path content u b e,
      In (E_storage_upload path content None) (trace_of r) ->
      In (E_user_books_insert u b (Some e)) (trace_of r) ->
      exists row del rem,
        In (E_books_insert row None) (before is_storage_upload (trace_of r))
        /\ path = bd_storage_path row
        /\ b = bd_id row
        /\ after is_link_insert (trace_of r) =
             [E_books_delete_by_id (bd_id row) del; E_storage_remove [path] rem]
        /\ outcome_of r = Returned (link_failed_response e)
        /\ status (link_failed_response e) = 500)
  /\
  (forall uid file id ids d e,
      invalid_file_type file = false ->
      db_books_by_checksum d (hashHex (file_buffer file)) = [] ->
      db_books_by_id d id = [] ->
      no_object_at d (storagePath_of {| user_id := uid |} id) ->
      let upload_fails := {| w_db := d; w_uuids := id :: ids;
                             w_weather := [Fine; Fine; Outage e] |} in
      let link_fails := {| w_db := d; w_uuids := id :: ids;
                           w_weather := [Fine; Fine; Fine; Outage e] |} in
      let r6 := run (Supabase (upload_request uid file)) POST upload_fails in
      let r7 := run (Supabase (upload_request uid file)) POST link_fails in
      outcome_of r6 = Returned (upload_failed_response (storage_error_of e))
      /\ w_db (final_of r6) = d
      /\ outcome_of r7 = Returned (link_failed_response e)
      /\ w_db (final_of r7) = d).
Proof.
  cbv zeta. repeat apply conj.
  - crank; intros path content e Hin; unfold trace_of, outcome_of in *; which_event.
    all: match goal with H : E_storage_upload _ _ _ = E_storage_upload _ _ _ |- _ =>
           inversion H; clear H; subst end.
    all: do 2 eexists; split; [do 4 right; left; reflexivity|].
    all: repeat split; reflexivity.
  - crank; intros path content u' b' e Hup Hin; unfold trace_of, outcome_of in *;
      which_event.
    all: repeat match goal with
           | H : E_storage_upload _ _ _ = E_storage_upload _ _ _ |- _ =>
               inversion H; clear H; subst
           | H : E_user_books_insert _ _ _ = E_user_books_insert _ _ _ |- _ =>
               inversion H; clear H; subst
           end.
    all: do 3 eexists; split; [do 4 right; left; reflexivity|].
    all: repeat split; reflexivity.
  - intros uid file id ids d e Hvalid Hsum Hid Hfree.
    destruct (failed_upload_compensated uid file id ids d e Hvalid Hsum Hid) as [H1 H2].
    destruct (failed_link_compensated uid file id ids d e Hvalid Hsum Hid Hfree) as [H3 H4].
    repeat split; assumption.
Qed.

Lemma compensation_witness :
  let upload_fails := {| w_db := empty_db; w_uuids := ["id-1"];
                         w_weather := [Fine; Fine; Outage storage_down] |} in
  let link_fails := {| w_db := empty_db; w_uuids := ["id-1"];
                       w_weather := [Fine; Fine; Fine; Outage storage_down] |} in
  let r6 := run (Supabase (upload_request "alice" moby_epub)) POST upload_fails in
  let r7 := run (Supabase (upload_request "alice" moby_epub)) POST link_fails in
  (exists del, after is_storage_upload (trace_of r6) = [E_books_delete_by_id "id-1" del])
  /\ w_db (final_of r6) = empty_db
  /\ (exists del rem,
        after is_link_insert (trace_of r7) =
          [E_books_delete_by_id "id-1" del; E_storage_remove ["books/alice/id-1.epub"] rem])
  /\ w_db (final_of r7) = empty_db.
Proof.
  cbv zeta.
  pose proof (proj1 (compensation (Supabase (upload_request "alice" moby_epub))
                       {| w_db := empty_db; w_uuids := ["id-1"];
                          w_weather := [Fine; Fine; Outage storage_down] |})
                "books/alice/id-1.epub" (file_buffer moby_epub)
                (storage_error_of storage_down)
                ltac:(vm_compute; do 5 right; left; reflexivity)) as H6.
  pose proof (proj1 (proj2 (compensation (Supabase (upload_request "alice" moby_epub))
                       {| w_db := empty_db; w_uuids := ["id-1"];
                          w_weather := [Fine; Fine; Fine; Outage storage_down] |}))
                "books/alice/id-1.epub" (file_buffer moby_epub) "alice" "id-1" storage_down
                ltac:(vm_compute; do 5 right; left; reflexivity)
                ltac:(vm_compute; do 6 right; left; reflexivity)) as H7.
  pose proof (proj2 (proj2 (compensation (Supabase (upload_request "alice" moby_epub))
                       (calm empty_db [])))
                "alice" moby_epub "id-1" [] empty_db storage_down
                ltac:(vm_compute; reflexivity) ltac:(vm_compute; reflexivity)
                ltac:(vm_compute; reflexivity) ltac:(intros o [])) as Hdb.
  vm_norm_in H6. vm_norm_in H7. vm_norm_in Hdb. vm_compute.
  destruct H6 as (row6 & del6 & Hin6 & _ & Hafter6 & _).
  destruct H7 as (row7 & del7 & rem7 & Hin7 & _ & _ & Hafter7 & _).
  destruct Hdb as (_ & Hd6 & _ & Hd7).
  assert (row6 = bookData_of {| user_id := "alice" |} moby_epub
                             (hashHex (file_buffer moby_epub)) "id-1") as ->
      by (repeat (destruct Hin6 as [Hin6|Hin6]; try discriminate Hin6);
          [injection Hin6 as <-; vm_compute; reflexivity | destruct Hin6]).
  assert (row7 = bookData_of {| user_id := "alice" |} moby_epub
                             (hashHex (file_buffer moby_epub)) "id-1") as ->
      by (repeat (destruct Hin7 as [Hin7|Hin7]; try discriminate Hin7);
          [injection Hin7 as <-; vm_compute; reflexivity | destruct Hin7]).
  vm_norm_in Hafter6. vm_norm_in Hafter7.
  split; [exists del6; exact Hafter6|].
  split; [exact Hd6|].
  split; [exists del7, rem7; exact Hafter7 | exact Hd7].
Defined.


(** ** The reading page *)

Arguments manifest_path_of : simpl never.

Ltac look_page :=
  match goal with
  | |- context [match manifest_path_of ?b with _ => _ end] =>
      destruct (manifest_path_of b) eqn:?; simpl
  end.

Ltac crank_page := unfold ReadBookPage; simpl; repeat first [answer | look_page | look].

Lemma manifest_path_of_empty (book : BookManifest) :
  manifest_path_of book = None <->
  readium_manifest_path book = None \/ readium_manifest_path book = Some EmptyString.
Proof.
  unfold manifest_path_of. destruct (readium_manifest_path book) as [[|c p]|]; split;
    intros H; try reflexivity; try discriminate H; auto.
  destruct H as [H|H]; discriminate H.
Qed.

Lemma manifest_path_of_some (book : BookManifest) (path : string) :
  manifest_path_of book = Some path <->
  readium_manifest_path book = Some path /\ path <> EmptyString.
Proof.
  unfold manifest_path_of. destruct (readium_manifest_path book) as [[|c p]|]; split;
    intros H; try discriminate H.
  - destruct H as [H Hne]. injection H as <-. congruence.
  - injection H as <-. split; [reflexivity | discriminate].
  - destruct H as [H _]. exact H.
  - destruct H as [H _]. discriminate H.
Qed.

(** Calls that are not writes leave the tables and the bucket as they are. *)
Lemma supabase_reads_keep_db {A : Type} (req : Request) (p : Prog A) :
  forall w,
    forallb (fun e => negb (is_write e)) (trace_of (run (Supabase req) p w)) = true ->
    w_db (final_of (run (Supabase req) p w)) = w_db w.
Proof.
  induction p as [a | e | R c k IH]; intros w; try reflexivity.
  rewrite run_Vis.
  destruct (reply (Supabase req) R c w) as [r w1] eqn:Hreply.
  specialize (IH r w1).
  destruct (run (Supabase req) (k r) w1) as [[tr o] w2].
  unfold trace_of, final_of in *. simpl in *.
  intros H. apply andb_true_iff in H. destruct H as [Hc Htr].
  rewrite (IH Htr). clear IH Htr.
  destruct c; simpl in *; try discriminate Hc;
    unfold next_weather, next_uuid in Hreply;
    destruct w as [d ids [|[|e] wt]]; simpl in *;
    try (injection Hreply as _ <-; reflexivity);
    try (destruct ids; injection Hreply as _ <-; reflexivity).
Qed.


Lemma page_issues_no_write (B : Backend) (s : St B) (id : string) :
  forallb (fun e => negb (is_write e)) (trace_of (run B (ReadBookPage id) s)) = true.
Proof. crank_page; reflexivity. Qed.

Lemma page_not_owned (uid id : string) (form : JsThrown + FormData) (d : Db)
  (ids : list string) :
  db_links d uid id = [] ->
  outcome_of (run (Supabase {| req_session := signed_in uid; req_form := form |})
                  (ReadBookPage id) (calm d ids))
  = Returned (Redirect "/").
Proof.
  intros Hlinks.
  cbv - [db_books_by_id db_links String.eqb manifest_path_of].
  destruct (db_books_by_id d id) as [|book [|other more]]; try reflexivity.
  rewrite Hlinks. reflexivity.
Qed.

Lemma page_no_record (uid id : string) (form : JsThrown + FormData) (d : Db)
  (ids : list string) :
  db_books_by_id d id = [] ->
  outcome_of (run (Supabase {| req_session := signed_in uid; req_form := form |})
                  (ReadBookPage id) (calm d ids))
  = Returned (Redirect "/").
Proof.
  intros Hnone.
  cbv - [db_books_by_id db_links String.eqb manifest_path_of].
  rewrite Hnone. reflexivity.
Qed.

(** C8.  For every backend and content identifier the reading page issues no
    write call; it redirects to the login page when the session carries an
    error or no user; to the library root when the lookup of the Content
    Record by id fails or returns nothing, and when the lookup of the
    Ownership Link of (user, id) returns nothing, whether or not the record
    exists; it shows the manifest-not-found panel when the record's manifest
    path is null or empty; and otherwise hands the identifier, the manifest
    path and the title to the reader.  On the datastore model the tables and
    the bucket are left as they were. *)
Theorem reading_bootstrap (B : Backend) (s : St B) (id : string) :
  let r := run B (ReadBookPage id) s in
  forallb (fun e => negb (is_write e)) (trace_of r) = true
  /\
  (forall auth,
      hd_error (trace_of r) = Some (E_getUser auth) ->
      auth_error auth <> None \/ data_user auth = None ->
      outcome_of r = Returned (Redirect "/auth/login"))
  /\
  (forall auth user bookRes,
      firstn 2 (trace_of r) = [E_getUser auth; E_books_select_by_id id bookRes] ->
      authenticated auth user ->
      error bookRes <> None \/ data bookRes = None ->
      outcome_of r = Returned (Redirect "/"))
  /\
  (forall auth user bookRes book link,
      firstn 3 (trace_of r) =
        [E_getUser auth; E_books_select_by_id id bookRes;
         E_user_books_select (user_id user) id link] ->
      authenticated auth user ->
      error bookRes = None ->
      data bookRes = Some book ->
      (data link = None -> outcome_of r = Returned (Redirect "/"))
      /\ (data link <> None ->
          readium_manifest_path book = None
          \/ readium_manifest_path book = Some EmptyString ->
          outcome_of r = Returned ManifestNotFound)
      /\ (data link <> None ->
          forall path,
            readium_manifest_path book = Some path -> path <> EmptyString ->
            outcome_of r = Returned (BookReader id path (bm_title book))))
  /\
  (forall req w,
      w_db (final_of (run (Supabase req) (ReadBookPage id) w)) = w_db w)
  /\
  (forall uid form d ids,
      db_books_by_id d id = [] \/ db_links d uid id = [] ->
      outcome_of (run (Supabase {| req_session := signed_in uid; req_form := form |})
                      (ReadBookPage id) (calm d ids))
      = Returned (Redirect "/")).
Proof.
  cbv zeta. repeat apply conj.
  - apply page_issues_no_write.
  - crank_page; intros auth Hhd [H|H]; settle.
  - unfold authenticated.
    crank_page; intros auth user bookRes Htr Hauth [H|H]; settle.
  - unfold authenticated.
    crank_page; intros auth user bookRes book link Htr Hauth Herr Hdata; settle.
    all: repeat split; try congruence.
    all: try solve [intros Hl Hm; apply manifest_path_of_empty in Hm; congruence].
    all: try solve [intros Hl path Hm Hne;
                    assert (manifest_path_of book = Some path)
                      by (apply manifest_path_of_some; split; assumption);
                    congruence].
  - intros req w. apply supabase_reads_keep_db. apply page_issues_no_write.
  - intros uid form d ids [H|H]; [apply page_no_record | apply page_not_owned]; exact H.
Qed.


Lemma reading_bootstrap_witness :
  outcome_of (run (Supabase (page_request signed_out)) (ReadBookPage "id-alice")
                  (calm after_alice []))
    = Returned (Redirect "/auth/login")
  /\ outcome_of (run (Supabase (page_request (signed_in "bob"))) (ReadBookPage "id-alice")
                     (calm after_alice []))
    = Returned (Redirect "/")
  /\ outcome_of (run (Supabase (page_request (signed_in "alice"))) (ReadBookPage "id-alice")
                     (calm after_alice []))
    = Returned ManifestNotFound
  /\ outcome_of (run (Supabase (page_request (signed_in "alice"))) (ReadBookPage "id-alice")
                     (calm (published after_alice "id-alice/manifest.json") []))
    = Returned (BookReader "id-alice" "id-alice/manifest.json" "Moby-Dick").
Proof.
  pose proof (proj1 (proj2 (reading_bootstrap (Supabase (page_request signed_out))
                              (calm after_alice []) "id-alice"))
                signed_out ltac:(vm_compute; reflexivity)
                ltac:(left; discriminate)) as H1.
  pose proof (proj1 (proj2 (proj2 (proj2 (reading_bootstrap
                              (Supabase (page_request (signed_in "bob")))
                              (calm after_alice []) "id-alice"))))
                (signed_in "bob") {| user_id := "bob" |}
                {| data := Some {| bm_id := "id-alice"; bm_title := "Moby-Dick";
                                   readium_manifest_path := None |};
                   error := None |}
                {| bm_id := "id-alice"; bm_title := "Moby-Dick";
                   readium_manifest_path := None |}
                {| data := None; error := Some no_rows |}
                ltac:(vm_compute; reflexivity) (conj eq_refl eq_refl) eq_refl eq_refl) as H2.
  pose proof (proj1 (proj2 (proj2 (proj2 (reading_bootstrap
                              (Supabase (page_request (signed_in "alice")))
                              (calm after_alice []) "id-alice"))))
                (signed_in "alice") {| user_id := "alice" |}
                {| data := Some {| bm_id := "id-alice"; bm_title := "Moby-Dick";
                                   readium_manifest_path := None |};
                   error := None |}
                {| bm_id := "id-alice"; bm_title := "Moby-Dick";
                   readium_manifest_path := None |}
                {| data := Some {| link_id := "0" |}; error := None |}
                ltac:(vm_compute; reflexivity) (conj eq_refl eq_refl) eq_refl eq_refl) as H3.
  pose proof (proj1 (proj2 (proj2 (proj2 (reading_bootstrap
                              (Supabase (page_request (signed_in "alice")))
                              (calm (published after_alice "id-alice/manifest.json") [])
                              "id-alice"))))
                (signed_in "alice") {| user_id := "alice" |}
                {| data := Some {| bm_id := "id-alice"; bm_title := "Moby-Dick";
                                   readium_manifest_path := Some "id-alice/manifest.json" |};
                   error := None |}
                {| bm_id := "id-alice"; bm_title := "Moby-Dick";
                   readium_manifest_path := Some "id-alice/manifest.json" |}
                {| data := Some {| link_id := "0" |}; error := None |}
                ltac:(vm_compute; reflexivity) (conj eq_refl eq_refl) eq_refl eq_refl) as H4.
  vm_norm_in H1. vm_norm_in H2. vm_norm_in H3. vm_norm_in H4. vm_compute.
  destruct H2 as (H2 & _). destruct H3 as (_ & H3 & _). destruct H4 as (_ & _ & H4).
  split; [exact H1|].
  split; [exact (H2 eq_refl)|].
  split; [apply H3; [discriminate | left; reflexivity]|].
  apply (H4 ltac:(discriminate) "id-alice/manifest.json" eq_refl). discriminate.
Defined.

(** ** The fingerprint *)

Example sha256_empty :
  hashHex [] = "e3b0c44298fc1c149afbf4c8996fb92427ae41e4649b934ca495991b7852b855".
Proof. vm_compute. reflexivity. Qed.

Example sha256_abc :
  hashHex (bytes_of_string "abc")
  = "ba7816bf8f01cfea414140de5dae2223b00361a396177a9cb410ff61f20015ad".
Proof. vm_compute. reflexivity. Qed.

Example sha256_two_blocks :
  hashHex (bytes_of_string "abcdbcdecdefdefgefghfghighijhijkijkljklmklmnlmnomnopnopq")
  = "248d6a61d20638b8e5c026930c3e6039a33ce45964ff2167f6ecedd419db06c1".
Proof. vm_compute. reflexivity. Qed.

Lemma sha256_length (buffer : list byte) : List.length (sha256 buffer) = 32.
Proof. unfold sha256. rewrite length_map. reflexivity. Qed.

Lemma hex_of_byte (b : byte) :
  padStart 2 "0"%char (toString16 (Byte.to_N b)) = two_hex_digits b.
Proof. destruct b; vm_compute; reflexivity. Qed.

Lemma two_hex_digits_lower (b : byte) :
  forallb is_lower_hex (list_ascii_of_string (two_hex_digits b)) = true.
Proof. destruct b; vm_compute; reflexivity. Qed.

Lemma hashHex_digits (buffer : list byte) :
  hashHex buffer = join (map two_hex_digits (sha256 buffer)).
Proof.
  unfold hashHex, hex_of_hashArray, hashArray. rewrite map_map. f_equal.
  apply map_ext. intros b. apply hex_of_byte.
Qed.

Lemma join_two_hex_length (l : list byte) :
  String.length (join (map two_hex_digits l)) = 2 * List.length l.
Proof.
  induction l as [|b l IH]; simpl; [reflexivity|]. rewrite IH. lia.
Qed.

Lemma list_ascii_of_string_app (a b : string) :
  list_ascii_of_string (a ++ b) = (list_ascii_of_string a ++ list_ascii_of_string b)%list.
Proof. induction a; simpl; congruence. Qed.

Lemma join_two_hex_lower (l : list byte) :
  forallb is_lower_hex (list_ascii_of_string (join (map two_hex_digits l))) = true.
Proof.
  induction l as [|b l IH]; [reflexivity|].
  change (join (map two_hex_digits (b :: l)))
    with (two_hex_digits b ++ join (map two_hex_digits l)).
  rewrite list_ascii_of_string_app, forallb_app, IH, two_hex_digits_lower. reflexivity.
Qed.


(** C6.  The fingerprint is a function of the buffer alone: equal buffers
    give equal digest strings.  The digest has 32 bytes (256 bits; it is the
    SHA-256 digest, here checked on the standard vector "abc"), and the
    string renders each byte as two lower-case hexadecimal digits, high
    nibble first and zero-padded, 64 characters in all.  For every backend,
    each duplicate lookup of the handler selects by the fingerprint of the
    complete buffer of the uploaded file, so it is computed before any
    duplicate check. *)
Theorem fingerprint :
  (forall B1 B2 : list byte, B1 = B2 -> hashHex B1 = hashHex B2)
  /\
  (forall buffer : list byte,
      List.length (sha256 buffer) = 32
      /\ hashHex buffer = join (map two_hex_digits (sha256 buffer))
      /\ String.length (hashHex buffer) = 64
      /\ forallb is_lower_hex (list_ascii_of_string (hashHex buffer)) = true)
  /\
  hashHex (bytes_of_string "abc")
    = "ba7816bf8f01cfea414140de5dae2223b00361a396177a9cb410ff61f20015ad"
  /\
  (forall (B : Backend) (s : St B) h chk,
      In (E_books_select_by_checksum h chk) (trace_of (run B POST s)) ->
      exists form file,
        nth_error (trace_of (run B POST s)) 1 = Some (E_formData (inr form))
        /\ formData_get_file form = Some file
        /\ h = hashHex (file_buffer file)
        /\ before is_books_lookup (trace_of (run B POST s))
           = firstn 2 (trace_of (run B POST s))).
Proof.
  repeat apply conj.
  - intros B1 B2 ->. reflexivity.
  - intros buffer. repeat apply conj.
    + apply sha256_length.
    + apply hashHex_digits.
    + rewrite hashHex_digits, join_two_hex_length, sha256_length. reflexivity.
    + rewrite hashHex_digits. apply join_two_hex_lower.
  - apply sha256_abc.
  - intros B s h chk. crank; intros Hin; unfold trace_of in *; which_event.
    all: repeat match goal with
           | H : E_books_select_by_checksum _ _ = E_books_select_by_checksum _ _ |- _ =>
               inversion H; clear H; subst
           end.
    all: do 2 eexists; repeat split; reflexivity.
Qed.

Lemma fingerprint_witness :
  hashHex (file_buffer moby_epub) = hashHex (bytes_of_string "PK moby")
  /\ exists form file,
      nth_error (trace_of (run (Supabase (upload_request "alice" moby_epub)) POST
                               (calm empty_db ["id-1"]))) 1
        = Some (E_formData (inr form))
      /\ formData_get_file form = Some file
      /\ "f01260524d2a978c8eed386e3492ce18160d78e2270f26b7e74e018e8c17b518"
         = hashHex (file_buffer file).
Proof.
  split.
  - apply (proj1 fingerprint). reflexivity.
  - pose proof (proj2 (proj2 (proj2 fingerprint))
                  (Supabase (upload_request "alice" moby_epub)) (calm empty_db ["id-1"])
                  "f01260524d2a978c8eed386e3492ce18160d78e2270f26b7e74e018e8c17b518"
                  {| data := None; error := Some no_rows |}
                  ltac:(vm_compute; do 2 right; left; reflexivity)) as H.
    destruct H as (form & file & Hform & Hfile & Hh & _).
    exists form, file. repeat split; assumption.
Defined.


(** ** Splitting at separators *)



(** ** The position label *)

Lemma leading_digits_of_uint (u : Decimal.uint) :
  leading_digits (NilEmpty.string_of_uint u) = u.
Proof. induction u; simpl; congruence. Qed.

Lemma parseInt10_digits (u : Decimal.uint) :
  u <> Decimal.Nil ->
  parseInt10 (NilEmpty.string_of_uint u) = Some (Z.of_uint u)
  /\ parseInt10 (String "-" (NilEmpty.string_of_uint u)) = Some (- Z.of_uint u)%Z.
Proof.
  intros Hu. unfold parseInt10.
  change (trimStart_ws (String "-" (NilEmpty.string_of_uint u)))
    with (String "-"%char (NilEmpty.string_of_uint u)).
  cbv iota beta. rewrite leading_digits_of_uint.
  assert (trimStart_ws (NilEmpty.string_of_uint u) = NilEmpty.string_of_uint u) as ->
      by (destruct u; reflexivity).
  assert (match NilEmpty.string_of_uint u with
          | String "-" r => (true, r)
          | String "+" r => (false, r)
          | _ => (false, NilEmpty.string_of_uint u)
          end = (false, NilEmpty.string_of_uint u)) as ->
      by (destruct u; reflexivity).
  rewrite leading_digits_of_uint.
  destruct u; try congruence; split; reflexivity.
Qed.

Lemma parseInt10_Number_toString (n : Z) : parseInt10 (Number_toString n) = Some n.
Proof.
  destruct n as [|p|p]; [reflexivity| |]; unfold Number_toString; simpl;
    pose proof (Unsigned.to_uint_nonnil p) as Hnil;
    pose proof (DecimalZ.of_to (Z.pos p)) as Hpos; simpl in Hpos.
  - unfold NilZero.string_of_uint.
    destruct (Pos.to_uint p) eqn:E; try congruence;
      rewrite <- E in *; rewrite (proj1 (parseInt10_digits _ Hnil)); congruence.
  - unfold NilZero.string_of_uint.
    destruct (Pos.to_uint p) eqn:E; try congruence;
      rewrite <- E in *; rewrite (proj2 (parseInt10_digits _ Hnil)); rewrite Hpos;
      reflexivity.
Qed.








(** ** The streaming handler *)

Lemma split_cut (s : string) :
  split_on is_newline s = (fst (cut s) ++ [snd (cut s)])%list.
Proof.
  induction s as [|c s IH]; simpl; [reflexivity|].
  destruct (cut s) as [ls rem]. simpl in IH. rewrite IH.
  destruct (is_newline c); [reflexivity|].
  destruct ls; reflexivity.
Qed.

Lemma complete_lines_cut (s : string) : complete_lines s = fst (cut s).
Proof. unfold complete_lines. rewrite split_cut. apply removelast_last. Qed.

Lemma cut_remainder_free (s : string) : free_of is_newline (snd (cut s)).
Proof.
  induction s as [|c s IH]; simpl; [exact I|].
  destruct (cut s) as [ls rem]. simpl in IH.
  destruct (is_newline c) eqn:E; [exact IH|].
  destruct ls; simpl; auto.
Qed.

Lemma cut_free (s : string) : free_of is_newline s -> cut s = ([], s).
Proof.
  induction s as [|c s IH]; simpl; [reflexivity|].
  intros [Hc Hs]. rewrite (IH Hs), Hc. reflexivity.
Qed.

Lemma cut_app (a b : string) :
  cut (a ++ b) =
  let (la, ra) := cut a in
  let (lb, rb) := cut (ra ++ b) in
  ((la ++ lb)%list, rb).
Proof.
  induction a as [|c a IH]; simpl.
  - destruct (cut b); reflexivity.
  - rewrite IH. destruct (cut a) as [la ra].
    destruct (is_newline c) eqn:E.
    + destruct (cut (ra ++ b)) as [lb rb]. reflexivity.
    + destruct la as [|l la].
      * simpl. destruct (cut (ra ++ b)) as [lb rb]. rewrite E.
        destruct lb; reflexivity.
      * destruct (cut (ra ++ b)) as [lb rb]. reflexivity.
Qed.

Lemma startsWith_slice (s p : string) :
  startsWith s p = true -> s = p ++ slice (String.length p) s.
Proof.
  unfold startsWith, slice. revert s.
  induction p as [|c p IH]; intros s H; simpl in *.
  - rewrite Nat.sub_0_r. clear H. induction s as [|d s IHs]; simpl; congruence.
  - destruct s as [|d s]; simpl in H; [discriminate H|].
    revert H. destruct (ascii_dec c d) as [->|]; intros H; [|discriminate H].
    simpl. f_equal. apply IH. exact H.
Qed.

Lemma done_line_iff (line : string) :
  startsWith line "data: " && String.eqb (slice 6 line) "[DONE]" = String.eqb line DONE_line.
Proof.
  destruct (startsWith line "data: ") eqn:Hp; simpl.
  - apply startsWith_slice in Hp. simpl String.length in Hp.
    destruct (String.eqb (slice 6 line) "[DONE]") eqn:Hd.
    + apply String.eqb_eq in Hd. rewrite Hd in Hp. rewrite Hp. reflexivity.
    + symmetry. apply String.eqb_neq. intros Heq. apply String.eqb_neq in Hd. apply Hd.
      rewrite Heq. reflexivity.
  - symmetry. apply String.eqb_neq. intros Heq. rewrite Heq in Hp. discriminate Hp.
Qed.


Lemma string_app_nil_r (s : string) : s ++ EmptyString = s.
Proof. induction s; simpl; congruence. Qed.

Lemma string_app_assoc (a b c : string) : (a ++ b) ++ c = a ++ (b ++ c).
Proof. induction a; simpl; congruence. Qed.

Lemma append_content_nil (id : string) (msg : AIMessage) :
  append_content id EmptyString msg = msg.
Proof.
  unfold append_content. destruct (String.eqb (msg_id msg) id); [|reflexivity].
  rewrite string_app_nil_r. destruct msg; reflexivity.
Qed.

Lemma append_content_twice (id a b : string) (msg : AIMessage) :
  append_content id b (append_content id a msg) = append_content id (a ++ b) msg.
Proof.
  unfold append_content. destruct (String.eqb (msg_id msg) id) eqn:E; simpl.
  - rewrite E, string_app_assoc. reflexivity.
  - rewrite E. reflexivity.
Qed.

Lemma apply_fragments (id : string) (fs : list string) :
  forall st,
    apply_updates st (map (AppendContent id) fs ++ [SetIsLoading false]) =
    {| messages := map (append_content id (join fs)) (messages st); isLoading := false |}.
Proof.
  unfold apply_updates. induction fs as [|f fs IH]; intros st; simpl.
  - f_equal. rewrite <- (map_id (messages st)) at 1.
    apply map_ext. intros m. symmetry. apply append_content_nil.
  - rewrite IH. simpl. f_equal. rewrite map_map.
    apply map_ext. intros m. apply append_content_twice.
Qed.

Section StreamingProofs.

Context {D : TextDecoder} {L : TextDecoderLaws D}.
Variable JSON_parse : string -> option Payload.
Variable id : string.

Lemma until_done_app (l1 l2 : list string) :
  until_done (l1 ++ l2) =
  if existsb is_done_line l1 then until_done l1 else (until_done l1 ++ until_done l2)%list.
Proof.
  induction l1 as [|l l1 IH]; simpl; [reflexivity|].
  unfold is_done_line at 1. destruct (String.eqb l DONE_line); simpl; [reflexivity|].
  rewrite IH. destruct (existsb is_done_line l1); reflexivity.
Qed.

Lemma fragments_of_app (l1 l2 : list string) :
  fragments_of JSON_parse (l1 ++ l2) =
  if existsb is_done_line l1 then fragments_of JSON_parse l1
  else (fragments_of JSON_parse l1 ++ fragments_of JSON_parse l2)%list.
Proof.
  unfold fragments_of. rewrite until_done_app.
  destruct (existsb is_done_line l1); [reflexivity|].
  rewrite map_app, filter_app. reflexivity.
Qed.

Lemma join_fragments (lines : list string) :
  join (fragments_of JSON_parse lines)
  = join (map (content_of_line JSON_parse) (until_done lines)).
Proof.
  unfold fragments_of.
  induction (map (content_of_line JSON_parse) (until_done lines)) as [|s l IH]; simpl;
    [reflexivity|].
  destruct s; simpl; congruence.
Qed.

Lemma fragments_of_cons (line : string) (rest : list string) :
  fragments_of JSON_parse (line :: rest) =
  if is_done_line line then []
  else ((if nonempty (content_of_line JSON_parse line)
         then [content_of_line JSON_parse line] else [])
          ++ fragments_of JSON_parse rest)%list.
Proof.
  unfold fragments_of, is_done_line. simpl.
  destruct (String.eqb line DONE_line); [reflexivity|]. simpl.
  destruct (nonempty (content_of_line JSON_parse line)); reflexivity.
Qed.

Lemma process_lines_closed (lines : list string) :
  process_lines JSON_parse id lines =
  ((map (AppendContent id) (fragments_of JSON_parse lines)
      ++ if existsb is_done_line lines then [SetIsLoading false] else [])%list,
   existsb is_done_line lines).
Proof.
  induction lines as [|line rest IH]; [reflexivity|].
  pose proof (done_line_iff line) as Hdone.
  rewrite fragments_of_cons. cbn [process_lines existsb]. rewrite IH.
  unfold content_of_line.
  change (is_done_line line) with (String.eqb line DONE_line).
  destruct (startsWith line "data: ") eqn:Hp; simpl in Hdone.
  - destruct (String.eqb (slice 6 line) "[DONE]") eqn:Hd; rewrite <- Hdone; simpl.
    + reflexivity.
    + destruct (JSON_parse (slice 6 line)) as [[[[|c f]|]]|]; reflexivity.
  - rewrite <- Hdone. reflexivity.
Qed.

Lemma text_from_nil (decoder : decoder_state) : text_from decoder [] = EmptyString.
Proof. unfold text_from. simpl. rewrite decode_nil. reflexivity. Qed.

Lemma text_from_cons (decoder : decoder_state) (value : list byte)
  (later : list (list byte)) :
  text_from decoder (value :: later) =
  fst (decode_chunk decoder value) ++ text_from (snd (decode_chunk decoder value)) later.
Proof.
  unfold text_from. simpl. rewrite decode_app.
  destruct (decode_chunk decoder value) as [t1 st1]. simpl.
  destruct (decode_chunk st1 (List.concat later)) as [t2 st2]. reflexivity.
Qed.

(** Whatever partial line is carried in the buffer, the reads that follow are
    handled as if the buffer and their text had arrived in one piece. *)
Lemma read_loop_closed (reads : list (list byte)) :
  forall decoder buffer,
    free_of is_newline buffer ->
    read_loop JSON_parse id reads decoder buffer =
    (map (AppendContent id)
         (fragments_of JSON_parse (complete_lines (buffer ++ text_from decoder reads)))
       ++ [SetIsLoading false])%list.
Proof.
  induction reads as [|value later IH]; intros decoder buffer Hfree.
  - rewrite text_from_nil, string_app_nil_r, complete_lines_cut, (cut_free _ Hfree).
    reflexivity.
  - rewrite text_from_cons. simpl.
    destruct (decode_chunk decoder value) as [text decoder']. simpl.
    rewrite <- string_app_assoc, complete_lines_cut, cut_app.
    rewrite split_cut, last_last, removelast_last, process_lines_closed.
    pose proof (cut_remainder_free (buffer ++ text)) as Hrem.
    destruct (cut (buffer ++ text)) as [la ra]. simpl in *.
    rewrite (IH decoder' ra Hrem), complete_lines_cut.
    destruct (cut (ra ++ text_from decoder' later)) as [lb rb]. simpl.
    rewrite fragments_of_app.
    destruct (existsb is_done_line la); [reflexivity|].
    rewrite app_nil_r, map_app, app_assoc. reflexivity.
Qed.


(** C7.  Whatever the byte boundaries at which the response body arrives,
    the handler does not throw and its state updates depend on the bytes of
    the body alone.  After them every message with the assistant message's
    id holds its former content followed by the [content] fields, in order,
    of the newline-terminated lines that start with [data: ] and parse, up to
    the first [data: [DONE]] line; the other messages are untouched.  Lines
    that do not parse add nothing and do not stop the handler.  The loading
    state is ended exactly once, by the last update.  A partial line left in
    the buffer by one read is completed by the text of the next. *)
Theorem streaming_reconstruction (status_text : string) (reads : list (list byte))
  (st : PaneState) :
  let response := {| ok := true; statusText := status_text; response_body := Some reads |} in
  let text := body_text (List.concat reads) in
  exists updates,
    handleStreamingResponse JSON_parse response id = inr updates
    /\ messages (apply_updates st updates)
       = map (append_content id (reconstructed JSON_parse text)) (messages st)
    /\ isLoading (apply_updates st updates) = false
    /\ filter is_loading_end updates = [SetIsLoading false]
    /\ last updates (SetIsLoading true) = SetIsLoading false
    /\ (forall reads',
           List.concat reads' = List.concat reads ->
           handleStreamingResponse JSON_parse
             {| ok := true; statusText := status_text; response_body := Some reads' |} id
           = inr updates)
    /\ (forall decoder buffer,
           free_of is_newline buffer ->
           read_loop JSON_parse id reads decoder buffer
           = (map (AppendContent id)
                  (fragments_of JSON_parse
                     (complete_lines (buffer ++ text_from decoder reads)))
                ++ [SetIsLoading false])%list).
Proof.
  cbv zeta.
  assert (forall rs,
             handleStreamingResponse JSON_parse
               {| ok := true; statusText := status_text; response_body := Some rs |} id
             = inr (map (AppendContent id)
                        (fragments_of JSON_parse
                           (complete_lines (body_text (List.concat rs))))
                      ++ [SetIsLoading false])%list) as Hclosed.
  { intros rs. unfold handleStreamingResponse. simpl.
    rewrite (read_loop_closed rs decoder_start EmptyString I). reflexivity. }
  eexists. split; [apply Hclosed|].
  rewrite apply_fragments. simpl. rewrite join_fragments.
  repeat apply conj.
  - reflexivity.
  - reflexivity.
  - rewrite filter_app. simpl.
    replace (filter is_loading_end (map (AppendContent id) _)) with (@nil Update);
      [reflexivity|].
    induction (fragments_of JSON_parse _) as [|f fs IH]; simpl; [reflexivity | exact IH].
  - apply last_last.
  - intros reads' Hsame. rewrite Hclosed, Hsame. reflexivity.
  - apply read_loop_closed.
Qed.

End StreamingProofs.

Lemma string_of_list_byte_app (a b : list byte) :
  string_of_list_byte (a ++ b) = string_of_list_byte a ++ string_of_list_byte b.
Proof.
  unfold string_of_list_byte. rewrite map_app.
  induction (map ascii_of_byte a) as [|c l IH]; simpl; congruence.
Qed.

Lemma one_byte_decoder_laws : TextDecoderLaws one_byte_decoder.
Proof.
  split; simpl; intros; [reflexivity|]. rewrite string_of_list_byte_app. reflexivity.
Qed.

Lemma streaming_reconstruction_witness :
  let reads := [ bytes_of_string (substring 0 13 sample_body);
                 bytes_of_string (substring 13 40 sample_body);
                 bytes_of_string (substring 53 1000 sample_body) ] in
  let st := {| messages := [placeholder "41"; placeholder "42"]; isLoading := true |} in
  exists updates,
    @handleStreamingResponse one_byte_decoder simple_parse
      {| ok := true; statusText := "OK"; response_body := Some reads |} "42" = inr updates
    /\ apply_updates st updates
       = {| messages := [ placeholder "41";
                          append_content "42" "Call me Ishmael." (placeholder "42") ];
            isLoading := false |}.
Proof.
  intros reads st.
  destruct (@streaming_reconstruction one_byte_decoder one_byte_decoder_laws simple_parse
              "42" "OK" reads st)
    as (updates & Hrun & Hmsgs & Hload & _).
  exists updates. split; [exact Hrun|].
  destruct (apply_updates st updates) as [msgs loading]. simpl in Hmsgs, Hload.
  rewrite Hmsgs, Hload. vm_compute. reflexivity.
Defined.

(** ** The upload handler as a whole *)

(** X1.  Whatever the backend answers, the handler returns a response (a
    rejected [formData()] included: it is answered 500 with the error's
    message, or "Unknown error" for a value that is not an [Error], after two
    calls only), and the status is 200, 400, 401 or 500. *)
Theorem POST_always_answers (B : Backend) (s : St B) :
  let r := run B POST s in
  (exists resp,
      outcome_of r = Returned resp /\ In (status resp) [200; 400; 401; 500])
  /\
  (forall thrown,
      In (E_formData (inl thrown)) (trace_of r) ->
      List.length (trace_of r) = 2
      /\ outcome_of r = Returned (caught_response thrown)).
Proof.
  cbv zeta. split.
  - crank; unfold outcome_of; simpl; eexists; (split; [reflexivity|]); simpl; auto 6.
  - crank; intros thrown Hin; unfold trace_of, outcome_of in *; which_event.
    all: match goal with H : E_formData _ = E_formData _ |- _ =>
           inversion H; clear H; subst end.
    all: split; reflexivity.
Qed.

Lemma POST_always_answers_witness :
  outcome_of (run (Supabase {| req_session := signed_in "alice";
                               req_form := inl (ErrorInstance "Failed to parse body") |})
                  POST (calm empty_db []))
  = Returned (caught_response (ErrorInstance "Failed to parse body")).
Proof.
  apply (proj2 (POST_always_answers
                  (Supabase {| req_session := signed_in "alice";
                               req_form := inl (ErrorInstance "Failed to parse body") |})
                  (calm empty_db []))
           (ErrorInstance "Failed to parse body")).
  vm_compute. right. left. reflexivity.
Defined.

(** X2.  Whatever the backend answers, one request makes at most nine calls,
    and among them at most one insert of a Content Record, one storage
    upload, one insert of an Ownership Link, one delete and one removal. *)
Theorem POST_bounded_effects (B : Backend) (s : St B) :
  let tr := trace_of (run B POST s) in
  List.length tr <= 9
  /\ List.length (filter is_books_insert tr) <= 1
  /\ List.length (filter is_storage_upload tr) <= 1
  /\ List.length (filter is_link_insert tr) <= 1
  /\ List.length (filter is_books_delete tr) <= 1
  /\ List.length (filter is_storage_remove tr) <= 1.
Proof.
  cbv zeta. crank; unfold trace_of; simpl; repeat split; lia.
Qed.

Ltac same_event :=
  repeat match goal with
         | H : E_books_insert _ _ = E_books_insert _ _ |- _ => inversion H; clear H; subst
         | H : E_user_books_insert _ _ _ = E_user_books_insert _ _ _ |- _ =>
             inversion H; clear H; subst
         | H : E_storage_upload _ _ _ = E_storage_upload _ _ _ |- _ =>
             inversion H; clear H; subst
         | H : E_books_delete_by_id _ _ = E_books_delete_by_id _ _ |- _ =>
             inversion H; clear H; subst
         | H : E_storage_remove _ _ = E_storage_remove _ _ |- _ =>
             inversion H; clear H; subst
         | H : E_books_select_by_checksum _ _ = E_books_select_by_checksum _ _ |- _ =>
             inversion H; clear H; subst
         end.

(** X3.  What the two success answers mean, whatever the backend: the answer
    "Book uploaded successfully" is given only after the insert of the
    Content Record, the upload of the file's bytes and the insert of the
    Ownership Link have all come back without error, and these are then the
    only write calls; the answer [duplicate=true] is given only for the
    identifier of a record that a fingerprint lookup returned, and then no
    object was uploaded, no Content Record created and nothing deleted. *)
Theorem success_answers (B : Backend) (s : St B) :
  let r := run B POST s in
  (forall id,
      outcome_of r = Returned (uploaded_response id) ->
      exists user file,
        filter is_write (trace_of r) =
          [ E_books_insert (bookData_of user file (hashHex (file_buffer file)) id) None;
            E_storage_upload (storagePath_of user id) (file_buffer file) None;
            E_user_books_insert (user_id user) id None ])
  /\
  (forall id,
      outcome_of r = Returned (duplicate_response id) ->
      (exists h re book,
          In (E_books_select_by_checksum h re) (trace_of r)
          /\ data re = Some book /\ sel_id book = id)
      /\ filter is_storage_upload (trace_of r) = []
      /\ forallb is_link_insert (filter created (trace_of r)) = true
      /\ filter is_books_delete (trace_of r) = []
      /\ filter is_storage_remove (trace_of r) = []).
Proof.
  cbv zeta. split.
  - crank; intros id Hout; unfold trace_of, outcome_of in *; simpl in *;
      cbv [duplicate_response uploaded_response link_failed_response
           insert_failed_response upload_failed_response lookup_failed_response
           json json_ok] in Hout;
      try discriminate Hout.
    injection Hout as <-. do 2 eexists. reflexivity.
  - crank; intros id Hout; unfold trace_of, outcome_of in *; simpl in *;
      cbv [duplicate_response uploaded_response link_failed_response
           insert_failed_response upload_failed_response lookup_failed_response
           json json_ok] in Hout;
      try discriminate Hout.
    all: injection Hout as <-.
    all: split;
      [ first [ do 3 eexists; split; [do 2 right; left; reflexivity | split; reflexivity]
              | do 3 eexists; split; [do 5 right; left; reflexivity | split; reflexivity] ]
      | repeat split ].
Qed.

Lemma success_answers_witness :
  let r := run (Supabase (upload_request "alice" moby_epub)) POST (calm empty_db ["id-1"]) in
  exists user file,
    filter is_write (trace_of r) =
      [ E_books_insert (bookData_of user file (hashHex (file_buffer file)) "id-1") None;
        E_storage_upload (storagePath_of user "id-1") (file_buffer file) None;
        E_user_books_insert (user_id user) "id-1" None ].
Proof.
  apply (proj1 (success_answers (Supabase (upload_request "alice" moby_epub))
                                (calm empty_db ["id-1"])) "id-1").
  vm_compute. reflexivity.
Defined.

(** X4.  Whatever the backend answers, every write of a request is made in
    the name of the authenticated user and on the request's own resources:
    Ownership Links are inserted for the session's user only; a Content
    Record is inserted with that user as uploader and with the storage path
    [books/<user>/<id>.epub]; a delete only names the identifier of a record
    that this request has inserted before, and a removal only the path of an
    object that this request has uploaded before. *)
Theorem writes_are_the_requests_own (B : Backend) (s : St B) :
  let tr := trace_of (run B POST s) in
  forall auth user,
    hd_error tr = Some (E_getUser auth) ->
    data_user auth = Some user ->
    (forall u b r, In (E_user_books_insert u b r) tr -> u = user_id user)
    /\ (forall row r,
           In (E_books_insert row r) tr ->
           bd_uploaded_by row = user_id user
           /\ bd_storage_path row = storagePath_of user (bd_id row))
    /\ (forall i r,
           In (E_books_delete_by_id i r) tr ->
           exists row,
             In (E_books_insert row None) (before is_books_delete tr) /\ i = bd_id row)
    /\ (forall ps r,
           In (E_storage_remove ps r) tr ->
           exists path content,
             In (E_storage_upload path content None) (before is_storage_remove tr)
             /\ ps = [path]).
Proof.
  cbv zeta. intros auth user Hhd Huser. repeat apply conj.
  - revert Hhd Huser. crank; intros Hhd Huser u' b' r' Hin;
      unfold trace_of in *; simpl in Hhd; inversion Hhd; subst; simpl in Huser;
      inversion Huser; subst; which_event; same_event; reflexivity.
  - revert Hhd Huser. crank; intros Hhd Huser row r' Hin;
      unfold trace_of in *; simpl in Hhd; inversion Hhd; subst; simpl in Huser;
      inversion Huser; subst; which_event; same_event; split; reflexivity.
  - revert Hhd Huser. crank; intros Hhd Huser i r' Hin;
      unfold trace_of in *; simpl in Hhd; inversion Hhd; subst; simpl in Huser;
      inversion Huser; subst; which_event; same_event;
      eexists; (split; [do 4 right; left; reflexivity | reflexivity]).
  - revert Hhd Huser. crank; intros Hhd Huser ps r' Hin;
      unfold trace_of in *; simpl in Hhd; inversion Hhd; subst; simpl in Huser;
      inversion Huser; subst; which_event; same_event;
      do 2 eexists; (split; [do 5 right; left; reflexivity | reflexivity]).
Qed.

Lemma writes_are_the_requests_own_witness :
  let link_fails := {| w_db := empty_db; w_uuids := ["id-1"];
                       w_weather := [Fine; Fine; Fine; Outage storage_down] |} in
  let tr := trace_of (run (Supabase (upload_request "alice" moby_epub)) POST link_fails) in
  exists row, In (E_books_insert row None) (before is_books_delete tr) /\ "id-1" = bd_id row.
Proof.
  cbv zeta.
  apply (proj1 (proj2 (proj2 (writes_are_the_requests_own
                                (Supabase (upload_request "alice" moby_epub))
                                {| w_db := empty_db; w_uuids := ["id-1"];
                                   w_weather := [Fine; Fine; Fine; Outage storage_down] |}
                                (signed_in "alice") {| user_id := "alice" |}
                                ltac:(vm_compute; reflexivity) eq_refl)))
           "id-1" None).
  vm_compute. do 7 right. left. reflexivity.
Defined.

(** X5.  Whatever the backend answers, the bytes a request uploads are the
    bytes its Content Record describes: the upload goes to the record's
    storage path, after the record was inserted without error, and the
    record's checksum is the fingerprint of the uploaded bytes and its size
    their number. *)
Theorem stored_object_matches_record (B : Backend) (s : St B) :
  let tr := trace_of (run B POST s) in
  forall path content r,
    In (E_storage_upload path content r) tr ->
    exists row,
      In (E_books_insert row None) (before is_storage_upload tr)
      /\ path = bd_storage_path row
      /\ bd_file_checksum row = hashHex content
      /\ bd_file_size row = N.of_nat (List.length content).
Proof.
  cbv zeta. crank; intros path content r' Hin; unfold trace_of in *; which_event;
    same_event; eexists; (split; [do 4 right; left; reflexivity | repeat split]).
Qed.

Lemma stored_object_matches_record_witness :
  let tr := trace_of (run (Supabase (upload_request "alice" moby_epub)) POST
                          (calm empty_db ["id-1"])) in
  exists row,
    In (E_books_insert row None) (before is_storage_upload tr)
    /\ "books/alice/id-1.epub" = bd_storage_path row
    /\ bd_file_checksum row = hashHex (file_buffer moby_epub)
    /\ bd_file_size row = N.of_nat (List.length (file_buffer moby_epub)).
Proof.
  cbv zeta.
  apply (stored_object_matches_record (Supabase (upload_request "alice" moby_epub))
           (calm empty_db ["id-1"]) "books/alice/id-1.epub" (file_buffer moby_epub) None).
  vm_compute. do 5 right. left. reflexivity.
Defined.

(** ** The default title and the storage path *)

Lemma canonical_letter (c : ascii) :
  (regexp_canonicalize c = "."%char <-> lower_ascii c = "."%char)
  /\ (regexp_canonicalize c = "E"%char <-> lower_ascii c = "e"%char)
  /\ (regexp_canonicalize c = "P"%char <-> lower_ascii c = "p"%char)
  /\ (regexp_canonicalize c = "U"%char <-> lower_ascii c = "u"%char)
  /\ (regexp_canonicalize c = "B"%char <-> lower_ascii c = "b"%char).
Proof.
  destruct c as [[] [] [] [] [] [] [] []]; vm_compute;
    repeat split; intros H; first [reflexivity | discriminate H].
Qed.

Lemma canonical_epub (s : string) :
  map_string regexp_canonicalize s = ".EPUB" <-> toLowerCase s = ".epub".
Proof.
  destruct s as [|c0 [|c1 [|c2 [|c3 [|c4 [|c5 s]]]]]]; simpl;
    try (split; intros H; discriminate H).
  destruct (canonical_letter c0) as (H0 & _).
  destruct (canonical_letter c1) as (_ & H1 & _).
  destruct (canonical_letter c2) as (_ & _ & H2 & _).
  destruct (canonical_letter c3) as (_ & _ & _ & H3 & _).
  destruct (canonical_letter c4) as (_ & _ & _ & _ & H4).
  split; intros H; injection H as E0 E1 E2 E3 E4.
  - apply H0 in E0. apply H1 in E1. apply H2 in E2. apply H3 in E3. apply H4 in E4.
    congruence.
  - apply H0 in E0. apply H1 in E1. apply H2 in E2. apply H3 in E3. apply H4 in E4.
    congruence.
Qed.

Lemma strip_epub_extension_eq (name : string) :
  strip_epub_extension name =
  if endsWith (toLowerCase name) ".epub"
  then substring 0 (String.length name - 5) name
  else name.
Proof.
  unfold strip_epub_extension, endsWith.
  rewrite toLowerCase_length, toLowerCase_substring.
  change (String.length ".epub") with 5.
  destruct (5 <=? String.length name); simpl; [|reflexivity].
  destruct (String.eqb (map_string regexp_canonicalize
                          (substring (String.length name - 5) 5 name)) ".EPUB") eqn:E1;
    destruct (String.eqb (toLowerCase (substring (String.length name - 5) 5 name))
                         ".epub") eqn:E2; try reflexivity.
  - apply String.eqb_eq, canonical_epub in E1. apply String.eqb_neq in E2. contradiction.
  - apply String.eqb_eq, canonical_epub in E2. apply String.eqb_neq in E1. contradiction.
Qed.

(** X6.  The default title drops exactly what the validation accepts as an
    extension: the regular expression [/\.epub$/i] of the title and the test
    [toLowerCase().endsWith(".epub")] of the validation agree on every
    filename.  A filename with the extension is its title followed by five
    characters that lower-case to [.epub]; any other filename is its own
    title. *)
Theorem title_drops_the_extension (name : string) :
  (strip_epub_extension name =
     if endsWith (toLowerCase name) ".epub"
     then substring 0 (String.length name - 5) name
     else name)
  /\ (has_epub_extension name ->
      exists ext,
        name = strip_epub_extension name ++ ext
        /\ String.length ext = 5 /\ toLowerCase ext = ".epub")
  /\ (~ has_epub_extension name -> strip_epub_extension name = name).
Proof.
  split; [apply strip_epub_extension_eq|]. rewrite strip_epub_extension_eq. split.
  - intros Hext. pose proof (proj2 (endsWith_lower_epub name) Hext) as Hends.
    rewrite Hends. unfold endsWith in Hends.
    apply andb_true_iff in Hends. destruct Hends as [Hlen Hsuf].
    rewrite toLowerCase_length in Hlen, Hsuf. rewrite toLowerCase_substring in Hsuf.
    apply Nat.leb_le in Hlen. apply String.eqb_eq in Hsuf.
    change (String.length ".epub") with 5 in *.
    exists (substring (String.length name - 5) 5 name). repeat split.
    + pose proof (substring_split name (String.length name - 5)) as Hsplit.
      replace (String.length name - (String.length name - 5)) with 5 in Hsplit by lia.
      apply Hsplit. lia.
    + rewrite <- (toLowerCase_length (substring _ _ _)), Hsuf. reflexivity.
    + exact Hsuf.
  - intros Hno. destruct (endsWith (toLowerCase name) ".epub") eqn:E; [|reflexivity].
    apply endsWith_lower_epub in E. contradiction.
Qed.

Lemma title_drops_the_extension_witness :
  strip_epub_extension "Moby-Dick.EPUB" = "Moby-Dick"
  /\ strip_epub_extension "notes.epub.txt" = "notes.epub.txt".
Proof.
  split.
  - destruct (proj1 (proj2 (title_drops_the_extension "Moby-Dick.EPUB")))
      as (ext & Hname & Hlen & Hlow).
    + apply endsWith_lower_epub. vm_compute. reflexivity.
    + vm_compute. reflexivity.
  - apply (proj2 (proj2 (title_drops_the_extension "notes.epub.txt"))).
    intros H. apply endsWith_lower_epub in H. vm_compute in H. discriminate H.
Defined.

Lemma string_app_inv_tail (a b c : string) : a ++ c = b ++ c -> a = b.
Proof.
  revert b. induction a as [|x a IH]; intros [|y b] H; simpl in H.
  - reflexivity.
  - apply (f_equal String.length) in H. simpl in H. rewrite string_length_app in H. lia.
  - apply (f_equal String.length) in H. simpl in H. rewrite string_length_app in H. lia.
  - injection H as -> H. f_equal. apply IH. exact H.
Qed.

Lemma string_app_inv_head (a b c : string) : a ++ b = a ++ c -> b = c.
Proof. induction a as [|x a IH]; simpl; intros H; [exact H|]. injection H as H. auto. Qed.

Lemma split_at_first_slash (x x' r r' : string) :
  free_of is_slash x -> free_of is_slash x' ->
  x ++ String "/" r = x' ++ String "/" r' -> x = x' /\ r = r'.
Proof.
  revert x'. induction x as [|c x IH]; intros [|c' x'] Hx Hx' H; simpl in *.
  - injection H as ->. split; reflexivity.
  - injection H as <- _. destruct Hx' as [Hc _]. discriminate Hc.
  - injection H as -> _. destruct Hx as [Hc _]. discriminate Hc.
  - injection H as -> H. destruct Hx as [_ Hx], Hx' as [_ Hx'].
    destruct (IH x' Hx Hx' H) as [-> ->]. split; reflexivity.
Qed.

(** X7.  Storage paths do not collide: for one user, different identifiers
    give different paths; and for users whose identity holds no [/], equal
    paths mean the same user and the same identifier. *)
Theorem storage_paths_do_not_collide (u u' : User) (id id' : string) :
  (storagePath_of u id = storagePath_of u id' -> id = id')
  /\ (free_of is_slash (user_id u) -> free_of is_slash (user_id u') ->
      storagePath_of u id = storagePath_of u' id' ->
      user_id u = user_id u' /\ id = id').
Proof.
  unfold storagePath_of. split.
  - intros H. apply string_app_inv_head in H. apply string_app_inv_head in H.
    apply string_app_inv_head in H. apply string_app_inv_tail in H. exact H.
  - intros Hu Hu' H. apply string_app_inv_head in H.
    destruct (split_at_first_slash _ _ _ _ Hu Hu' H) as [Huid Hrest].
    split; [exact Huid|]. apply string_app_inv_tail in Hrest. exact Hrest.
Qed.

Lemma storage_paths_do_not_collide_witness :
  user_id {| user_id := "alice" |} = "alice" /\ "id-1" = "id-1".
Proof.
  apply (proj2 (storage_paths_do_not_collide {| user_id := "alice" |}
                  {| user_id := "alice" |} "id-1" "id-1")).
  - vm_compute. tauto.
  - vm_compute. tauto.
  - reflexivity.
Defined.

(** ** The upload handler on the datastore model *)

Lemma reupload (uid : string) (file : File) (d : Db) (ids : list string)
  (book : BookIdTitle) (l : LinkId) :
  invalid_file_type file = false ->
  db_books_by_checksum d (hashHex (file_buffer file)) = [book] ->
  db_links d uid (sel_id book) = [l] ->
  let r := run (Supabase (upload_request uid file)) POST (calm d ids) in
  outcome_of r = Returned (duplicate_response (sel_id book))
  /\ final_of r = calm d ids.
Proof.
  intros Hvalid Hsum Hlink r. unfold r.
  cbv - [hashHex invalid_file_type String.eqb strip_epub_extension storagePath_of
         append file_size db_books_by_checksum db_links sel_id file_buffer
         file_name file_type].
  rewrite Hvalid, Hsum.
  cbv - [hashHex invalid_file_type String.eqb strip_epub_extension storagePath_of
         append file_size db_books_by_checksum db_links sel_id file_buffer
         file_name file_type].
  rewrite Hlink. split; reflexivity.
Qed.

Lemma library_lookup (uid : string) (file : File) (id : string) :
  db_books_by_checksum (library_of {| user_id := uid |} file id) (hashHex (file_buffer file))
  = [ {| sel_id := id; sel_title := strip_epub_extension (file_name file) |} ]
  /\ db_links (library_of {| user_id := uid |} file id) uid id = [ {| link_id := "0" |} ].
Proof.
  cbv - [hashHex String.eqb strip_epub_extension storagePath_of file_size
         file_buffer file_name file_type].
  rewrite !String.eqb_refl. split; reflexivity.
Qed.

(** X8.  Uploading again is idempotent on the datastore model: when the
    fingerprint of the file is held by one Content Record and the user holds
    one Ownership Link to it, the upload answers [duplicate: true] with the
    identifier of that record and leaves the tables, the bucket and the
    identifiers still to be drawn exactly as they were.  So the same user
    uploading the same file twice gets the identifier of the first upload
    back, and the second upload changes nothing. *)
Theorem reupload_is_idempotent (uid : string) (file : File) :
  invalid_file_type file = false ->
  (forall d ids book l,
      db_books_by_checksum d (hashHex (file_buffer file)) = [book] ->
      db_links d uid (sel_id book) = [l] ->
      let r := run (Supabase (upload_request uid file)) POST (calm d ids) in
      outcome_of r = Returned (duplicate_response (sel_id book))
      /\ final_of r = calm d ids)
  /\
  (forall id ids,
      let r1 := run (Supabase (upload_request uid file)) POST (calm empty_db (id :: ids)) in
      let r2 := run (Supabase (upload_request uid file)) POST (final_of r1) in
      outcome_of r1 = Returned (uploaded_response id)
      /\ outcome_of r2 = Returned (duplicate_response id)
      /\ final_of r2 = final_of r1).
Proof.
  intros Hvalid. split.
  - intros d ids book l Hsum Hlink. apply (reupload uid file d ids book l); assumption.
  - intros id ids r1 r2.
    destruct (first_upload uid file id ids Hvalid) as [Hout1 Hfin1].
    destruct (library_lookup uid file id) as [Hsum Hlink].
    destruct (reupload uid file (library_of {| user_id := uid |} file id) ids
                {| sel_id := id; sel_title := strip_epub_extension (file_name file) |}
                {| link_id := "0" |} Hvalid Hsum Hlink) as [Hout2 Hfin2].
    unfold r2, r1. rewrite Hfin1. repeat split; assumption.
Qed.

Lemma reupload_is_idempotent_witness :
  let r1 := run (Supabase (upload_request "alice" moby_epub)) POST (calm empty_db ["id-1"]) in
  let r2 := run (Supabase (upload_request "alice" moby_epub)) POST (final_of r1) in
  outcome_of r2 = Returned (duplicate_response "id-1") /\ final_of r2 = final_of r1.
Proof.
  exact (proj2 (proj2 (reupload_is_idempotent "alice" moby_epub
                         ltac:(vm_compute; reflexivity)) "id-1" [])).
Defined.

Lemma db_insert_book_refused (d d' : Db) (row : BookData) (e : PostgrestError) :
  db_insert_book d row = (Some e, d') -> d' = d.
Proof.
  unfold db_insert_book. intros H.
  destruct (existsb _ (books d)); [injection H as _ <-; reflexivity|].
  destruct (existsb _ (books d)); [injection H as _ <-; reflexivity | discriminate H].
Qed.

Lemma db_upload_refused (d d' : Db) (path : string) (content : list byte)
  (e : StorageError) :
  db_upload d path content = (Some e, d') -> d' = d.
Proof.
  unfold db_upload. intros H.
  destruct (existsb _ (epubs d)); [injection H as _ <-; reflexivity | discriminate H].
Qed.

Lemma supabase_replay {A : Type} (req : Request) (p : Prog A) :
  forall w,
    replay (trace_of (run (Supabase req) p w)) (w_db w)
    = Some (w_db (final_of (run (Supabase req) p w))).
Proof.
  induction p as [a | e | R c k IH]; intros w; try reflexivity.
  rewrite run_Vis.
  destruct (reply (Supabase req) R c w) as [r w1] eqn:Hreply.
  specialize (IH r w1).
  destruct (run (Supabase req) (k r) w1) as [[tr o] w2].
  unfold trace_of, final_of in *. simpl in *.
  assert (replay_event (event_of c r) (w_db w) = Some (w_db w1)) as ->; [|exact IH].
  clear IH.
  destruct c; simpl in *;
    unfold next_weather, next_uuid in Hreply;
    destruct w as [d ids [|[|e] wt]]; simpl in *;
    try (injection Hreply as <- <-; reflexivity);
    try (destruct ids; injection Hreply as <- <-; reflexivity).
  all: match goal with
       | |- context [db_insert_book ?d ?row] =>
           destruct (db_insert_book d row) as [[?|] ?] eqn:Hcall
       | |- context [db_upload ?d ?path ?body] =>
           destruct (db_upload d path body) as [[?|] ?] eqn:Hcall
       end; injection Hreply as <- <-; simpl; try reflexivity.
  all: first [ apply db_insert_book_refused in Hcall
             | apply db_upload_refused in Hcall ];
    rewrite Hcall; reflexivity.
Qed.

Lemma existsb_false_inv {A : Type} (f : A -> bool) (l : list A) :
  existsb f l = false -> forall x, In x l -> f x = false.
Proof.
  intros H x Hx. destruct (f x) eqn:E; [|reflexivity].
  rewrite <- H. symmetry. apply existsb_exists. exists x. split; assumption.
Qed.

Lemma db_insert_book_done (d d' : Db) (row : BookData) :
  db_insert_book d row = (None, d') ->
  d' = {| books := books d ++ [ {| row_data := row; row_manifest := None |} ];
          user_books := user_books d;
          epubs := epubs d |}
  /\ forall x, In x (books d) -> String.eqb (bd_id (row_data x)) (bd_id row) = false.
Proof.
  unfold db_insert_book. intros H.
  destruct (existsb _ (books d)); [discriminate H|].
  destruct (existsb _ (books d)) eqn:Hid; [discriminate H|].
  injection H as <-. split; [reflexivity|]. apply (existsb_false_inv _ _ Hid).
Qed.

Lemma db_upload_done (d d' : Db) (path : string) (content : list byte) :
  db_upload d path content = (None, d') ->
  d' = {| books := books d; user_books := user_books d;
          epubs := epubs d ++ [(path, content)] |}
  /\ forall o, In o (epubs d) -> String.eqb (fst o) path = false.
Proof.
  unfold db_upload. intros H.
  destruct (existsb _ (epubs d)) eqn:Hpath; [discriminate H|].
  injection H as <-. split; [reflexivity|]. apply (existsb_false_inv _ _ Hpath).
Qed.

Ltac replay_step H :=
  match type of H with
  | context [db_insert_book ?d ?row] =>
      let E := fresh "Hdone" in
      destruct (db_insert_book d row) as [[?|] ?] eqn:E; [cbv [replay replay_event] in H; discriminate H|];
      apply db_insert_book_done in E; destruct E as [-> ?]
  | context [db_upload ?d ?p ?c] =>
      let E := fresh "Hdone" in
      destruct (db_upload d p c) as [[?|] ?] eqn:E; [cbv [replay replay_event] in H; discriminate H|];
      apply db_upload_done in E; destruct E as [-> ?]
  | context [match ?r with Some _ => _ | None => _ end] => is_var r; destruct r
  end; cbv [replay replay_event] in H.

Ltac one_more :=
  first
    [ eexists; split; [reflexivity | simpl; lia]
    | exists []; rewrite app_nil_r; split; [|simpl; lia];
      first [ reflexivity
            | apply filter_app_last;
              [ intros x Hx; cbn [existsb]; rewrite ?orb_false_r;
                match goal with
                | Hfresh : forall y, In y _ -> String.eqb _ _ = false |- _ =>
                    rewrite (Hfresh x Hx); reflexivity
                end
              | cbn [existsb row_data bd_id fst]; rewrite String.eqb_refl; reflexivity ] ] ].

Arguments replay : simpl never.

Lemma POST_grows (B : Backend) (s : St B) (d d' : Db) :
  replay (trace_of (run B POST s)) d = Some d' -> grows d d'.
Proof.
  crank; cbv [trace_of fst replay replay_event]; intros H.
  all: repeat replay_step H.
  all: injection H as <-.
  all: unfold grows, db_delete_book, db_remove, db_insert_link, bookData_of in *;
    cbn [books user_books epubs bd_id row_data] in *.
  all: repeat split; one_more.
Qed.

(** X9.  On the datastore model, whatever the request and whichever calls
    fail, the upload handler destroys nothing that was there before: every
    Content Record, Ownership Link and stored object of the datastore is still
    there afterwards, in the same order, followed by at most one new record,
    one new link and one new object.  Its compensating deletes can only
    reach what the same request has created. *)
Theorem upload_destroys_nothing (req : Request) (w : World) :
  grows (w_db w) (w_db (final_of (run (Supabase req) POST w))).
Proof. apply (POST_grows (Supabase req) w). apply supabase_replay. Qed.

(** ** Who gets to read *)

Lemma map_singleton {A B : Type} (g : A -> B) (l : list A) (y : B) :
  map g l = [y] -> exists x, l = [x] /\ g x = y.
Proof.
  destruct l as [|x [|x' l]]; intros H; try discriminate H.
  injection H as H. exists x. split; [reflexivity | exact H].
Qed.

Lemma filter_singleton {A : Type} (f : A -> bool) (l : list A) (x : A) :
  filter f l = [x] -> In x l /\ f x = true.
Proof.
  intros H. apply filter_In. rewrite H. left. reflexivity.
Qed.

Lemma db_books_by_id_one (d : Db) (id : string) (book : BookManifest) :
  db_books_by_id d id = [book] ->
  exists b, In b (books d) /\ bd_id (row_data b) = id
            /\ bd_title (row_data b) = bm_title book
            /\ row_manifest b = readium_manifest_path book.
Proof.
  unfold db_books_by_id. intros H.
  apply map_singleton in H. destruct H as (b & Hf & <-).
  apply filter_singleton in Hf. destruct Hf as [Hin Hid]. apply String.eqb_eq in Hid.
  exists b. repeat split; assumption.
Qed.

Lemma db_links_one (d : Db) (u b : string) (l : LinkId) :
  db_links d u b = [l] ->
  exists row, In row (user_books d) /\ ub_user row = u /\ ub_book row = b.
Proof.
  unfold db_links. intros H.
  apply map_singleton in H. destruct H as (row & Hf & _).
  apply filter_singleton in Hf. destruct Hf as [Hin Hub].
  apply andb_true_iff in Hub. destruct Hub as [Hu Hb].
  apply String.eqb_eq in Hu. apply String.eqb_eq in Hb.
  exists row. repeat split; assumption.
Qed.

Lemma single_some {A : Type} (rows : list A) (r : A) :
  data (single rows) = Some r -> rows = [r].
Proof.
  destruct rows as [|x [|y rows]]; simpl; intros H; try discriminate H.
  injection H as <-. reflexivity.
Qed.

Lemma reader_trace (B : Backend) (s : St B) (id bookId path title : string) :
  let r := run B (ReadBookPage id) s in
  outcome_of r = Returned (BookReader bookId path title) ->
  bookId = id /\ path <> EmptyString
  /\ exists auth user book link held,
      trace_of r = [E_getUser auth;
                    E_books_select_by_id id {| data := Some book; error := None |};
                    E_user_books_select (user_id user) id link]
      /\ authenticated auth user
      /\ data link = Some held
      /\ readium_manifest_path book = Some path
      /\ title = bm_title book.
Proof.
  cbv zeta. unfold authenticated.
  crank_page; unfold outcome_of, trace_of; simpl; intros H; try discriminate H.
  injection H as <- <- <-.
  match goal with Hm : manifest_path_of _ = Some _ |- _ =>
    apply manifest_path_of_some in Hm; destruct Hm as [Hpath Hne] end.
  split; [reflexivity|]. split; [exact Hne|].
  do 5 eexists. split; [reflexivity|]. repeat split; try reflexivity. exact Hpath.
Qed.

(** X10.  The reader is shown to owners only.  For every backend: when the
    reading page hands a book to the reader, the session named a user
    without an error, the lookup of the Content Record by the requested
    identifier returned a record without an error, the lookup of the
    Ownership Link of that user and that identifier returned a link, and the
    reader gets the requested identifier, the record's non-empty manifest
    path and the record's title; these three are the page's only calls.  On
    the datastore model, whichever calls fail, the tables then hold an
    Ownership Link of the session's user to the identifier and a Content
    Record of that identifier with that manifest path and title. *)
Theorem reader_only_for_owners (id bookId path title : string) :
  (forall (B : Backend) (s : St B),
      let r := run B (ReadBookPage id) s in
      outcome_of r = Returned (BookReader bookId path title) ->
      bookId = id /\ path <> EmptyString
      /\ exists auth user book link held,
          trace_of r = [E_getUser auth;
                        E_books_select_by_id id {| data := Some book; error := None |};
                        E_user_books_select (user_id user) id link]
          /\ authenticated auth user
          /\ data link = Some held
          /\ readium_manifest_path book = Some path
          /\ title = bm_title book)
  /\
  (forall (req : Request) (w : World),
      outcome_of (run (Supabase req) (ReadBookPage id) w)
        = Returned (BookReader bookId path title) ->
      exists user,
        authenticated (req_session req) user
        /\ (exists l, In l (user_books (w_db w))
                      /\ ub_user l = user_id user /\ ub_book l = id)
        /\ (exists b, In b (books (w_db w))
                      /\ bd_id (row_data b) = id
                      /\ row_manifest b = Some path
                      /\ bd_title (row_data b) = title)).
Proof.
  split; [intros B s; apply reader_trace|].
  intros req w Hout.
  destruct (reader_trace (Supabase req) w id bookId path title Hout)
    as (_ & _ & auth & user & book & link & held & Htr & Hauth & Hheld & Hpath & ->).
  exists user.
  destruct req as [session form]. destruct w as [d ids wt].
  unfold trace_of in Htr. unfold ReadBookPage in Htr. rewrite run_Vis in Htr.
  cbn [reply Supabase supabase_reply req_session] in Htr.
  destruct Hauth as [Hnoerr Huser].
  destruct auth as [auser aerr]. simpl in Hnoerr, Huser. subst aerr auser.
  destruct session as [[u|] [ae|]]; simpl in Htr; try discriminate Htr.
  unfold next_weather in Htr.
  destruct wt as [|[|e1] [|[|e2] wt]]; simpl in Htr;
    try (destruct (db_books_by_id d id) as [|b0 [|b1 bs]] eqn:Hb; simpl in Htr;
         try discriminate Htr);
    try (destruct (db_links d (user_id u) id) as [|l0 [|l1 ls]] eqn:Hl; simpl in Htr;
         try discriminate Htr);
    try (destruct (manifest_path_of b0); simpl in Htr; discriminate Htr).
  all: destruct (manifest_path_of b0); simpl in Htr; try discriminate Htr.
  all: inversion Htr; subst; clear Htr; simpl in Hheld; try discriminate Hheld.
  all: simpl; split; [split; reflexivity|].
  all: apply db_books_by_id_one in Hb; destruct Hb as (b & Hin & Hid & Htitle & Hman).
  all: apply db_links_one in Hl; destruct Hl as (row & Hrow & Hu & Hbk).
  all: split; [exists row; repeat split; assumption|].
  all: exists b; repeat split; try assumption; congruence.
Qed.

Lemma reader_only_for_owners_witness :
  exists l, In l (user_books (published after_alice "manifests/id-alice/manifest.json"))
            /\ ub_user l = "alice" /\ ub_book l = "id-alice".
Proof.
  destruct (proj2 (reader_only_for_owners "id-alice" "id-alice"
                     "manifests/id-alice/manifest.json" "Moby-Dick")
              (page_request (signed_in "alice"))
              (calm (published after_alice "manifests/id-alice/manifest.json") [])
              ltac:(vm_compute; reflexivity))
    as (user & Hauth & Hlink & _).
  destruct Hauth as [_ Huser]. vm_norm_in Huser. injection Huser as <-.
  exact Hlink.
Defined.

(** ** One authentication test for the three entry points *)

(** X11.  The library page, the reading page and the upload handler apply
    the same test to the session: from the same backend state, the library
    page redirects to the login page exactly when the reading page does, and
    exactly when the upload handler answers 401.  The library page makes one
    call, the read of the session. *)
Theorem one_authentication_test (B : Backend) (s : St B) (id : string) :
  let library := run B ProtectedPage s in
  let reading := run B (ReadBookPage id) s in
  let upload := run B POST s in
  (outcome_of library = Returned (LibraryRedirect "/auth/login")
   <-> outcome_of reading = Returned (Redirect "/auth/login"))
  /\ (outcome_of library = Returned (LibraryRedirect "/auth/login")
      <-> exists resp, outcome_of upload = Returned resp /\ status resp = 401)
  /\ (outcome_of library = Returned UploadBookForm
      \/ outcome_of library = Returned (LibraryRedirect "/auth/login"))
  /\ exists auth, trace_of library = [E_getUser auth].
Proof.
  cbv zeta. unfold ProtectedPage, ReadBookPage.
  crank; repeat first [answer | look_page | look];
    unfold outcome_of, trace_of; simpl.
  all: repeat apply conj;
    try solve [left; reflexivity]; try solve [right; reflexivity];
    try solve [eexists; reflexivity];
    intros H;
    first [ discriminate H
          | reflexivity
          | eexists; split; reflexivity
          | destruct H as (resp & Hout & Hst); injection Hout as <-; discriminate Hst ].
Qed.

(** ** The service client *)

(** X12.  [createServiceClient] returns a client exactly when the service
    key is set and not empty and the URL it picks is not empty; the URL is
    [SUPABASE_URL] whenever that variable is defined, and the public URL only
    when it is undefined.  So a [SUPABASE_URL] that is set to the empty string
    makes the function throw even when the public URL is there: [??] does not
    fall back on an empty string, and [!url] takes it for missing. *)
Theorem service_client_configuration (env : ProcessEnv) :
  (forall client,
      createServiceClient env = inr client <->
      SUPABASE_SERVICE_ROLE_KEY env = Some (client_key client)
      /\ client_key client <> EmptyString
      /\ client_url client <> EmptyString
      /\ (SUPABASE_URL env = Some (client_url client)
          \/ (SUPABASE_URL env = None
              /\ NEXT_PUBLIC_SUPABASE_URL env = Some (client_url client))))
  /\ (SUPABASE_URL env = Some EmptyString ->
      createServiceClient env = inl missing_service_key)
  /\ (forall thrown, createServiceClient env = inl thrown -> thrown = missing_service_key).
Proof.
  unfold createServiceClient. repeat apply conj.
  - intros [cu ck]. simpl.
    destruct env as [[[|c u]|] [[|c' u']|] [[|k ks]|]]; simpl; split;
      try (intros H; discriminate H);
      try (intros H; injection H as <- <-; repeat split; try discriminate; auto);
      intros (Hk & Hkne & Hune & [Hu | [Hu Hp]]);
      try discriminate Hk; try discriminate Hu; try discriminate Hp; congruence.
  - intros ->. reflexivity.
  - intros thrown H.
    destruct (truthy_string (nullish (SUPABASE_URL env) (NEXT_PUBLIC_SUPABASE_URL env)));
      [|injection H as <-; reflexivity].
    destruct (truthy_string (SUPABASE_SERVICE_ROLE_KEY env));
      [discriminate H | injection H as <-; reflexivity].
Qed.

Lemma service_client_configuration_witness :
  createServiceClient {| SUPABASE_URL := Some EmptyString;
                         NEXT_PUBLIC_SUPABASE_URL := Some "https://example.supabase.co";
                         SUPABASE_SERVICE_ROLE_KEY := Some "service-key" |}
  = inl missing_service_key.
Proof.
  apply (proj1 (proj2 (service_client_configuration
                         {| SUPABASE_URL := Some EmptyString;
                            NEXT_PUBLIC_SUPABASE_URL := Some "https://example.supabase.co";
                            SUPABASE_SERVICE_ROLE_KEY := Some "service-key" |}))).
  reflexivity.
Defined.

(** ** The directory of the manifest *)

Lemma lastIndexOf_free (file : string) :
  free_of is_slash file -> lastIndexOf "/" file = (-1)%Z.
Proof.
  induction file as [|c file IH]; simpl; [reflexivity|].
  intros [Hc Hfile]. rewrite (IH Hfile). simpl. unfold is_slash in Hc. rewrite Hc.
  reflexivity.
Qed.

Lemma lastIndexOf_last (a file : string) :
  free_of is_slash file ->
  lastIndexOf "/" (a ++ String "/" file) = Z.of_nat (String.length a).
Proof.
  intros Hfile. induction a as [|c a IH].
  - simpl. rewrite (lastIndexOf_free file Hfile). reflexivity.
  - cbn [append lastIndexOf String.length]. rewrite IH.
    destruct (0 <=? Z.of_nat (String.length a))%Z eqn:E; [lia|].
    apply Z.leb_gt in E. lia.
Qed.

Lemma substring_prefix (x y : string) : substring 0 (String.length x) (x ++ y) = x.
Proof.
  induction x as [|c x IH]; simpl; [destruct y; reflexivity|]. rewrite IH. reflexivity.
Qed.

Lemma manifestDir_of (dir file : string) :
  free_of is_slash file ->
  dir = EmptyString \/ (exists a, dir = a ++ "/") ->
  manifestDir (dir ++ file) = dir.
Proof.
  intros Hfile [-> | [a ->]]; unfold manifestDir.
  - simpl. rewrite (lastIndexOf_free file Hfile). simpl. destruct file; reflexivity.
  - rewrite string_app_assoc. cbn [append].
    rewrite (lastIndexOf_last a file Hfile).
    replace (Z.to_nat (Z.of_nat (String.length a) + 1)) with (String.length (a ++ "/"))
      by (rewrite string_length_app; simpl; lia).
    change (a ++ String "/" file) with (a ++ ("/" ++ file)).
    rewrite <- (string_app_assoc a "/" file). apply substring_prefix.
Qed.

Lemma path_splits (p : string) :
  exists dir file,
    p = dir ++ file /\ free_of is_slash file
    /\ (dir = EmptyString \/ exists a, dir = a ++ "/").
Proof.
  induction p as [|c p (dir & file & -> & Hfile & Hdir)].
  - exists EmptyString, EmptyString. simpl. auto.
  - destruct Hdir as [-> | [a ->]].
    + destruct (is_slash c) eqn:E.
      * exists (String c EmptyString), file. unfold is_slash in E.
        apply Ascii.eqb_eq in E. subst c. simpl. repeat split; auto.
        right. exists EmptyString. reflexivity.
      * exists EmptyString, (String c file). simpl. auto.
    + exists (String c a ++ "/"), file. repeat split; auto.
      right. exists (String c a). reflexivity.
Qed.

(** X13.  The reader fetches [manifest.json] from the directory of the
    manifest path, and only the directory counts: every manifest path is
    its directory followed by a file name without [/]; the directory is empty
    or ends in [/]; and two paths in the same directory give the same base
    URL, whatever the file is called. *)
Theorem manifest_directory (supabaseUrl : string) :
  (forall path, exists file,
      path = manifestDir path ++ file /\ free_of is_slash file
      /\ (manifestDir path = EmptyString \/ exists a, manifestDir path = a ++ "/"))
  /\ (forall dir file,
         free_of is_slash file ->
         dir = EmptyString \/ (exists a, dir = a ++ "/") ->
         manifestDir (dir ++ file) = dir)
  /\ (forall dir file file',
         free_of is_slash file -> free_of is_slash file' ->
         dir = EmptyString \/ (exists a, dir = a ++ "/") ->
         baseUrl supabaseUrl (dir ++ file) = baseUrl supabaseUrl (dir ++ file')).
Proof.
  repeat apply conj.
  - intros path. destruct (path_splits path) as (dir & file & -> & Hfile & Hdir).
    rewrite (manifestDir_of dir file Hfile Hdir). exists file. auto.
  - apply manifestDir_of.
  - intros dir file file' Hfile Hfile' Hdir. unfold baseUrl.
    rewrite (manifestDir_of dir file Hfile Hdir), (manifestDir_of dir file' Hfile' Hdir).
    reflexivity.
Qed.

Lemma manifest_directory_witness :
  manifestDir "books_42/manifest.json" = "books_42/"
  /\ baseUrl "https://example.supabase.co" "books_42/manifest.json"
     = baseUrl "https://example.supabase.co" "books_42/other.json".
Proof.
  split.
  - apply (proj1 (proj2 (manifest_directory EmptyString)) "books_42/" "manifest.json").
    + vm_compute. tauto.
    + right. exists "books_42". reflexivity.
  - apply (proj2 (proj2 (manifest_directory "https://example.supabase.co"))
             "books_42/" "manifest.json" "other.json").
    + vm_compute. tauto.
    + vm_compute. tauto.
    + right. exists "books_42". reflexivity.
Defined.

(** ** The positions handed to the navigator *)

Section PositionsProofs.

Variable locatorFromLink : ReadiumLink -> option Locator.

Lemma positions_from_length (items : list ReadiumLink) :
  forall index, List.length (positions_from locatorFromLink index items) = List.length items.
Proof. induction items as [|l items IH]; intros index; simpl; [reflexivity|]. rewrite IH. reflexivity. Qed.

Lemma positions_from_nth (items : list ReadiumLink) :
  forall index i link,
    nth_error items i = Some link ->
    nth_error (positions_from locatorFromLink index items) i =
    Some match locatorFromLink link with
         | Some locator => locator
         | None => manual_locator link (index + i)
         end.
Proof.
  induction items as [|l items IH]; intros index [|i] link H; simpl in *;
    try discriminate H.
  - injection H as ->. rewrite Nat.add_0_r. reflexivity.
  - rewrite (IH (S index) i link H). replace (S index + i) with (index + S i) by lia.
    reflexivity.
Qed.

(** X14.  The second check of the positions never fires: the reader either
    throws for a publication without reading order items, or hands the
    navigator a list of positions that is not empty; the error "Failed to
    generate positions" cannot be thrown.  When the manifest carries no
    position list, there is one position per reading order item, and an item
    without a locator of its own gets position number index + 1, its own
    href, and its type or [text/html]. *)
Theorem positions_for_the_navigator (readingOrder : option (list ReadiumLink))
  (positionsFromManifest : list Locator) :
  load_positions locatorFromLink readingOrder positionsFromManifest
    <> inl "Failed to generate positions - reading order is empty"
  /\ (forall positions,
         load_positions locatorFromLink readingOrder positionsFromManifest = inr positions ->
         positions <> []
         /\ exists items,
             readingOrder = Some items /\ items <> []
             /\ (positionsFromManifest <> [] -> positions = positionsFromManifest)
             /\ (positionsFromManifest = [] ->
                 List.length positions = List.length items
                 /\ forall i link,
                     nth_error items i = Some link ->
                     locatorFromLink link = None ->
                     nth_error positions i = Some (manual_locator link i)
                     /\ loc_position (manual_locator link i) = Some (i + 1)))
  /\ (readingOrder = None \/ readingOrder = Some [] ->
      load_positions locatorFromLink readingOrder positionsFromManifest
      = inl "Publication has no reading order items").
Proof.
  repeat apply conj.
  - destruct readingOrder as [[|l items]|]; simpl; try discriminate.
    destruct positionsFromManifest; simpl; discriminate.
  - intros positions H.
    destruct readingOrder as [[|l items]|]; simpl in H; try discriminate H.
    destruct positionsFromManifest as [|p ps]; simpl in H; injection H as <-.
    + split; [discriminate|]. exists (l :: items).
      split; [reflexivity|]. split; [discriminate|]. split; [congruence|].
      intros _. split.
      * simpl. rewrite positions_from_length. reflexivity.
      * intros i link Hnth Hnone.
        pose proof (positions_from_nth (l :: items) 0 i link Hnth) as Hpos.
        rewrite Hnone in Hpos. simpl in Hpos. split; [exact Hpos | reflexivity].
    + split; [discriminate|]. exists (l :: items).
      split; [reflexivity|]. split; [discriminate|]. split; [reflexivity|].
      intros Hnil. discriminate Hnil.
  - intros [-> | ->]; reflexivity.
Qed.

End PositionsProofs.

Lemma positions_for_the_navigator_witness :
  load_positions (fun _ => None)
    (Some [ {| link_href := "cover.xhtml"; link_type := None |};
            {| link_href := "ch1.xhtml"; link_type := Some "application/xhtml+xml" |} ]) []
  = inr [ manual_locator {| link_href := "cover.xhtml"; link_type := None |} 0;
          manual_locator {| link_href := "ch1.xhtml";
                            link_type := Some "application/xhtml+xml" |} 1 ]
  /\ load_positions (fun _ => None) (Some []) []
     = inl "Publication has no reading order items".
Proof.
  split; [reflexivity|].
  apply (proj2 (proj2 (positions_for_the_navigator (fun _ => None) (Some []) []))).
  right. reflexivity.
Defined.

(** ** The tracked selection *)

Lemma fold_unguarded (events : list SelectionChange) :
  forall s,
    fold_left handleSelection events s =
    fold_left (fun _ e => captureSelection e) (filter outside_pane events) s.
Proof.
  induction events as [|e events IH]; intros s; simpl; [reflexivity|].
  unfold outside_pane at 1, handleSelection at 2.
  destruct (inAIPane e); simpl; apply IH.
Qed.

Lemma last_default {A : Type} (a : A) (l : list A) (d d' : A) :
  last (a :: l) d = last (a :: l) d'.
Proof.
  revert a. induction l as [|b l IH]; intros a; [reflexivity|].
  change (last (b :: l) d = last (b :: l) d'). apply IH.
Qed.

(** X15.  Selections made inside the assistant pane never change the tracked
    selection: the hook returns what the hook without the guard returns on
    the events outside the pane alone, that is the text captured at the last
    such event, or the empty string when there is none; events inside the
    pane that come last leave the value as it is. *)
Theorem pane_selections_are_ignored (events : list SelectionChange) :
  useSelectedText events = useSelectedText_unguarded (filter outside_pane events)
  /\ useSelectedText events =
       last (map captureSelection (filter outside_pane events)) EmptyString
  /\ (forall inside,
         forallb inAIPane inside = true ->
         useSelectedText (events ++ inside) = useSelectedText events).
Proof.
  assert (forall l s, fold_left (fun _ e => captureSelection e) l s
                      = last (map captureSelection l) s) as Hlast.
  { induction l as [|e l IH]; intros s; simpl; [reflexivity|].
    rewrite IH. destruct l as [|e' l]; [reflexivity|]. apply last_default. }
  unfold useSelectedText, useSelectedText_unguarded. repeat apply conj.
  - apply fold_unguarded.
  - rewrite fold_unguarded. apply Hlast.
  - intros inside Hin. rewrite !fold_unguarded, filter_app.
    replace (filter outside_pane inside) with (@nil SelectionChange);
      [rewrite app_nil_r; reflexivity|].
    induction inside as [|e inside IH]; [reflexivity|].
    simpl in Hin. apply andb_true_iff in Hin. destruct Hin as [He Hin].
    simpl. unfold outside_pane at 1. rewrite He. simpl. apply IH. exact Hin.
Qed.

Lemma pane_selections_are_ignored_witness :
  useSelectedText [ {| inAIPane := false; captureSelection := "Call me Ishmael." |};
                    {| inAIPane := true; captureSelection := "an answer" |} ]
  = "Call me Ishmael.".
Proof.
  exact (proj2 (proj2 (pane_selections_are_ignored
                         [ {| inAIPane := false; captureSelection := "Call me Ishmael." |} ]))
           [ {| inAIPane := true; captureSelection := "an answer" |} ] eq_refl).
Defined.

(** ** What the streaming handler makes of a body *)

Lemma cut_line (l s : string) :
  free_of is_newline l ->
  cut (l ++ newline ++ s) = (l :: fst (cut s), snd (cut s)).
Proof.
  change (newline ++ s) with (String "010" s).
  intros Hfree. induction l as [|c l IH]; simpl.
  - destruct (cut s); reflexivity.
  - destruct Hfree as [Hc Hl]. rewrite (IH Hl), Hc. reflexivity.
Qed.

Lemma complete_lines_line (l s : string) :
  free_of is_newline l ->
  complete_lines (l ++ newline ++ s) = l :: complete_lines s.
Proof.
  intros Hfree. rewrite !complete_lines_cut, (cut_line l s Hfree). reflexivity.
Qed.

Lemma cut_terminated (t : string) :
  cut (t ++ newline) = ((fst (cut t) ++ [snd (cut t)])%list, EmptyString).
Proof.
  rewrite cut_app. pose proof (cut_remainder_free t) as Hfree.
  destruct (cut t) as [la ra]. simpl in *.
  change (ra ++ newline) with (ra ++ newline ++ EmptyString).
  rewrite (cut_line ra EmptyString Hfree). reflexivity.
Qed.

Lemma complete_lines_unterminated (t p : string) :
  free_of is_newline p ->
  complete_lines ((t ++ newline) ++ p) = complete_lines (t ++ newline).
Proof.
  intros Hfree. rewrite !complete_lines_cut, cut_app, cut_terminated. simpl.
  rewrite (cut_free p Hfree). apply app_nil_r.
Qed.

Section StreamingEdges.

Context {D : TextDecoder} {L : TextDecoderLaws D}.
Variable JSON_parse : string -> option Payload.
Variable id : string.

Lemma handler_closed (status_text : string) (reads : list (list byte)) :
  handleStreamingResponse JSON_parse
    {| ok := true; statusText := status_text; response_body := Some reads |} id
  = inr (map (AppendContent id)
             (fragments_of JSON_parse (complete_lines (body_text (List.concat reads))))
           ++ [SetIsLoading false])%list.
Proof.
  unfold handleStreamingResponse. simpl.
  rewrite (read_loop_closed JSON_parse id reads decoder_start EmptyString I). reflexivity.
Qed.

(** X16.  A line is handled only once its newline has arrived.  What the
    body carries after its last newline is never handled, even when it is a
    complete [data: ] line: a body that ends in an unterminated line gives
    the same state updates as the body without that line, and a body without
    any newline gives no update but the end of the loading state. *)
Theorem unterminated_line_is_dropped (status_text : string)
  (reads reads' : list (list byte)) (text partial : string) :
  free_of is_newline partial ->
  (body_text (List.concat reads) = (text ++ newline) ++ partial ->
   body_text (List.concat reads') = text ++ newline ->
   handleStreamingResponse JSON_parse
     {| ok := true; statusText := status_text; response_body := Some reads |} id
   = handleStreamingResponse JSON_parse
       {| ok := true; statusText := status_text; response_body := Some reads' |} id)
  /\ (body_text (List.concat reads) = partial ->
      handleStreamingResponse JSON_parse
        {| ok := true; statusText := status_text; response_body := Some reads |} id
      = inr [SetIsLoading false]).
Proof.
  intros Hfree. split.
  - intros Hbody Hbody'. rewrite !handler_closed, Hbody, Hbody'.
    rewrite (complete_lines_unterminated text partial Hfree). reflexivity.
  - intros Hbody. rewrite handler_closed, Hbody.
    rewrite complete_lines_cut, (cut_free partial Hfree). reflexivity.
Qed.

Section RoundTrip.

Variable encode : string -> string.

Lemma free_of_app (sep : ascii -> bool) (a b : string) :
  free_of sep a -> free_of sep b -> free_of sep (a ++ b).
Proof. induction a as [|c a IH]; simpl; [auto|]. intros [Hc Ha] Hb. auto. Qed.

Lemma render_free (l : StreamLine) :
  well_framed encode JSON_parse l -> free_of is_newline (render encode l).
Proof.
  destruct l as [f|t]; simpl.
  - intros (_ & Hfree & _). repeat split; try reflexivity. exact Hfree.
  - intros [Hfree _]. exact Hfree.
Qed.

Lemma render_not_done (l : StreamLine) :
  well_framed encode JSON_parse l -> String.eqb (render encode l) DONE_line = false.
Proof.
  intros Hl. apply String.eqb_neq. destruct l as [f|t]; simpl in *.
  - destruct Hl as (_ & _ & Hne). unfold DONE_line. intros H. apply Hne.
    injection H as H. exact H.
  - destruct Hl as [_ Hstart]. intros ->. discriminate Hstart.
Qed.

Lemma slice_data (x : string) : slice 6 ("data: " ++ x) = x.
Proof.
  unfold slice. simpl. rewrite Nat.sub_0_r.
  induction x as [|c x IH]; simpl; [reflexivity|]. rewrite IH. reflexivity.
Qed.

Lemma startsWith_data (x : string) : startsWith ("data: " ++ x) "data: " = true.
Proof. unfold startsWith. simpl. repeat (destruct (ascii_dec _ _); [|congruence]). destruct x; reflexivity. Qed.

Lemma content_of_rendered (l : StreamLine) :
  well_framed encode JSON_parse l -> content_of_line JSON_parse (render encode l) = fragment_of l.
Proof.
  destruct l as [f|t]; unfold content_of_line; cbn [render fragment_of].
  - intros (Hparse & _ & _). rewrite startsWith_data, slice_data, Hparse. reflexivity.
  - intros [_ Hstart]. rewrite Hstart. reflexivity.
Qed.

Lemma complete_lines_framed (lines : list StreamLine) (rest : string) :
  Forall (well_framed encode JSON_parse) lines ->
  complete_lines (framed encode lines rest)
  = (map (render encode) lines ++ DONE_line :: complete_lines rest)%list.
Proof.
  unfold framed. induction 1 as [|l lines Hl Hlines IH]; simpl.
  - apply (complete_lines_line DONE_line rest). simpl. repeat split; reflexivity.
  - rewrite !string_app_assoc.
    rewrite (complete_lines_line (render encode l) _ (render_free l Hl)).
    f_equal. exact IH.
Qed.

Lemma until_done_framed (lines : list StreamLine) (more : list string) :
  Forall (well_framed encode JSON_parse) lines ->
  until_done (map (render encode) lines ++ DONE_line :: more) = map (render encode) lines.
Proof.
  induction 1 as [|l lines Hl Hlines IH]; simpl; [reflexivity|].
  rewrite (render_not_done l Hl), IH. reflexivity.
Qed.

Lemma reconstructed_framed (lines : list StreamLine) (rest : string) :
  Forall (well_framed encode JSON_parse) lines ->
  reconstructed JSON_parse (framed encode lines rest) = join (map fragment_of lines).
Proof.
  intros Hlines. unfold reconstructed.
  rewrite (complete_lines_framed lines rest Hlines), (until_done_framed lines _ Hlines).
  rewrite map_map. f_equal.
  induction Hlines as [|l lines Hl Hlines IH]; simpl; [reflexivity|].
  rewrite (content_of_rendered l Hl), IH. reflexivity.
Qed.

(** X17.  Round trip of a well-formed body.  When the body is made of lines
    that the parser reads back ([data: ] lines whose payload parses to its
    fragment, and other lines that do not start with [data: ]), followed by
    the [data: [DONE]] line, then however the bytes are cut into reads the
    assistant message ends up with its former content followed by the
    fragments in order: nothing is lost, nothing that follows [data: [DONE]]
    is shown, the other lines add nothing, and the loading state is ended. *)
Theorem framed_body_round_trip (status_text : string) (reads : list (list byte))
  (lines : list StreamLine) (rest : string) (st : PaneState) :
  Forall (well_framed encode JSON_parse) lines ->
  body_text (List.concat reads) = framed encode lines rest ->
  exists updates,
    handleStreamingResponse JSON_parse
      {| ok := true; statusText := status_text; response_body := Some reads |} id
    = inr updates
    /\ apply_updates st updates
       = {| messages := map (append_content id (join (map fragment_of lines))) (messages st);
            isLoading := false |}.
Proof.
  intros Hlines Hbody. eexists. split; [apply handler_closed|].
  rewrite apply_fragments, join_fragments, Hbody.
  change (join (map (content_of_line JSON_parse)
                    (until_done (complete_lines (framed encode lines rest)))))
    with (reconstructed JSON_parse (framed encode lines rest)).
  rewrite (reconstructed_framed lines rest Hlines). reflexivity.
Qed.

End RoundTrip.

End StreamingEdges.

Lemma unterminated_line_is_dropped_witness :
  @handleStreamingResponse one_byte_decoder simple_parse
    {| ok := true; statusText := "OK";
       response_body := Some [bytes_of_string ("data: " ++ payload_open ++ "lost"
                                               ++ payload_close)] |} "42"
  = inr [SetIsLoading false].
Proof.
  apply (proj2 (@unterminated_line_is_dropped one_byte_decoder one_byte_decoder_laws
                  simple_parse "42" "OK"
                  [bytes_of_string ("data: " ++ payload_open ++ "lost" ++ payload_close)]
                  [] EmptyString ("data: " ++ payload_open ++ "lost" ++ payload_close)
                  ltac:(vm_compute; tauto))).
  vm_compute. reflexivity.
Defined.

Lemma framed_body_round_trip_witness :
  let lines := [ DataLine "Call me "; OtherLine EmptyString; OtherLine ": keep-alive";
                 DataLine "Ishmael." ] in
  let body := framed (fun f => payload_open ++ f ++ payload_close) lines "data: late" in
  exists updates,
    @handleStreamingResponse one_byte_decoder simple_parse
      {| ok := true; statusText := "OK";
         response_body := Some [ bytes_of_string (substring 0 20 body);
                                 bytes_of_string (substring 20 1000 body) ] |} "42"
    = inr updates
    /\ apply_updates {| messages := [placeholder "42"]; isLoading := true |} updates
       = {| messages := [append_content "42" "Call me Ishmael." (placeholder "42")];
            isLoading := false |}.
Proof.
  intros lines body.
  destruct (@framed_body_round_trip one_byte_decoder one_byte_decoder_laws simple_parse
              "42" (fun f => payload_open ++ f ++ payload_close) "OK"
              [ bytes_of_string (substring 0 20 body);
                bytes_of_string (substring 20 1000 body) ]
              lines "data: late" {| messages := [placeholder "42"]; isLoading := true |})
    as (updates & Hrun & Hstate).
  - repeat constructor; vm_compute; try reflexivity; try discriminate; tauto.
  - vm_compute. reflexivity.
  - exists updates. split; [exact Hrun|]. rewrite Hstate. vm_compute. reflexivity.
Defined.

(** ** The prompt for an explanation *)

Lemma fold_left_append {A : Type} (f : A -> string) (l : list A) :
  forall p, fold_left (fun p x => p ++ f x) l p = p ++ join (map f l).
Proof.
  induction l as [|x l IH]; intros p; simpl.
  - symmetry. apply string_app_nil_r.
  - rewrite IH. apply string_app_assoc.
Qed.

Lemma appendSummaries_section (prompt label : string) (items : list SummaryContext) :
  appendSummaries prompt label items = prompt ++ prompt_section label items.
Proof.
  unfold appendSummaries, prompt_section. destruct items as [|s items].
  - symmetry. apply string_app_nil_r.
  - cbv zeta. rewrite fold_left_append. rewrite !string_app_assoc. reflexivity.
Qed.

Lemma build_prompt_parts (bookTitle bookAuthor : string) (summaries : list SummaryContext)
  (isPdf : bool) (local : option LocalContext) (text : string) :
  build_prompt bookTitle bookAuthor summaries isPdf local text =
  prompt_header bookTitle bookAuthor
  ++ prompt_section "Book-level summary (highest-level context)"
                    (filter (is_type book_summary) summaries)
  ++ prompt_section "Broader summary (wide context)"
                    (filter (is_type chapter_summary) summaries)
  ++ prompt_section "More specific summary (narrow context)"
                    (filter (is_type subchapter_summary) summaries)
  ++ (if isPdf then prompt_local local else EmptyString)
  ++ prompt_instruction text.
Proof.
  unfold build_prompt, prompt_header, prompt_local, prompt_instruction. cbv zeta.
  rewrite !appendSummaries_section.
  generalize (prompt_section "Book-level summary (highest-level context)"
                (filter (is_type book_summary) summaries)) as s1.
  generalize (prompt_section "Broader summary (wide context)"
                (filter (is_type chapter_summary) summaries)) as s2.
  generalize (prompt_section "More specific summary (narrow context)"
                (filter (is_type subchapter_summary) summaries)) as s3.
  intros s3 s2 s1.
  destruct isPdf; [destruct local as [[before selected after]|]|]; cbn [beforeText afterText selectedText];
    destruct (truthy bookTitle), (truthy bookAuthor);
    try destruct (truthy before); try destruct (truthy after);
    cbn [orb]; rewrite ?string_app_assoc, ?string_app_nil_r; cbn [append];
    rewrite ?string_app_assoc, ?string_app_nil_r; reflexivity.
Qed.

Lemma prompt_section_ext (label : string) (items items' : list SummaryContext) :
  map summary_item items = map summary_item items' ->
  prompt_section label items = prompt_section label items'.
Proof.
  unfold prompt_section. intros H.
  destruct items, items'; try discriminate H; [reflexivity|]. rewrite H. reflexivity.
Qed.

Lemma filter_items_ext (t : SummaryType) (summaries summaries' : list SummaryContext) :
  map (fun s => (summary_type s, truthy_string (summary_text s))) summaries
  = map (fun s => (summary_type s, truthy_string (summary_text s))) summaries' ->
  map summary_item (filter (is_type t) summaries)
  = map summary_item (filter (is_type t) summaries').
Proof.
  revert summaries'.
  induction summaries as [|s l IH]; intros [|s' l'] H; try discriminate H; [reflexivity|].
  simpl in H. injection H as Htype Htext Hrest.
  assert (is_type t s = is_type t s') as Hsame
      by (unfold is_type; rewrite Htype; reflexivity).
  assert (summary_item s = summary_item s') as Hitem
      by (unfold summary_item; rewrite Htext; reflexivity).
  cbn [filter]. rewrite Hsame.
  destruct (is_type t s'); cbn [map]; [rewrite Hitem; f_equal|]; apply IH; exact Hrest.
Qed.

Lemma epub_rows_are_chapters (rows : list SummaryContext) :
  filter (is_type book_summary) (summaries_of_rows false rows) = []
  /\ filter (is_type subchapter_summary) (summaries_of_rows false rows) = []
  /\ filter (is_type chapter_summary) (summaries_of_rows false rows)
     = summaries_of_rows false rows
  /\ map summary_item (summaries_of_rows false rows) = map summary_item rows.
Proof.
  unfold summaries_of_rows. induction rows as [|r rows (H1 & H2 & H3 & H4)]; simpl.
  - repeat split; reflexivity.
  - cbn [is_type summary_type]. simpl. rewrite H3, H4. repeat split; assumption.
Qed.

Lemma untyped_rows_are_dropped (t : SummaryType) (rows : list SummaryContext) :
  Forall (fun row => summary_type row = None) rows ->
  filter (is_type t) (summaries_of_rows true rows) = [].
Proof.
  unfold summaries_of_rows. induction 1 as [|r rows Hr Hrows IH]; simpl; [reflexivity|].
  unfold is_type at 1. simpl. rewrite Hr. exact IH.
Qed.

(** X18.  What the prompt for an explanation is made of.  It is the header
    (title and author, when known), the summaries in three groups by type,
    each under its label and left out when empty, for a PDF the local context,
    and the request to explain the selected text.  From a summary only its
    type and its text reach the prompt: two lists of summaries that agree on
    these give the same prompt, whatever their titles and chapter paths.  For
    an EPUB every row of the summaries query is listed as a broader summary,
    and the local context is not used.  For a PDF the rows without a type are
    left out. *)
Theorem prompt_contents (bookTitle bookAuthor : string) (isPdf : bool)
  (local : option LocalContext) (text : string) :
  (forall summaries,
      build_prompt bookTitle bookAuthor summaries isPdf local text =
      prompt_header bookTitle bookAuthor
      ++ prompt_section "Book-level summary (highest-level context)"
                        (filter (is_type book_summary) summaries)
      ++ prompt_section "Broader summary (wide context)"
                        (filter (is_type chapter_summary) summaries)
      ++ prompt_section "More specific summary (narrow context)"
                        (filter (is_type subchapter_summary) summaries)
      ++ (if isPdf then prompt_local local else EmptyString)
      ++ prompt_instruction text)
  /\ (forall summaries summaries',
         map (fun s => (summary_type s, truthy_string (summary_text s))) summaries
         = map (fun s => (summary_type s, truthy_string (summary_text s))) summaries' ->
         build_prompt bookTitle bookAuthor summaries isPdf local text
         = build_prompt bookTitle bookAuthor summaries' isPdf local text)
  /\ (forall rows,
         build_prompt bookTitle bookAuthor (summaries_of_rows false rows) false local text
         = prompt_header bookTitle bookAuthor
           ++ prompt_section "Broader summary (wide context)" rows
           ++ prompt_instruction text)
  /\ (forall rows,
         Forall (fun row => summary_type row = None) rows ->
         build_prompt bookTitle bookAuthor (summaries_of_rows true rows) true local text
         = prompt_header bookTitle bookAuthor ++ prompt_local local
           ++ prompt_instruction text).
Proof.
  repeat apply conj.
  - intros summaries. apply build_prompt_parts.
  - intros summaries summaries' Hsame. rewrite !build_prompt_parts.
    rewrite (prompt_section_ext _ _ _ (filter_items_ext book_summary _ _ Hsame)).
    rewrite (prompt_section_ext _ _ _ (filter_items_ext chapter_summary _ _ Hsame)).
    rewrite (prompt_section_ext _ _ _ (filter_items_ext subchapter_summary _ _ Hsame)).
    reflexivity.
  - intros rows. rewrite build_prompt_parts.
    destruct (epub_rows_are_chapters rows) as (-> & -> & -> & Hitems).
    rewrite (prompt_section_ext _ _ _ Hitems). reflexivity.
  - intros rows Hrows. rewrite build_prompt_parts.
    rewrite !(untyped_rows_are_dropped _ rows Hrows). reflexivity.
Qed.

Lemma prompt_contents_witness :
  build_prompt "Moby-Dick" EmptyString
    (summaries_of_rows true
       [ {| summary_type := None; toc_title := "Loomings"; chapter_path := "ch1";
            summary_text := Some "Ishmael goes to sea." |} ])
    true None "Call me Ishmael."
  = "Book: Moby-Dick" ++ newline ++ newline ++ prompt_instruction "Call me Ishmael.".
Proof.
  rewrite (proj2 (proj2 (proj2 (prompt_contents "Moby-Dick" EmptyString true None
                                  "Call me Ishmael.")))
             [ {| summary_type := None; toc_title := "Loomings"; chapter_path := "ch1";
                  summary_text := Some "Ishmael goes to sea." |} ]
             ltac:(repeat constructor)).
  reflexivity.
Defined.

(** ** The two handlers of the pane *)

Lemma Number_toString_inj (a b : Z) : Number_toString a = Number_toString b -> a = b.
Proof.
  intros H. apply (f_equal parseInt10) in H.
  rewrite !parseInt10_Number_toString in H. injection H as H. exact H.
Qed.

Lemma set_pane_same (p : Pane) : set_pane p (pane p) = p.
Proof. destruct p; reflexivity. Qed.

Lemma apply_actions_basic (us : list Update) :
  forall p, apply_actions p (map Basic us) = set_pane p (apply_updates (pane p) us).
Proof.
  unfold apply_actions, apply_updates.
  induction us as [|u us IH]; intros p; simpl; [symmetry; apply set_pane_same|].
  rewrite IH. reflexivity.
Qed.

Lemma apply_actions_cons (p : Pane) (a : Action) (l : list Action) :
  apply_actions p (a :: l) = apply_actions (apply_action p a) l.
Proof. reflexivity. Qed.

Lemma append_content_other (id fragment : string) (msg : AIMessage) :
  msg_id msg <> id -> append_content id fragment msg = msg.
Proof.
  intros Hne. unfold append_content. apply String.eqb_neq in Hne. rewrite Hne. reflexivity.
Qed.

Lemma replace_content_other (id text : string) (msg : AIMessage) :
  msg_id msg <> id -> replace_content id text msg = msg.
Proof.
  intros Hne. unfold replace_content. apply String.eqb_neq in Hne. rewrite Hne. reflexivity.
Qed.

Lemma map_others {A : Type} (f : A -> A) (P : A -> Prop) (l : list A) :
  (forall x, P x -> f x = x) -> Forall P l -> map f l = l.
Proof.
  intros Hf. induction 1 as [|x l Hx Hl IH]; simpl; [reflexivity|].
  rewrite (Hf x Hx), IH. reflexivity.
Qed.

Section HandlersProofs.

Context {D : TextDecoder} {L : TextDecoderLaws D}.
Variable JSON_parse : string -> option Payload.

Lemma converse_streams (clock : Clock) (q : Pane) (status_text : string)
  (reads : list (list byte)) :
  Forall (fun m => msg_id m <> Number_toString (now_assistant clock + 1))
         (messages (pane q)) ->
  apply_actions q (converse JSON_parse clock
                     (inr {| ok := true; statusText := status_text;
                             response_body := Some reads |}))
  = set_pane q
      {| messages :=
           messages (pane q)
           ++ [assistant_message clock
                 (reconstructed JSON_parse (body_text (List.concat reads)))];
         isLoading := false |}.
Proof.
  intros Hfresh. unfold converse. cbv zeta.
  rewrite (handler_closed JSON_parse _ status_text reads).
  rewrite apply_actions_cons, apply_actions_basic, apply_fragments, join_fragments.
  cbn [apply_action]. unfold set_pane. cbn [pane input bookTitle bookAuthor messages].
  f_equal. f_equal.
  rewrite map_app. f_equal.
  - apply (map_others _ _ _ (append_content_other _ _) Hfresh).
  - cbn [map]. unfold append_content, assistant_message. cbn [msg_id].
    rewrite String.eqb_refl. reflexivity.
Qed.

Lemma converse_fails (clock : Clock) (q : Pane) (fetched : JsThrown + FetchResponse) :
  (forall response, fetched = inr response ->
                    ok response = false \/ response_body response = None) ->
  Forall (fun m => msg_id m <> Number_toString (now_assistant clock + 1))
         (messages (pane q)) ->
  apply_actions q (converse JSON_parse clock fetched)
  = set_pane q
      {| messages := messages (pane q) ++ [assistant_message clock fallback_content];
         isLoading := false |}.
Proof.
  intros Hfailed Hfresh. unfold converse. cbv zeta.
  assert (exists thrown,
             match fetched with
             | inl thrown => inl thrown
             | inr response =>
                 handleStreamingResponse JSON_parse response
                   (Number_toString (now_assistant clock + 1))
             end = inl thrown) as [thrown ->].
  { destruct fetched as [thrown|response]; [exists thrown; reflexivity|].
    unfold handleStreamingResponse.
    destruct (Hfailed response eq_refl) as [-> | Hbody]; simpl; [eexists; reflexivity|].
    destruct (ok response); simpl; [|eexists; reflexivity].
    rewrite Hbody. eexists. reflexivity. }
  unfold apply_actions. cbn [fold_left apply_action apply_update].
  unfold set_pane. cbn [pane input bookTitle bookAuthor messages isLoading].
  f_equal. f_equal. rewrite map_app. f_equal.
  - apply (map_others _ _ _ (replace_content_other _ _) Hfresh).
  - cbn [map]. unfold replace_content. cbn [msg_id].
    rewrite String.eqb_refl. reflexivity.
Qed.

Lemma fresh_after_user (clock : Clock) (shown : list AIMessage) (content : string)
  (label title : option string) :
  (now_user clock <= now_assistant clock)%Z ->
  Forall (fun m => msg_id m <> Number_toString (now_assistant clock + 1)) shown ->
  Forall (fun m => msg_id m <> Number_toString (now_assistant clock + 1))
         (shown ++ [user_message clock content label title]).
Proof.
  intros Hclock Hfresh. apply Forall_app. split; [exact Hfresh|].
  constructor; [|constructor]. simpl. intros H. apply Number_toString_inj in H. lia.
Qed.

(** X19.  Sending a message and streaming the answer, put together.  With
    a loading state that is off, an input that is not blank, a clock that
    does not run backwards and no message shown that already has the
    identifier of the new assistant message: the request carries the role
    and content of every message shown followed by the input, and not the
    empty placeholder; when the response streams in, the pane ends with the
    messages shown before, the user message with the input, and the assistant
    message with the reconstructed text, the input cleared and the loading
    state off; when [fetch] rejects, the response is not ok or has no body,
    the assistant message holds the apology instead, and the loading state
    is off as well.  The handler itself never rejects. *)
Theorem send_then_stream (p : Pane) (clock : Clock) :
  truthy (trim (input p)) = true ->
  isLoading (pane p) = false ->
  (now_user clock <= now_assistant clock)%Z ->
  Forall (fun m => msg_id m <> Number_toString (now_assistant clock + 1))
         (messages (pane p)) ->
  (forall fetched,
      request (handleSend JSON_parse p clock fetched)
        = Some (messagesForAPI (messages (pane p)) (input p))
      /\ rejected (handleSend JSON_parse p clock fetched) = None)
  /\ (forall status_text reads,
         apply_actions p
           (actions (handleSend JSON_parse p clock
                       (inr {| ok := true; statusText := status_text;
                               response_body := Some reads |})))
         = {| pane :=
                {| messages :=
                     messages (pane p)
                     ++ [ user_message clock (input p) None None;
                          assistant_message clock
                            (reconstructed JSON_parse (body_text (List.concat reads))) ];
                   isLoading := false |};
              input := EmptyString;
              bookTitle := bookTitle p;
              bookAuthor := bookAuthor p |})
  /\ (forall fetched,
         (forall response, fetched = inr response ->
                           ok response = false \/ response_body response = None) ->
         apply_actions p (actions (handleSend JSON_parse p clock fetched))
         = {| pane :=
                {| messages :=
                     messages (pane p)
                     ++ [ user_message clock (input p) None None;
                          assistant_message clock fallback_content ];
                   isLoading := false |};
              input := EmptyString;
              bookTitle := bookTitle p;
              bookAuthor := bookAuthor p |}).
Proof.
  intros Hinput Hidle Hclock Hfresh.
  pose proof (fresh_after_user clock _ (input p) None None Hclock Hfresh) as Hfresh'.
  unfold handleSend. rewrite Hinput, Hidle. cbn [negb orb actions request rejected].
  repeat apply conj.
  - intros fetched. split; reflexivity.
  - intros status_text reads. rewrite !apply_actions_cons, converse_streams.
    + unfold set_pane. cbn. rewrite <- app_assoc. reflexivity.
    + cbn. exact Hfresh'.
  - intros fetched Hfailed. rewrite !apply_actions_cons, (converse_fails _ _ _ Hfailed).
    + unfold set_pane. cbn. rewrite <- app_assoc. reflexivity.
    + cbn. exact Hfresh'.
Qed.

(** X20.  What is shown is not what is sent.  When a selection is
    explained, the request carries the prompt built from the book, the
    summaries and the selected text, while the pane shows the user message
    "Explain text" with the position label and title, followed by the
    assistant message with the streamed answer.  A question sent afterwards
    carries the contents shown, "Explain text" and the answer, and then the
    question: the prompt, and with it the selected text, is not sent
    again. *)
Theorem explain_then_follow_up (props : PaneProps) (p : Pane) (sel : Selection)
  (clock : Clock) (book : string) (position : SelectionPosition)
  (rows : list SummaryContext) (status_text : string) (reads : list (list byte)) :
  truthy_string (bookId props) = Some book ->
  isLoading (pane p) = false ->
  rawManifest props <> None \/ bookType props = pdf ->
  truthy (getSelectedText sel) = true ->
  selection_position sel = Some position ->
  summaries_rows sel = inr rows ->
  (now_user clock <= now_assistant clock)%Z ->
  Forall (fun m => msg_id m <> Number_toString (now_assistant clock + 1))
         (messages (pane p)) ->
  let isPdf := match bookType props with pdf => true | epub => false end in
  let prompt := build_prompt (bookTitle p) (bookAuthor p) (summaries_of_rows isPdf rows)
                             isPdf (local_context sel) (getSelectedText sel) in
  let answer := reconstructed JSON_parse (body_text (List.concat reads)) in
  let formatted := formatSelectionPositionLabel (pos_start position) (pos_end position) in
  let h := handleExplainSelection JSON_parse props p sel clock
             (inr {| ok := true; statusText := status_text;
                     response_body := Some reads |}) in
  let p' := apply_actions p (actions h) in
  request h = Some (messagesForAPI (messages (pane p)) prompt)
  /\ rejected h = None
  /\ p' = set_pane p
            {| messages :=
                 messages (pane p)
                 ++ [ user_message clock "Explain text"
                        (Some (label formatted)) (Some (title formatted));
                      assistant_message clock answer ];
               isLoading := false |}
  /\ (forall question clock' fetched',
         truthy (trim question) = true ->
         request (handleSend JSON_parse (typed p' question) clock' fetched')
         = Some (map api_of (messages (pane p))
                 ++ [ {| api_role := user_role; api_content := "Explain text" |};
                      {| api_role := assistant_role; api_content := answer |};
                      {| api_role := user_role; api_content := question |} ])%list).
Proof.
  intros Hbook Hidle Hsource Hselected Hposition Hrows Hclock Hfresh.
  cbv zeta.
  pose proof (fresh_after_user clock _ "Explain text"
                (Some (label (formatSelectionPositionLabel (pos_start position)
                                                           (pos_end position))))
                (Some (title (formatSelectionPositionLabel (pos_start position)
                                                           (pos_end position))))
                Hclock Hfresh) as Hfresh'.
  assert (handleExplainSelection JSON_parse props p sel clock
            (inr {| ok := true; statusText := status_text; response_body := Some reads |})
          = {| actions :=
                 Basic (SetIsLoading true)
                 :: PushMessage
                      (user_message clock "Explain text"
                         (Some (label (formatSelectionPositionLabel (pos_start position)
                                                                    (pos_end position))))
                         (Some (title (formatSelectionPositionLabel (pos_start position)
                                                                    (pos_end position)))))
                 :: converse JSON_parse clock
                      (inr {| ok := true; statusText := status_text;
                              response_body := Some reads |});
               request :=
                 Some (messagesForAPI (messages (pane p))
                         (build_prompt (bookTitle p) (bookAuthor p)
                            (summaries_of_rows
                               match bookType props with pdf => true | epub => false end rows)
                            match bookType props with pdf => true | epub => false end
                            (local_context sel) (getSelectedText sel)));
               rejected := None |}) as ->.
  { unfold handleExplainSelection. rewrite Hbook, Hidle, Hselected, Hposition, Hrows.
    destruct (rawManifest props) as [m|], (bookType props); try reflexivity.
    destruct Hsource as [H|H]; [contradiction H; reflexivity | discriminate H]. }
  cbn [actions request rejected].
  assert (apply_actions p
            (Basic (SetIsLoading true)
             :: PushMessage
                  (user_message clock "Explain text"
                     (Some (label (formatSelectionPositionLabel (pos_start position)
                                                                (pos_end position))))
                     (Some (title (formatSelectionPositionLabel (pos_start position)
                                                                (pos_end position)))))
             :: converse JSON_parse clock
                  (inr {| ok := true; statusText := status_text;
                          response_body := Some reads |}))
          = set_pane p
              {| messages :=
                   messages (pane p)
                   ++ [ user_message clock "Explain text"
                          (Some (label (formatSelectionPositionLabel (pos_start position)
                                                                     (pos_end position))))
                          (Some (title (formatSelectionPositionLabel (pos_start position)
                                                                     (pos_end position))));
                        assistant_message clock
                          (reconstructed JSON_parse (body_text (List.concat reads))) ];
                 isLoading := false |}) as ->.
  { rewrite !apply_actions_cons, converse_streams.
    - unfold set_pane. cbn. rewrite <- app_assoc. reflexivity.
    - cbn. exact Hfresh'. }
  repeat apply conj; try reflexivity.
  intros question clock' fetched' Hquestion.
  unfold handleSend, typed, set_pane. cbn [input pane isLoading messages].
  rewrite Hquestion. cbn [negb orb request].
  unfold messagesForAPI. rewrite map_app, <- app_assoc. reflexivity.
Qed.

Lemma trimStart_ws_blank (s : string) :
  trimStart_ws s = EmptyString <->
  forallb is_js_whitespace (list_ascii_of_string s) = true.
Proof.
  induction s as [|c s IH]; simpl; [tauto|].
  destruct (is_js_whitespace c); simpl; [exact IH|].
  split; intros H; discriminate H.
Qed.

Lemma trimStart_ws_head (s : string) (c : ascii) (r : string) :
  trimStart_ws s = String c r -> is_js_whitespace c = false.
Proof.
  induction s as [|d s IH]; simpl; [discriminate|].
  destruct (is_js_whitespace d) eqn:E; [exact IH|].
  intros H. injection H as <- _. exact E.
Qed.

Lemma string_rev_empty (s : string) : string_rev s = EmptyString <-> s = EmptyString.
Proof.
  unfold string_rev. split; [|intros ->; reflexivity].
  intros H. apply (f_equal list_ascii_of_string) in H.
  rewrite list_ascii_of_string_of_list_ascii in H. simpl in H.
  destruct s as [|c s]; [reflexivity|]. simpl in H.
  destruct (List.rev (list_ascii_of_string s)); discriminate H.
Qed.

Lemma trim_blank (s : string) :
  trim s = EmptyString <-> forallb is_js_whitespace (list_ascii_of_string s) = true.
Proof.
  unfold trim. rewrite string_rev_empty, trimStart_ws_blank.
  unfold string_rev. rewrite list_ascii_of_string_of_list_ascii.
  rewrite <- trimStart_ws_blank. split.
  - intros H. destruct (trimStart_ws s) as [|c r] eqn:E; [reflexivity|].
    apply trimStart_ws_head in E.
    rewrite forallb_forall in H. specialize (H c).
    rewrite H in E; [discriminate E|]. apply in_rev. rewrite rev_involutive.
    left. reflexivity.
  - intros ->. reflexivity.
Qed.

Lemma truthy_empty (s : string) : truthy s = false <-> s = EmptyString.
Proof. destruct s; simpl; split; intros H; try reflexivity; discriminate H. Qed.

(** X21.  When the handlers do nothing.  [handleSend] does nothing exactly
    when the input is blank (white space only) or the pane is loading; a
    loading pane ignores [handleExplainSelection] as well, and so does a pane
    without book identifier, an EPUB pane without manifest, and an empty
    selection.  When the summaries query rejects, the handler has switched
    the loading state on and nothing switches it off: the handler rejects
    with the error of the query, sends nothing, leaves the messages as they
    are, and from then on both handlers do nothing.  When the selection has
    no position, the handler switches the loading state on and off again,
    sends nothing, and leaves the pane as it was. *)
Theorem when_the_pane_does_nothing (props : PaneProps) (p : Pane) (sel : Selection)
  (clock : Clock) (fetched : JsThrown + FetchResponse) :
  (handleSend JSON_parse p clock fetched = idle <->
   forallb is_js_whitespace (list_ascii_of_string (input p)) = true
   \/ isLoading (pane p) = true)
  /\ (isLoading (pane p) = true \/ truthy_string (bookId props) = None
      \/ (rawManifest props = None /\ bookType props = epub)
      \/ getSelectedText sel = EmptyString ->
      handleExplainSelection JSON_parse props p sel clock fetched = idle)
  /\ (forall book position thrown,
         truthy_string (bookId props) = Some book ->
         isLoading (pane p) = false ->
         rawManifest props <> None \/ bookType props = pdf ->
         truthy (getSelectedText sel) = true ->
         selection_position sel = Some position ->
         summaries_rows sel = inl thrown ->
         let h := handleExplainSelection JSON_parse props p sel clock fetched in
         let p' := apply_actions p (actions h) in
         rejected h = Some thrown
         /\ request h = None
         /\ p' = set_pane p {| messages := messages (pane p); isLoading := true |}
         /\ forall text props' sel' clock' fetched',
             handleSend JSON_parse (typed p' text) clock' fetched' = idle
             /\ handleExplainSelection JSON_parse props' (typed p' text) sel' clock' fetched'
                = idle)
  /\ (forall book,
         truthy_string (bookId props) = Some book ->
         isLoading (pane p) = false ->
         rawManifest props <> None \/ bookType props = pdf ->
         truthy (getSelectedText sel) = true ->
         selection_position sel = None ->
         let h := handleExplainSelection JSON_parse props p sel clock fetched in
         actions h = [Basic (SetIsLoading true); Basic (SetIsLoading false)]
         /\ request h = None
         /\ rejected h = None
         /\ apply_actions p (actions h) = p).
Proof.
  split; [|split; [|split]].
  - unfold handleSend. rewrite <- trim_blank, <- truthy_empty.
    destruct (truthy (trim (input p))), (isLoading (pane p)); cbn [negb orb];
      split; intros H; try reflexivity; try discriminate H; auto.
    destruct H as [H|H]; discriminate H.
  - unfold handleExplainSelection.
    intros [H | [H | [[Hm Ht] | H]]].
    + rewrite H. destruct (truthy_string (bookId props)); reflexivity.
    + rewrite H. reflexivity.
    + rewrite Hm, Ht. destruct (truthy_string (bookId props)); [|reflexivity].
      destruct (isLoading (pane p)); reflexivity.
    + rewrite H. destruct (truthy_string (bookId props)); [|reflexivity].
      destruct (isLoading (pane p)); [reflexivity|].
      destruct (rawManifest props), (bookType props); reflexivity.
  - intros book position thrown Hbook Hidle Hsource Hselected Hposition Hrows. cbv zeta.
    assert (handleExplainSelection JSON_parse props p sel clock fetched
            = {| actions := [Basic (SetIsLoading true)];
                 request := None;
                 rejected := Some thrown |}) as ->.
    { unfold handleExplainSelection. rewrite Hbook, Hidle, Hselected, Hposition, Hrows.
      destruct (rawManifest props) as [m|], (bookType props); try reflexivity.
      destruct Hsource as [H|H]; [contradiction H; reflexivity | discriminate H]. }
    cbn [actions request rejected]. repeat apply conj; try reflexivity.
    intros text props' sel' clock' fetched'.
    unfold handleSend, handleExplainSelection, typed, apply_actions.
    cbn [fold_left apply_action apply_update set_pane pane isLoading input].
    split.
    + rewrite orb_true_r. reflexivity.
    + destruct (truthy_string (bookId props')); reflexivity.
  - intros book Hbook Hidle Hsource Hselected Hposition. cbv zeta.
    assert (handleExplainSelection JSON_parse props p sel clock fetched
            = {| actions := [Basic (SetIsLoading true); Basic (SetIsLoading false)];
                 request := None;
                 rejected := None |}) as ->.
    { unfold handleExplainSelection. rewrite Hbook, Hidle, Hselected, Hposition.
      destruct (rawManifest props) as [m|], (bookType props); try reflexivity.
      destruct Hsource as [H|H]; [contradiction H; reflexivity | discriminate H]. }
    cbn [actions request rejected]. repeat apply conj; try reflexivity.
    destruct p as [[shown loading] typed_text known_title known_author].
    simpl in Hidle. subst loading. reflexivity.
Qed.

End HandlersProofs.

Lemma send_then_stream_witness :
  request (@handleSend one_byte_decoder simple_parse sample_pane sample_clock
             (inl OtherValue))
  = Some [ {| api_role := assistant_role; api_content := "Hello!" |};
           {| api_role := user_role; api_content := "Who is speaking?" |} ]
  /\ messages (pane (apply_actions sample_pane
                       (actions (@handleSend one_byte_decoder simple_parse sample_pane
                                   sample_clock (inr sample_response)))))
     = (messages (pane sample_pane)
        ++ [ user_message sample_clock "Who is speaking?" None None;
             assistant_message sample_clock "Call me Ishmael." ])%list.
Proof.
  pose proof (@send_then_stream one_byte_decoder one_byte_decoder_laws simple_parse
                sample_pane sample_clock
                ltac:(vm_compute; reflexivity) ltac:(reflexivity)
                ltac:(vm_compute; discriminate)
                ltac:(repeat constructor; vm_compute; discriminate))
    as (Hrequest & Hstream & _).
  split.
  - exact (proj1 (Hrequest (inl OtherValue))).
  - unfold sample_response. rewrite Hstream. vm_compute. reflexivity.
Defined.

Lemma explain_then_follow_up_witness :
  request (@handleSend one_byte_decoder simple_parse
             (typed (apply_actions sample_pane
                       (actions (@handleExplainSelection one_byte_decoder simple_parse
                                   sample_props sample_pane sample_selection sample_clock
                                   (inr sample_response))))
                    "And then?")
             sample_clock (inl OtherValue))
  = Some [ {| api_role := assistant_role; api_content := "Hello!" |};
           {| api_role := user_role; api_content := "Explain text" |};
           {| api_role := assistant_role; api_content := "Call me Ishmael." |};
           {| api_role := user_role; api_content := "And then?" |} ].
Proof.
  pose proof (@explain_then_follow_up one_byte_decoder one_byte_decoder_laws simple_parse
                sample_props sample_pane sample_selection sample_clock "id-1"
                {| pos_start := "0/4/2/1:0"; pos_end := "0/4/2/1:16" |}
                [ {| summary_type := None; toc_title := "Loomings"; chapter_path := "ch1";
                     summary_text := Some "Ishmael goes to sea." |} ]
                "OK" [ bytes_of_string (substring 0 13 sample_body);
                       bytes_of_string (substring 13 1000 sample_body) ]
                ltac:(reflexivity) ltac:(reflexivity) ltac:(left; discriminate)
                ltac:(reflexivity) ltac:(reflexivity) ltac:(reflexivity)
                ltac:(vm_compute; discriminate)
                ltac:(repeat constructor; vm_compute; discriminate))
    as (_ & _ & _ & Hfollow).
  unfold sample_response.
  rewrite (Hfollow "And then?" sample_clock (inl OtherValue) ltac:(vm_compute; reflexivity)).
  vm_compute. reflexivity.
Defined.

Lemma when_the_pane_does_nothing_witness :
  @handleSend one_byte_decoder simple_parse
    (typed (apply_actions sample_pane
              (actions (@handleExplainSelection one_byte_decoder simple_parse sample_props
                          sample_pane failing_selection sample_clock (inl OtherValue))))
           "Hello?")
    sample_clock (inr sample_response)
  = idle.
Proof.
  exact (proj1 (proj2 (proj2 (proj2
           (proj1 (proj2 (proj2 (@when_the_pane_does_nothing one_byte_decoder simple_parse
                                   sample_props sample_pane failing_selection sample_clock
                                   (inl OtherValue))))
              "id-1" {| pos_start := "0/4/2/1:0"; pos_end := "0/4/2/1:16" |}
              (ErrorInstance "Failed to fetch")
              ltac:(reflexivity) ltac:(reflexivity) ltac:(left; discriminate)
              ltac:(reflexivity) ltac:(reflexivity) ltac:(reflexivity))))
           "Hello?" sample_props failing_selection sample_clock (inr sample_response))).
Defined.

(** ** The fingerprint string loses nothing *)

Lemma unhex_two_digits (b : byte) (rest : string) :
  unhex (two_hex_digits b ++ rest) =
  match unhex rest with
  | Some bytes => Some (b :: bytes)
  | None => None
  end.
Proof.
  destruct b; cbn [two_hex_digits append unhex];
    (destruct (unhex rest); vm_compute; reflexivity).
Qed.

Lemma unhex_digits (bytes : list byte) :
  unhex (join (map two_hex_digits bytes)) = Some bytes.
Proof.
  induction bytes as [|b bytes IH]; [reflexivity|].
  change (join (map two_hex_digits (b :: bytes)))
    with (two_hex_digits b ++ join (map two_hex_digits bytes)).
  rewrite unhex_two_digits, IH. reflexivity.
Qed.

(** X22.  The fingerprint string loses nothing of the digest: reading the 64
    hexadecimal digits back, two to the byte, gives the SHA-256 digest of the
    buffer.  So two buffers have the same fingerprint string exactly when
    they have the same digest; the zero padding of each byte is what makes
    this so. *)
Theorem fingerprint_is_lossless (buffer buffer' : list byte) :
  unhex (hashHex buffer) = Some (sha256 buffer)
  /\ (hashHex buffer = hashHex buffer' <-> sha256 buffer = sha256 buffer').
Proof.
  assert (forall b, unhex (hashHex b) = Some (sha256 b)) as Hback
      by (intros b; rewrite hashHex_digits; apply unhex_digits).
  split; [apply Hback|]. split.
  - intros H. apply (f_equal unhex) in H. rewrite !Hback in H.
    apply (f_equal (fun o : option (list byte) =>
                      match o with Some digest => digest | None => [] end)) in H.
    exact H.
  - intros H. rewrite !hashHex_digits, H. reflexivity.
Qed.

(** ** From the upload to the reader *)

Lemma read_own_library (uid reader : string) (file : File) (id : string)
  (ids : list string) (manifest : option string) :
  outcome_of
    (run (Supabase (page_request (signed_in reader))) (ReadBookPage id)
         (calm {| books := [ {| row_data := bookData_of {| user_id := uid |} file
                                              (hashHex (file_buffer file)) id;
                                row_manifest := manifest |} ];
                  user_books := [ {| ub_id := 0; ub_user := uid; ub_book := id |} ];
                  epubs := [ (storagePath_of {| user_id := uid |} id, file_buffer file) ] |}
               ids))
  = Returned
      (if String.eqb uid reader
       then match manifest with
            | Some (String c path) =>
                BookReader id (String c path) (strip_epub_extension (file_name file))
            | _ => ManifestNotFound
            end
       else Redirect "/").
Proof.
  cbv - [hashHex String.eqb strip_epub_extension storagePath_of file_size
         file_buffer file_name file_type].
  rewrite !String.eqb_refl.
  cbv - [hashHex String.eqb strip_epub_extension storagePath_of file_size
         file_buffer file_name file_type].
  destruct (String.eqb uid reader); [|reflexivity].
  destruct manifest as [[|c path]|]; reflexivity.
Qed.

(** X23.  From the upload to the reader, on the datastore model.  After
    the first upload of a valid file, the reading page of the new identifier
    shows its uploader the manifest-not-found panel, the record having no
    manifest path yet; once the manifest pipeline has set a non-empty path,
    it hands the uploader the identifier, that path, and as title the
    filename without its [.epub] extension; any other signed-in user is still
    sent back to the library. *)
Theorem upload_then_read (uid : string) (file : File) (id : string) (ids : list string) :
  invalid_file_type file = false ->
  let uploaded := final_of (run (Supabase (upload_request uid file)) POST
                                (calm empty_db (id :: ids))) in
  let page reader d :=
    outcome_of (run (Supabase (page_request (signed_in reader))) (ReadBookPage id)
                    (calm d ids)) in
  page uid (w_db uploaded) = Returned ManifestNotFound
  /\ (forall c path,
         page uid (published (w_db uploaded) (String c path))
         = Returned (BookReader id (String c path)
                                (strip_epub_extension (file_name file))))
  /\ (forall other path,
         other <> uid ->
         page other (w_db uploaded) = Returned (Redirect "/")
         /\ page other (published (w_db uploaded) path) = Returned (Redirect "/")).
Proof.
  intros Hvalid. cbv zeta.
  destruct (first_upload uid file id ids Hvalid) as [_ ->].
  split; [|split; [|intros other path Hother; split]].
  - pose proof (read_own_library uid uid file id ids None) as H.
    rewrite String.eqb_refl in H. exact H.
  - intros c path.
    pose proof (read_own_library uid uid file id ids (Some (String c path))) as H.
    rewrite String.eqb_refl in H. exact H.
  - pose proof (read_own_library uid other file id ids None) as H.
    assert (String.eqb uid other = false) as E by (apply String.eqb_neq; congruence).
    rewrite E in H. exact H.
  - pose proof (read_own_library uid other file id ids (Some path)) as H.
    assert (String.eqb uid other = false) as E by (apply String.eqb_neq; congruence).
    rewrite E in H. exact H.
Qed.

Lemma upload_then_read_witness :
  let uploaded := final_of (run (Supabase (upload_request "alice" moby_epub)) POST
                                (calm empty_db ["id-1"])) in
  outcome_of (run (Supabase (page_request (signed_in "alice"))) (ReadBookPage "id-1")
                  (calm (published (w_db uploaded) "m/manifest.json") []))
  = Returned (BookReader "id-1" "m/manifest.json" "Moby-Dick").
Proof.
  pose proof (proj1 (proj2 (upload_then_read "alice" moby_epub "id-1" []
                              ltac:(vm_compute; reflexivity)))
                "m"%char "/manifest.json") as H.
  vm_norm_in H. vm_compute. exact H.
Defined.

(** ** The identifiers of the messages stay apart *)

Lemma made_before_weaken (t t' : Z) (msg : AIMessage) :
  (t <= t')%Z -> made_before t msg -> made_before t' msg.
Proof. intros Hle (x & Hid & Hlt). exists x. split; [exact Hid | lia]. Qed.

Lemma made_before_same_id (t : Z) (msg msg' : AIMessage) :
  msg_id msg' = msg_id msg -> made_before t msg -> made_before t msg'.
Proof. unfold made_before. intros ->. auto. Qed.

Lemma apply_update_ids (t : Z) (st : PaneState) (u : Update) :
  Forall (made_before t) (messages st) ->
  Forall (made_before t) (messages (apply_update st u)).
Proof.
  intros H. destruct u as [b|id fragment]; simpl; [exact H|].
  apply Forall_map. apply (Forall_impl _ (P := made_before t)); [|exact H].
  intros m Hm. apply (made_before_same_id t m); [|exact Hm].
  unfold append_content. destruct (String.eqb (msg_id m) id); reflexivity.
Qed.

Lemma apply_action_ids (t : Z) (p : Pane) (a : Action) :
  pushes_before t a -> ids_before t p -> ids_before t (apply_action p a).
Proof.
  unfold ids_before. intros Ha Hp. destruct a as [msg|text|u|id text]; simpl.
  - apply Forall_app. split; [exact Hp|]. constructor; [exact Ha | constructor].
  - exact Hp.
  - apply apply_update_ids. exact Hp.
  - apply Forall_map. apply (Forall_impl _ (P := made_before t)); [|exact Hp].
    intros m Hm. apply (made_before_same_id t m); [|exact Hm].
    unfold replace_content. destruct (String.eqb (msg_id m) id); reflexivity.
Qed.

Lemma apply_actions_ids (t : Z) (actions : list Action) :
  Forall (pushes_before t) actions ->
  forall p, ids_before t p -> ids_before t (apply_actions p actions).
Proof.
  unfold apply_actions. induction 1 as [|a actions Ha Hactions IH]; intros p Hp; simpl.
  - exact Hp.
  - apply IH. apply apply_action_ids; assumption.
Qed.

Section IdentifiersProofs.

Context {D : TextDecoder}.
Variable JSON_parse : string -> option Payload.

Lemma converse_pushes (t : Z) (clock : Clock) (fetched : JsThrown + FetchResponse) :
  (now_assistant clock + 1 < t)%Z ->
  Forall (pushes_before t) (converse JSON_parse clock fetched).
Proof.
  intros Hlt. unfold converse. cbv zeta. constructor.
  - exists (now_assistant clock + 1)%Z. split; [reflexivity | exact Hlt].
  - destruct (match fetched with
              | inl thrown => inl thrown
              | inr response =>
                  handleStreamingResponse JSON_parse response
                    (Number_toString (now_assistant clock + 1))
              end) as [thrown|updates].
    + repeat constructor.
    + apply Forall_map. apply Forall_forall. intros u _. exact I.
Qed.

(** X24.  The identifiers of the messages stay apart.  Take a pane whose
    messages all got their identifiers before the user message of this
    exchange, as is the case for the pane as first rendered, and a clock
    that does not run backwards.  Then no message shown has the identifier of
    the new assistant message, so the streamed text reaches that message
    alone; and after either handler has run, whatever the response, all
    messages have identifiers from before the time of the assistant message
    plus two, so that the same holds for the next exchange. *)
Theorem identifiers_stay_apart (p : Pane) (clock : Clock)
  (fetched : JsThrown + FetchResponse) :
  ids_before (now_user clock) p ->
  (now_user clock <= now_assistant clock)%Z ->
  Forall (fun m => msg_id m <> Number_toString (now_assistant clock + 1))
         (messages (pane p))
  /\ ids_before (now_assistant clock + 2)
                (apply_actions p (actions (handleSend JSON_parse p clock fetched)))
  /\ (forall props sel,
         ids_before (now_assistant clock + 2)
                    (apply_actions p
                       (actions (handleExplainSelection JSON_parse props p sel
                                                        clock fetched))))
  /\ (forall date, (1 < now_user clock)%Z -> ids_before (now_user clock) (initial_pane date)).
Proof.
  intros Hids Hclock.
  assert (ids_before (now_assistant clock + 2) p) as Hlater.
  { apply (Forall_impl _ (P := made_before (now_user clock))); [|exact Hids].
    intros m. apply made_before_weaken. lia. }
  assert (made_before (now_assistant clock + 2)
            (user_message clock (input p) None None)) as Huser
      by (exists (now_user clock); split; [reflexivity | lia]).
  pose proof (converse_pushes (now_assistant clock + 2) clock fetched ltac:(lia))
    as Hconverse.
  split; [|split; [|split]].
  - apply (Forall_impl _ (P := made_before (now_user clock))); [|exact Hids].
    intros m (t & Hid & Hlt) Heq. rewrite Hid in Heq.
    apply Number_toString_inj in Heq. lia.
  - apply apply_actions_ids; [|exact Hlater].
    unfold handleSend.
    destruct (negb (truthy (trim (input p))) || isLoading (pane p)); cbn [actions idle].
    + constructor.
    + constructor; [exact Huser|]. constructor; [exact I|]. constructor; [exact I|].
      exact Hconverse.
  - intros props sel. apply apply_actions_ids; [|exact Hlater].
    unfold handleExplainSelection.
    destruct (truthy_string (bookId props)); [|constructor].
    destruct (isLoading (pane p)); [constructor|].
    destruct (rawManifest props), (bookType props); cbv beta iota zeta;
      try (constructor; fail);
      (destruct (negb (truthy (getSelectedText sel))); [constructor|];
       destruct (selection_position sel) as [position|]; [|repeat constructor];
       destruct (summaries_rows sel) as [thrown|rows]; [repeat constructor|];
       cbn [actions]; constructor; [exact I|]; constructor; [|exact Hconverse];
       exists (now_user clock); split; [reflexivity | lia]).
  - intros date Hlate. constructor; [|constructor].
    exists 1%Z. split; [reflexivity | exact Hlate].
Qed.

End IdentifiersProofs.

Lemma identifiers_stay_apart_witness :
  ids_before (now_assistant sample_clock + 2)
    (apply_actions sample_pane
       (actions (@handleSend one_byte_decoder simple_parse sample_pane sample_clock
                   (inr sample_response)))).
Proof.
  apply (proj1 (proj2 (@identifiers_stay_apart one_byte_decoder simple_parse
                         sample_pane sample_clock (inr sample_response)
                         ltac:(repeat constructor; exists 1%Z; split;
                               [reflexivity | vm_compute; reflexivity])
                         ltac:(vm_compute; discriminate)))).
Defined.
